(** * DSView: timeline cursors and the measurement dock

    A shallow embedding of
      - [DSView/pv/view/cursor.cpp]      (class [pv::view::Cursor]),
      - [DSView/pv/dock/measuredock.cpp] (class [pv::dock::MeasureDock]),
    with the state they read from [pv::view::View] ([view.h]).

    Conventions.
      - C++ integers are [Z]; every place where the source leaves the
        mathematical integers (unsigned subtraction, narrowing casts) goes
        through one of the [wrap_*] functions below.
      - [double] and [float] are IEEE-754 binary64 / binary32 values, taken
        from the kernel's own specification of floating point ([SpecFloat]).
      - A widget pointer is an [option]: [None] is [NULL], [Some w] is a live
        widget whose observable state is [w].  Every widget of a row is
        created for that row alone by [build_dist_pannel] /
        [build_edge_pannel], so no two rows ever share one and the widget
        state can sit in the row that owns the pointer.
      - Dereferencing [NULL] is a fault; functions that dereference return
        [option], with [None] for the fault. *)

From Stdlib Require Import ZArith List String Ascii Bool Lia.
From Stdlib Require Import SpecFloat DecimalString.
Import ListNotations.
Local Open Scope string_scope.
Local Open Scope Z_scope.

(** ** Machine integers *)

Definition wrap_u64 (z : Z) : Z := z mod 2 ^ 64.
Definition wrap_i64 (z : Z) : Z := (z + 2 ^ 63) mod 2 ^ 64 - 2 ^ 63.
Definition wrap_i32 (z : Z) : Z := (z + 2 ^ 31) mod 2 ^ 32 - 2 ^ 31.

(** ** Floating point *)

Definition double := spec_float.
Definition float := spec_float.

Definition dbl_prec : Z := 53.
Definition dbl_emax : Z := 1024.
Definition flt_prec : Z := 24.
Definition flt_emax : Z := 128.

(** Integer-to-floating conversion, round to nearest even. *)
Definition double_of_Z (z : Z) : double := binary_normalize dbl_prec dbl_emax z 0 false.
Definition float_of_Z (z : Z) : float := binary_normalize flt_prec flt_emax z 0 false.

Definition dmul : double -> double -> double := SFmul dbl_prec dbl_emax.
Definition ddiv : double -> double -> double := SFdiv dbl_prec dbl_emax.
Definition fsub : float -> float -> float := SFsub flt_prec flt_emax.

(** [a < b] and [a <= b] on doubles: false as soon as one side is NaN. *)
Definition dlt (a b : double) : bool := SFltb a b.
Definition dle (a b : double) : bool := SFleb a b.

(** Not a number. *)
Definition is_nan (x : spec_float) : bool :=
  match x with
  | S754_nan => true
  | _ => false
  end.

(** The literal [0.5f]. *)
Definition float_half : float := binary_normalize flt_prec flt_emax 1 (-1) false.

(** Floating-to-integer conversion: the fraction is discarded.  (The
    conversion of a NaN or an infinity is undefined in C++; 0 stands for
    it here.) *)
Definition trunc_to_Z (f : spec_float) : Z :=
  match f with
  | S754_finite s m e =>
      let mag := if 0 <=? e then Z.pos m * 2 ^ e else Z.pos m / 2 ^ (- e) in
      if s then - mag else mag
  | _ => 0
  end.

(** ** Strings *)

(** [QString::number] on an integer. *)
Definition QString_number (z : Z) : string := NilZero.string_of_int (Z.to_int z).

(** [QString::replace(QChar before, QChar after)]: every occurrence. *)
Fixpoint QString_replace (before after : ascii) (s : string) : string :=
  match s with
  | EmptyString => EmptyString
  | String c rest =>
      String (if Ascii.eqb c before then after else c)
             (QString_replace before after rest)
  end.

(** Does the character occur in the string? *)
Fixpoint occurs (c : ascii) (s : string) : bool :=
  match s with
  | EmptyString => false
  | String d rest => Ascii.eqb d c || occurs c rest
  end.

(** How many times the character occurs in the string. *)
Fixpoint glyph_count (c : ascii) (s : string) : nat :=
  match s with
  | EmptyString => O
  | String d rest => ((if Ascii.eqb d c then 1 else 0) + glyph_count c rest)%nat
  end.

Definition plus_glyph : ascii := "+"%char.
Definition minus_glyph : ascii := "-"%char.

(** ** Qt values *)

(** [QRect(left, top, width, height)]. *)
Record QRect := mkQRect { rc_left : Z; rc_top : Z; rc_width : Z; rc_height : Z }.

(** [QSize(width, height)]. *)
Record QSize := mkQSize { sz_width : Z; sz_height : Z }.

(** A [QPushButton]: its text.  (The style sheet, the only other thing the
    dock changes on a button, is presentation and is left out.) *)
Record QPushButton := mkQPushButton { bt_text : string }.

(** A [QLabel]: its text. *)
Record QLabel := mkQLabel { lb_text : string }.

(** A [QToolButton] (the delete button of a row) carries no state of its own. *)
Record QToolButton := mkQToolButton { }.

(** A [QComboBox] as the probe selector uses it.  Every item is
    [QString::number(channel index)]; the model keeps the number, so
    [item -> toInt()] is the number itself.  [cb_current] is
    [currentIndex()], -1 when nothing is selected. *)
Record QComboBox := mkQComboBox { cb_items : list Z; cb_current : Z }.

Definition QComboBox_count (b : QComboBox) : Z := Z.of_nat (List.length (cb_items b)).

(** [clear()]. *)
Definition QComboBox_clear (b : QComboBox) : QComboBox := mkQComboBox [] (-1).

(** [addItem]: the first item added to an empty box becomes the current one. *)
Definition QComboBox_addItem (b : QComboBox) (item : Z) : QComboBox :=
  {| cb_items := cb_items b ++ [item];
     cb_current := if cb_current b =? -1 then 0 else cb_current b |}.

(** [setCurrentIndex]: an index outside the items clears the selection. *)
Definition QComboBox_setCurrentIndex (b : QComboBox) (i : Z) : QComboBox :=
  {| cb_items := cb_items b;
     cb_current := if (0 <=? i) && (i <? QComboBox_count b) then i else -1 |}.

(** [currentText().toInt()]: the empty text of an empty selection gives 0. *)
Definition QComboBox_currentText_toInt (b : QComboBox) : Z :=
  if (0 <=? cb_current b) && (cb_current b <? QComboBox_count b)
  then nth (Z.to_nat (cb_current b)) (cb_items b) 0
  else 0.

(** ** The option monad of faults *)

Definition bind {A B : Type} (m : option A) (k : A -> option B) : option B :=
  match m with
  | Some a => k a
  | None => None
  end.

Notation "x <- m ;; k" := (bind m (fun x => k))
  (at level 61, m at next level, right associativity).

(** ** The session and its signals *)

(** Device work modes ([get_work_mode()]); any value besides the three
    named ones is [UNKNOWN_DSL_MODE]. *)
Inductive work_mode := LOGIC | DSO | ANALOG | UNKNOWN_DSL_MODE.

(** Channel kinds ([signal_type()]). *)
Inductive channel_type :=
  | SR_CHANNEL_LOGIC | SR_CHANNEL_DSO | SR_CHANNEL_ANALOG | SR_CHANNEL_OTHER.

Definition channel_type_eqb (a b : channel_type) : bool :=
  match a, b with
  | SR_CHANNEL_LOGIC, SR_CHANNEL_LOGIC
  | SR_CHANNEL_DSO, SR_CHANNEL_DSO
  | SR_CHANNEL_ANALOG, SR_CHANNEL_ANALOG
  | SR_CHANNEL_OTHER, SR_CHANNEL_OTHER => true
  | _, _ => false
  end.

(** A trace of the session.  [snapshot] is the bit-level sample data of a
    logic channel, [None] when the channel has none. *)
Record Signal := mkSignal {
  signal_type : channel_type;
  enabled : bool;
  get_index : Z;                  (* int *)
  snapshot : option (list bool)
}.

Record SigSession := mkSigSession {
  get_work_mode : work_mode;      (* get_device()->get_work_mode() *)
  get_signals : list Signal;
  cur_snap_samplerate : Z         (* an unsigned 64-bit sample count per second *)
}.

(** ** [pv::view::Cursor] and the part of [pv::view::View] it reads *)

(** A cursor: [_index] comes from [TimeMarker], [_order] and [_text_size]
    are the cursor's own members. *)
Record Cursor := mkCursor {
  _index : Z;        (* uint64_t *)
  _order : Z;        (* int *)
  _text_size : QSize
}.

Definition set_order (c : Cursor) (order : Z) : Cursor :=
  {| _index := _index c; _order := order; _text_size := _text_size c |}.

(** The state of the view the cursors and the dock read.  [_cursorList] is
    the list [get_cursorList()] returns for the mode the device is in (the
    view keeps one list per kind of mode, [_logic_cursors] and
    [_dso_cursors]). *)
Record View := mkView {
  session : SigSession;         (* the session the view shows *)
  _scale : double;              (* seconds per pixel *)
  _x_offset : Z;                (* int64_t, pixels *)
  view_width : Z;               (* QWidget::width(), int *)
  _cursorList : list Cursor     (* get_cursorList(), in display order *)
}.

Definition set_cursorList (view : View) (l : list Cursor) : View :=
  mkView (session view) (_scale view) (_x_offset view) (view_width view) l.

Definition Cursor_Offset : Z := 1.
Definition Cursor_ArrowSize : Z := 10.
Definition Cursor_CloseSize : Z := 10.

(** Storage before construction.  [uninit_order] and [uninit_text_size] are
    whatever the bytes of the members held before the constructor ran;
    the base-class constructor [TimeMarker(view, sampleIndex)] stores the
    sample index. *)
Definition TimeMarker_ctor (uninit_order : Z) (uninit_text_size : QSize)
    (sampleIndex : Z) : Cursor :=
  {| _index := sampleIndex; _order := uninit_order; _text_size := uninit_text_size |}.

(** [Cursor::Cursor(View &view, int order, uint64_t sampleIndex)]:
    the body is [_order = _order;]. *)
Definition Cursor_ctor (uninit_order : Z) (uninit_text_size : QSize)
    (order : Z) (sampleIndex : Z) : Cursor :=
  let this := TimeMarker_ctor uninit_order uninit_text_size sampleIndex in
  set_order this (_order this).

Section CursorLabel.

(** [View::index2pixel] and [View::LabelPadding] are defined in view.cpp,
    which is not among the sources; they only matter for the rectangle of
    a visible label.  [index2pixel] is taken as the [int64_t] the call site
    stores, [LabelPadding] as an integral size. *)
Variable index2pixel : View -> Z -> bool -> Z.
Variable LabelPadding : QSize.

(** The converted pixel offset [_index / (samplerate * scale)]. *)
Definition cur_offset_of (view : View) (c : Cursor) : double :=
  let samples_per_pixel := dmul (double_of_Z (cur_snap_samplerate (session view))) (_scale view) in
  ddiv (double_of_Z (_index c)) samples_per_pixel.

(** [QRect Cursor::get_label_rect(const QRect &rect, bool &visible, bool has_hoff)]:
    the returned rectangle and the value left in [visible].  (The sum
    [x_offset() + width()] is taken in the integers: it stays within
    [int64_t], signed overflow being undefined.) *)
Definition get_label_rect (view : View) (c : Cursor) (rect : QRect) (has_hoff : bool)
    : QRect * bool :=
  let cur_offset := cur_offset_of view c in
  if dlt cur_offset (double_of_Z (_x_offset view)) ||
     dlt (double_of_Z (_x_offset view + view_width view)) cur_offset
  then (mkQRect (-1) (-1) 0 0, false)
  else
    let x := index2pixel view (_index c) has_hoff in
    let label_size :=
      mkQSize (sz_width (_text_size c) + sz_width LabelPadding * 2)
              (sz_height (_text_size c) + sz_height LabelPadding * 2) in
    let top :=
      trunc_to_Z (fsub (float_of_Z (rc_height rect - sz_height label_size
                                    - Cursor_Offset - Cursor_ArrowSize))
                       float_half) in
    let height := sz_height label_size in
    (mkQRect (wrap_i32 (x - Z.quot (sz_width label_size) 2)) top
             (sz_width label_size) height,
     true).

(** [QRect Cursor::get_close_rect(const QRect &rect)]; [rect.right()] is
    [left + width - 1]. *)
Definition get_close_rect (rect : QRect) : QRect :=
  mkQRect (rc_left rect + rc_width rect - 1 - Cursor_CloseSize) (rc_top rect)
          Cursor_CloseSize Cursor_CloseSize.

End CursorLabel.

(** ** Rows of the measurement dock *)

(** [struct cursor_row_info], one distance or edge row, with the fields
    measuredock.cpp reads and writes (the declaration is in measuredock.h,
    which is not among the sources). *)
Record cursor_row_info := mkRow {
  cursor1 : Z;                    (* int, -1 = unset *)
  cursor2 : Z;                    (* int, -1 = unset *)
  box : option QComboBox;
  del_bt : option QToolButton;
  start_bt : option QPushButton;
  end_bt : option QPushButton;
  r_label : option QLabel;
  channelIndex : Z                (* int *)
}.

Definition set_cursor1 (o : cursor_row_info) (v : Z) : cursor_row_info :=
  mkRow v (cursor2 o) (box o) (del_bt o) (start_bt o) (end_bt o) (r_label o) (channelIndex o).
Definition set_cursor2 (o : cursor_row_info) (v : Z) : cursor_row_info :=
  mkRow (cursor1 o) v (box o) (del_bt o) (start_bt o) (end_bt o) (r_label o) (channelIndex o).
Definition set_box (o : cursor_row_info) (v : option QComboBox) : cursor_row_info :=
  mkRow (cursor1 o) (cursor2 o) v (del_bt o) (start_bt o) (end_bt o) (r_label o) (channelIndex o).
Definition set_del_bt (o : cursor_row_info) (v : option QToolButton) : cursor_row_info :=
  mkRow (cursor1 o) (cursor2 o) (box o) v (start_bt o) (end_bt o) (r_label o) (channelIndex o).
Definition set_start_bt (o : cursor_row_info) (v : option QPushButton) : cursor_row_info :=
  mkRow (cursor1 o) (cursor2 o) (box o) (del_bt o) v (end_bt o) (r_label o) (channelIndex o).
Definition set_end_bt (o : cursor_row_info) (v : option QPushButton) : cursor_row_info :=
  mkRow (cursor1 o) (cursor2 o) (box o) (del_bt o) (start_bt o) v (r_label o) (channelIndex o).
Definition set_r_label (o : cursor_row_info) (v : option QLabel) : cursor_row_info :=
  mkRow (cursor1 o) (cursor2 o) (box o) (del_bt o) (start_bt o) (end_bt o) v (channelIndex o).

(** [struct cursor_opt_info], one row of the cursor list panel.  The
    [Cursor*] it keeps is the position of that cursor in the cursor list
    the panel was built from. *)
Record cursor_opt_info := mkOptRow {
  opt_del_bt : option QToolButton;
  goto_bt : option QPushButton;
  info_label : option QLabel;
  opt_cursor : nat
}.

(** [struct row_list_item]: the rows of one acquisition mode. *)
Record row_list_item := mkRows {
  _mode_type : work_mode;
  _dist_row_list : list cursor_row_info;
  _edge_row_list : list cursor_row_info;
  _opt_row_list : list cursor_opt_info
}.

Definition set_dist_row_list (r : row_list_item) (l : list cursor_row_info) :=
  mkRows (_mode_type r) l (_edge_row_list r) (_opt_row_list r).
Definition set_edge_row_list (r : row_list_item) (l : list cursor_row_info) :=
  mkRows (_mode_type r) (_dist_row_list r) l (_opt_row_list r).
Definition set_opt_row_list (r : row_list_item) (l : list cursor_opt_info) :=
  mkRows (_mode_type r) (_dist_row_list r) (_edge_row_list r) l.
Definition set_mode_type (r : row_list_item) (m : work_mode) :=
  mkRows m (_dist_row_list r) (_edge_row_list r) (_opt_row_list r).

(** The indices of [_mode_rows[MODE_ROWS_LENGTH]]: one entry per
    acquisition mode (logic, scope, analog). *)
Inductive mode_dex := Dex0 | Dex1 | Dex2.

Definition mode_dex_eqb (a b : mode_dex) : bool :=
  match a, b with
  | Dex0, Dex0 | Dex1, Dex1 | Dex2, Dex2 => true
  | _, _ => false
  end.

(** The part of [MeasureDock] that holds data: [_mode_rows]. *)
Record MeasureDock := mkDock {
  _mode_rows_0 : row_list_item;
  _mode_rows_1 : row_list_item;
  _mode_rows_2 : row_list_item
}.

Definition mode_rows_at (d : MeasureDock) (i : mode_dex) : row_list_item :=
  match i with
  | Dex0 => _mode_rows_0 d
  | Dex1 => _mode_rows_1 d
  | Dex2 => _mode_rows_2 d
  end.

Definition set_mode_rows_at (d : MeasureDock) (i : mode_dex) (r : row_list_item)
    : MeasureDock :=
  match i with
  | Dex0 => mkDock r (_mode_rows_1 d) (_mode_rows_2 d)
  | Dex1 => mkDock (_mode_rows_0 d) r (_mode_rows_2 d)
  | Dex2 => mkDock (_mode_rows_0 d) (_mode_rows_1 d) r
  end.

(** The data of a row, without its widgets. *)
Definition row_data (o : cursor_row_info) : Z * Z * Z :=
  (cursor1 o, cursor2 o, channelIndex o).

(** The text the row shows as its result, if it has a label. *)
Definition result_text (o : cursor_row_info) : option string :=
  match r_label o with
  | Some l => Some (lb_text l)
  | None => None
  end.

(** ** [MeasureDock::get_mode_rows] *)

(** The body of the two loops over the rows of an inactive mode. *)
Definition detach_row (o : cursor_row_info) : cursor_row_info :=
  let o := set_del_bt o None in
  let o := set_start_bt o None in
  let o := set_end_bt o None in
  let o := set_r_label o None in
  set_box o None.

(** What the loop does to [_mode_rows[i]] for [i != dex]: the rows lose
    their widgets, the cursor panel rows are deleted and the list cleared.
    For a cursor panel row with a delete button the source calls
    [deleteLater()] on its three widgets without testing the other two for
    [NULL].  A row gets its three widgets at once (the initialiser in
    [build_cursor_pannel]) and loses them at once (here), so it has the
    three or none; the model is of docks with such rows
    ([cursor_panel_whole] below), on which these calls meet no [NULL], and
    says nothing of the fault the source has on a row with a delete button
    and no jump button or label. *)
Definition detach_rows (rows : row_list_item) : row_list_item :=
  let rows := set_dist_row_list rows (map detach_row (_dist_row_list rows)) in
  let rows := set_edge_row_list rows (map detach_row (_edge_row_list rows)) in
  set_opt_row_list rows [].

Definition dex_of_mode (mode : work_mode) : mode_dex :=
  match mode with
  | LOGIC => Dex0
  | DSO => Dex1
  | ANALOG => Dex2
  | UNKNOWN_DSL_MODE => Dex0
  end.

Definition detach_unless (dex i : mode_dex) (d : MeasureDock) : MeasureDock :=
  if mode_dex_eqb i dex then d else set_mode_rows_at d i (detach_rows (mode_rows_at d i)).

(** [row_list_item* MeasureDock::get_mode_rows()]: the dock after the call
    and the index of the entry the returned pointer points to. *)
Definition get_mode_rows (session : SigSession) (d : MeasureDock)
    : MeasureDock * mode_dex :=
  let mode := get_work_mode session in
  let dex := dex_of_mode mode in
  let d := detach_unless dex Dex0 d in
  let d := detach_unless dex Dex1 d in
  let d := detach_unless dex Dex2 d in
  (set_mode_rows_at d dex (set_mode_type (mode_rows_at d dex) mode), dex).

(** ** The marker registry of the view (view.cpp is not among the sources) *)

(** Modelled from the spec: [uint64_t View::get_cursor_samples(int index)],
    declared in view.h and defined in view.cpp, which is missing.  The spec
    exposes "the current marker list (ordered, with display_order and
    sample_index)": the call gives the sample index of the marker at the
    0-based position [index] of the list, and 0 when there is none. *)
Definition get_cursor_samples (view : View) (index : Z) : Z :=
  if (0 <=? index) && (index <? Z.of_nat (List.length (_cursorList view)))
  then match nth_error (_cursorList view) (Z.to_nat index) with
       | Some c => _index c
       | None => 0
       end
  else 0.

(** Modelled from the spec: [View::make_cursors_order] (missing, view.cpp).
    "display_order is always a contiguous 1..N sequence": the marker at
    position k of the list gets the order k+1. *)
Fixpoint make_cursors_order_from (k : Z) (l : list Cursor) : list Cursor :=
  match l with
  | [] => []
  | c :: rest => set_order c k :: make_cursors_order_from (k + 1) rest
  end.

Definition make_cursors_order (l : list Cursor) : list Cursor :=
  make_cursors_order_from 1 l.

(** Modelled from the spec: the deletion of the marker at position [k] inside
    [View::del_cursor] (missing, view.cpp); the other markers keep their
    relative order. *)
Fixpoint remove_at {A : Type} (k : nat) (l : list A) : list A :=
  match l, k with
  | [], _ => []
  | _ :: rest, O => rest
  | a :: rest, S k' => a :: remove_at k' rest
  end.

(** Modelled from the spec: [void View::del_cursor(Cursor* cursor)] (missing,
    view.cpp).  "remove(marker): deletes; reassigns display_order for
    remaining markers."  The pointer is the position of the marker in the
    list. *)
Definition View_del_cursor (view : View) (cursor : nat) : View :=
  set_cursorList view (make_cursors_order (remove_at cursor (_cursorList view))).

(** ** Edge scan of a logic channel (logicsignal.cpp is not among the sources) *)

(** Modelled from the spec: the counting inside [LogicSignal::edges]
    (missing, logicsignal.cpp).  Rising (0 to 1) and falling (1 to 0)
    transitions along [bits], the sample before them being [prev]. *)
Fixpoint count_edges (prev : bool) (bits : list bool) : Z * Z :=
  match bits with
  | [] => (0, 0)
  | b :: rest =>
      let '(rising, falling) := count_edges b rest in
      (if negb prev && b then rising + 1 else rising,
       if prev && negb b then falling + 1 else falling)
  end.

(** Modelled from the spec: [bool LogicSignal::edges(uint64_t end, uint64_t
    start, uint64_t &rising, uint64_t &falling)], defined in logicsignal.cpp,
    which is missing.  "Scans the channel's bit-level sample snapshot over the
    ... closed interval [min(index_a,index_b), max(index_a,index_b)] and
    counts 0->1 transitions (rising) and 1->0 transitions (falling);
    not_available is returned when ... the snapshot is absent."  [None] is
    the [false] return, [Some (rising, falling)] the [true] return with the
    two counters. *)
Definition LogicSignal_edges (s : Signal) (end_ start : Z) : option (Z * Z) :=
  match snapshot s with
  | None => None
  | Some bits =>
      let lo := Z.min start end_ in
      let hi := Z.max start end_ in
      match firstn (Z.to_nat (hi - lo + 1)) (skipn (Z.to_nat lo) bits) with
      | [] => Some (0, 0)
      | b :: rest => Some (count_edges b rest)
      end
  end.

(** ** [pv::dock::MeasureDock] *)

Section Dock.

(** From measuredock.h, which is not among the sources: the cap on the rows
    of one kind. *)
Variable Max_Measure_Limits : nat.

(** [QString View::get_cm_delta(int index1, int index2)] and
    [QString View::get_cm_time(int index)], defined in view.cpp: the
    formatted time between two markers and the formatted time of one. *)
Variable get_cm_delta : View -> Z -> Z -> string.
Variable get_cm_time : View -> Z -> string.

(** The call [logicSig->edges(end, start, rising, falling)]. *)
Variable edges : Signal -> Z -> Z -> option (Z * Z).

(** [btn->setText(text)]. *)
Definition QPushButton_setText (b : QPushButton) (text : string) : QPushButton :=
  mkQPushButton text.

(** [label->setText(text)]. *)
Definition QLabel_setText (l : QLabel) (text : string) : QLabel :=
  mkQLabel text.

(** [void MeasureDock::set_cursor_btn_color(QPushButton *btn)]: reads the
    text of the button and changes its style sheet only; it faults on
    [NULL]. *)
Definition set_cursor_btn_color (btn : option QPushButton) : option QPushButton :=
  b <- btn ;; Some b.

(** [void MeasureDock::update_probe_selector(QComboBox *selector)]. *)
Fixpoint probe_items (sigs : list Signal) (selector : QComboBox) : QComboBox :=
  match sigs with
  | [] => selector
  | s :: rest =>
      if channel_type_eqb (signal_type s) SR_CHANNEL_LOGIC && enabled s
      then probe_items rest (QComboBox_addItem selector (get_index s))
      else probe_items rest selector
  end.

Definition update_probe_selector (sess : SigSession) (selector : QComboBox) : QComboBox :=
  probe_items (get_signals sess) (QComboBox_clear selector).

(** [QComboBox* MeasureDock::create_probe_selector(QWidget *parent)]. *)
Definition create_probe_selector (sess : SigSession) : QComboBox :=
  update_probe_selector sess (mkQComboBox [] (-1)).

(** The body of the loop of [build_dist_pannel] for the row [o]. *)
Definition build_dist_row (o : cursor_row_info) : cursor_row_info :=
  let del_btn := mkQToolButton in
  let s_btn := mkQPushButton "" in
  let e_btn := mkQPushButton "" in
  let r_label_new := mkQLabel "" in
  let r_label_new :=
    match r_label o with
    | Some old => QLabel_setText r_label_new (lb_text old)
    | None => r_label_new
    end in
  let o := set_del_bt o (Some del_btn) in
  let o := set_start_bt o (Some s_btn) in
  let o := set_end_bt o (Some e_btn) in
  let o := set_r_label o (Some r_label_new) in
  let o :=
    if negb (cursor1 o =? -1)
    then set_start_bt o (Some (QPushButton_setText s_btn (QString_number (cursor1 o))))
    else o in
  if negb (cursor2 o =? -1)
  then set_end_bt o (Some (QPushButton_setText e_btn (QString_number (cursor2 o))))
  else o.

(** [void MeasureDock::build_dist_pannel()]. *)
Definition build_dist_pannel (view : View) (d : MeasureDock) : MeasureDock :=
  let '(d, dex) := get_mode_rows (session view) d in
  let mode_rows := mode_rows_at d dex in
  set_mode_rows_at d dex
    (set_dist_row_list mode_rows (map build_dist_row (_dist_row_list mode_rows))).

(** The body of the loop of [build_edge_pannel] for the row [o]. *)
Definition build_edge_row (sess : SigSession) (o : cursor_row_info) : cursor_row_info :=
  let del_btn := mkQToolButton in
  let s_btn := mkQPushButton " " in
  let e_btn := mkQPushButton " " in
  let r_label_new := mkQLabel "" in
  let ch_cmb := create_probe_selector sess in
  let ch_cmb :=
    if channelIndex o <? QComboBox_count ch_cmb
    then QComboBox_setCurrentIndex ch_cmb (channelIndex o)
    else ch_cmb in
  let r_label_new :=
    match r_label o with
    | Some old => QLabel_setText r_label_new (lb_text old)
    | None => r_label_new
    end in
  let o := set_del_bt o (Some del_btn) in
  let o := set_start_bt o (Some s_btn) in
  let o := set_end_bt o (Some e_btn) in
  let o := set_r_label o (Some r_label_new) in
  let o := set_box o (Some ch_cmb) in
  let o :=
    if negb (cursor1 o =? -1)
    then set_start_bt o (Some (QPushButton_setText s_btn (QString_number (cursor1 o))))
    else o in
  if negb (cursor2 o =? -1)
  then set_end_bt o (Some (QPushButton_setText e_btn (QString_number (cursor2 o))))
  else o.

(** [void MeasureDock::build_edge_pannel()]. *)
Definition build_edge_pannel (view : View) (d : MeasureDock) : MeasureDock :=
  let '(d, dex) := get_mode_rows (session view) d in
  let mode_rows := mode_rows_at d dex in
  set_mode_rows_at d dex
    (set_edge_row_list mode_rows
       (map (build_edge_row (session view)) (_edge_row_list mode_rows))).

(** The row [add_dist_measure] and [add_edge_measure] push back. *)
Definition new_row_info : cursor_row_info :=
  {| cursor1 := -1; cursor2 := -1; box := None; del_bt := None;
     start_bt := None; end_bt := None; r_label := None; channelIndex := 0 |}.

(** [void MeasureDock::add_dist_measure()]. *)
Definition add_dist_measure (view : View) (d : MeasureDock) : MeasureDock :=
  let '(d, dex) := get_mode_rows (session view) d in
  let mode_rows := mode_rows_at d dex in
  if (List.length (_dist_row_list mode_rows) <? Max_Measure_Limits)%nat
  then
    let inf := new_row_info in
    let d := set_mode_rows_at d dex
               (set_dist_row_list mode_rows (_dist_row_list mode_rows ++ [inf])) in
    build_dist_pannel view d
  else d.

(** [void MeasureDock::add_edge_measure()]. *)
Definition add_edge_measure (view : View) (d : MeasureDock) : MeasureDock :=
  let '(d, dex) := get_mode_rows (session view) d in
  let mode_rows := mode_rows_at d dex in
  if (List.length (_edge_row_list mode_rows) <? Max_Measure_Limits)%nat
  then
    let inf := new_row_info in
    let d := set_mode_rows_at d dex
               (set_edge_row_list mode_rows (_edge_row_list mode_rows ++ [inf])) in
    build_edge_pannel view d
  else d.

(** [(int)cursor_list.size()].  (The list never comes near 2^31 markers, so
    the cast is the identity.) *)
Definition cursor_count (view : View) : Z := Z.of_nat (List.length (_cursorList view)).

(** The two nested tests on a reference [c]:
    [c != -1] and [c > (int)cursor_list.size()]. *)
Definition is_stale (view : View) (c : Z) : bool :=
  negb (c =? -1) && (cursor_count view <? c).

(** The first stale-reference check of the loop body, the same in
    [update_dist] and [update_edge] up to a restyling of the button:
    [if (inf.cursor1 != -1) { if (inf.cursor1 > (int)cursor_list.size()) {
       inf.start_bt->setText(""); inf.cursor1 = -1; } }]. *)
Definition clear_stale_cursor1 (view : View) (inf : cursor_row_info)
    : option cursor_row_info :=
  if is_stale view (cursor1 inf)
  then
    b <- start_bt inf ;;
    let inf := set_start_bt inf (Some (QPushButton_setText b "")) in
    Some (set_cursor1 inf (-1))
  else Some inf.

(** The same for [cursor2] and [end_bt]. *)
Definition clear_stale_cursor2 (view : View) (inf : cursor_row_info)
    : option cursor_row_info :=
  if is_stale view (cursor2 inf)
  then
    b <- end_bt inf ;;
    let inf := set_end_bt inf (Some (QPushButton_setText b "")) in
    Some (set_cursor2 inf (-1))
  else Some inf.

(** [int64_t delta = _view.get_cursor_samples(inf.cursor1-1) -
                     _view.get_cursor_samples(inf.cursor2-1);]
    an unsigned 64-bit subtraction whose result is read as signed. *)
Definition dist_delta (view : View) (c1 c2 : Z) : Z :=
  wrap_i64 (wrap_u64 (get_cursor_samples view (c1 - 1) - get_cursor_samples view (c2 - 1))).

(** The text [update_dist] gives a row whose two references are bound. *)
Definition dist_text (view : View) (c1 c2 : Z) : string :=
  let delta := dist_delta view c1 c2 in
  let delta_text :=
    (get_cm_delta view (c1 - 1) (c2 - 1) ++ "/" ++ QString_number delta)%string in
  if delta <? 0 then QString_replace plus_glyph minus_glyph delta_text else delta_text.

(** The body of the loop of [update_dist] after the [start_bt == NULL] test. *)
Definition update_dist_row (view : View) (inf : cursor_row_info)
    : option cursor_row_info :=
  inf <- clear_stale_cursor1 view inf ;;
  _ <- set_cursor_btn_color (start_bt inf) ;;
  inf <- clear_stale_cursor2 view inf ;;
  _ <- set_cursor_btn_color (end_bt inf) ;;
  l <- r_label inf ;;
  if negb (cursor1 inf =? -1) && negb (cursor2 inf =? -1)
  then Some (set_r_label inf
               (Some (QLabel_setText l (dist_text view (cursor1 inf) (cursor2 inf)))))
  else Some (set_r_label inf (Some (QLabel_setText l " "))).

(** The loop both [update_dist] and [update_edge] run over their rows:
    [for (auto &inf : list) { if (inf.start_bt == NULL) break; body }].
    The first row without a start button ends it, leaving that row and the
    rows after it as they are. *)
Fixpoint rows_until_unbound (body : cursor_row_info -> option cursor_row_info)
    (rows : list cursor_row_info) : option (list cursor_row_info) :=
  match rows with
  | [] => Some []
  | inf :: rest =>
      match start_bt inf with
      | None => Some rows
      | Some _ =>
          inf' <- body inf ;;
          rest' <- rows_until_unbound body rest ;;
          Some (inf' :: rest')
      end
  end.

(** The loop of [update_dist]. *)
Definition update_dist_rows (view : View) (rows : list cursor_row_info)
    : option (list cursor_row_info) :=
  rows_until_unbound (update_dist_row view) rows.

(** [void MeasureDock::update_dist()]. *)
Definition update_dist (view : View) (d : MeasureDock) : option MeasureDock :=
  let '(d, dex) := get_mode_rows (session view) d in
  let mode_rows := mode_rows_at d dex in
  rows <- update_dist_rows view (_dist_row_list mode_rows) ;;
  Some (set_mode_rows_at d dex (set_dist_row_list mode_rows rows)).

(** The text of a successful edge scan. *)
Definition edge_text (rising_edges falling_edges : Z) : string :=
  (QString_number rising_edges ++ "/" ++
   QString_number falling_edges ++ "/" ++
   QString_number (wrap_u64 (rising_edges + falling_edges)))%string.

(** The loop over [_session->get_signals()] in [update_edge]: the text of
    the first signal that is a logic channel, enabled, has the index the
    selector shows and whose scan succeeds; [Some None] when the loop ends
    without one ([mValid] stays false).  The selector is dereferenced only
    for a signal that passed the first two tests. *)
Fixpoint scan_signals (view : View) (inf : cursor_row_info) (sigs : list Signal)
    : option (option string) :=
  match sigs with
  | [] => Some None
  | s :: rest =>
      if channel_type_eqb (signal_type s) SR_CHANNEL_LOGIC && enabled s
      then
        b <- box inf ;;
        if get_index s =? QComboBox_currentText_toInt b
        then
          match edges s (get_cursor_samples view (cursor2 inf - 1))
                        (get_cursor_samples view (cursor1 inf - 1)) with
          | Some (rising_edges, falling_edges) =>
              Some (Some (edge_text rising_edges falling_edges))
          | None => scan_signals view inf rest
          end
        else scan_signals view inf rest
      else scan_signals view inf rest
  end.

(** The body of the loop of [update_edge] after the [start_bt == NULL] test. *)
Definition update_edge_row (view : View) (inf : cursor_row_info)
    : option cursor_row_info :=
  inf <- clear_stale_cursor1 view inf ;;
  inf <- clear_stale_cursor2 view inf ;;
  found <-
    (if negb (cursor1 inf =? -1) && negb (cursor2 inf =? -1)
     then scan_signals view inf (get_signals (session view))
     else Some None) ;;
  l <- r_label inf ;;
  match found with
  | Some delta_text => Some (set_r_label inf (Some (QLabel_setText l delta_text)))
  | None => Some (set_r_label inf (Some (QLabel_setText l "-/-/-")))
  end.

(** The loop of [update_edge]. *)
Definition update_edge_rows (view : View) (rows : list cursor_row_info)
    : option (list cursor_row_info) :=
  rows_until_unbound (update_edge_row view) rows.

(** [void MeasureDock::update_edge()]. *)
Definition update_edge (view : View) (d : MeasureDock) : option MeasureDock :=
  let '(d, dex) := get_mode_rows (session view) d in
  let mode_rows := mode_rows_at d dex in
  rows <- update_edge_rows view (_edge_row_list mode_rows) ;;
  Some (set_mode_rows_at d dex (set_edge_row_list mode_rows rows)).

(** The text of a cursor panel row: time, "/", sample index. *)
Definition cur_pos_text (view : View) (i : Z) : string :=
  (get_cm_time view i ++ "/" ++ QString_number (get_cursor_samples view i))%string.

Fixpoint update_cursor_info_rows (view : View) (i : Z) (rows : list cursor_opt_info)
    : list cursor_opt_info :=
  match rows with
  | [] => []
  | row :: rest =>
      (match info_label row with
       | Some l =>
           mkOptRow (opt_del_bt row) (goto_bt row)
                    (Some (QLabel_setText l (cur_pos_text view i))) (opt_cursor row)
       | None => row
       end) :: update_cursor_info_rows view (i + 1) rest
  end.

(** [void MeasureDock::update_cursor_info()]; the failed [assert] is a fault. *)
Definition update_cursor_info (view : View) (d : MeasureDock) : option MeasureDock :=
  let '(d, dex) := get_mode_rows (session view) d in
  let mode_rows := mode_rows_at d dex in
  let num_cursors := List.length (_cursorList view) in
  let num_rows := List.length (_opt_row_list mode_rows) in
  if (num_rows =? 0)%nat then Some d
  else if (num_cursors =? num_rows)%nat
  then Some (set_mode_rows_at d dex
               (set_opt_row_list mode_rows
                  (update_cursor_info_rows view 0 (_opt_row_list mode_rows))))
  else None.

(** The loop of [build_cursor_pannel] over the cursor list. *)
Fixpoint build_cursor_rows (view : View) (cursor_dex : nat) (cursors : list Cursor)
    : list cursor_opt_info :=
  match cursors with
  | [] => []
  | _ :: rest =>
      let index := Z.of_nat cursor_dex + 1 in
      mkOptRow (Some mkQToolButton)
               (Some (mkQPushButton (QString_number index)))
               (Some (mkQLabel (cur_pos_text view (Z.of_nat cursor_dex))))
               cursor_dex
      :: build_cursor_rows view (S cursor_dex) rest
  end.

(** [void MeasureDock::build_cursor_pannel()].  The first loop deletes the
    widgets of the rows there are, with the unguarded calls described at
    [detach_rows], before the list is cleared: as there, the model is of
    docks whose cursor panel rows have their three widgets or none. *)
Definition build_cursor_pannel (view : View) (d : MeasureDock) : MeasureDock :=
  let '(d, dex) := get_mode_rows (session view) d in
  let mode_rows := mode_rows_at d dex in
  set_mode_rows_at d dex
    (set_opt_row_list mode_rows (build_cursor_rows view 0 (_cursorList view))).

(** [void MeasureDock::reCalc()]. *)
Definition reCalc (view : View) (d : MeasureDock) : option MeasureDock :=
  d <- update_dist view d ;;
  d <- update_edge view d ;;
  update_cursor_info view d.

(** [void MeasureDock::cursor_update()]. *)
Definition cursor_update (view : View) (d : MeasureDock) : option MeasureDock :=
  d <- update_dist view d ;;
  d <- update_edge view d ;;
  Some (build_cursor_pannel view d).

(** [void MeasureDock::reload()]. *)
Definition reload (view : View) (d : MeasureDock) : option MeasureDock :=
  let d := build_dist_pannel view d in
  let d := build_edge_pannel view d in
  let d := build_cursor_pannel view d in
  reCalc view d.

(** [void MeasureDock::del_cursor()], [sender] being the position of the
    cursor panel row whose delete button was clicked.  (The "cursors shown"
    flag of the view, cleared when the list becomes empty, is not part of
    the state kept here.) *)
Definition del_cursor (sender : nat) (view : View) (d : MeasureDock)
    : option (View * MeasureDock) :=
  let '(d, dex) := get_mode_rows (session view) d in
  let mode_rows := mode_rows_at d dex in
  let cursor :=
    match nth_error (_opt_row_list mode_rows) sender with
    | Some row => Some (opt_cursor row)
    | None => None
    end in
  let view :=
    match cursor with
    | Some c => View_del_cursor view c
    | None => view
    end in
  d <- cursor_update view d ;;
  Some (view, d).

(** Switching the device to another work mode. *)
Definition set_work_mode (view : View) (mode : work_mode) : View :=
  mkView (mkSigSession mode (get_signals (session view))
                       (cur_snap_samplerate (session view)))
         (_scale view) (_x_offset view) (view_width view) (_cursorList view).

End Dock.

(** ** Vocabulary of the properties *)

(** The entry of [_mode_rows] that [get_mode_rows()] returns under [view]. *)
Definition active_dex (view : View) : mode_dex :=
  dex_of_mode (get_work_mode (session view)).

(** The distance rows and the edge rows of the active mode. *)
Definition dist_rows (view : View) (d : MeasureDock) : list cursor_row_info :=
  _dist_row_list (mode_rows_at d (active_dex view)).
Definition edge_rows (view : View) (d : MeasureDock) : list cursor_row_info :=
  _edge_row_list (mode_rows_at d (active_dex view)).

Definition is_some {A : Type} (p : option A) : bool :=
  match p with
  | Some _ => true
  | None => false
  end.

(** A distance row is displayed when it has the widgets [build_dist_pannel]
    gives it; an edge row when it also has its channel selector. *)
Definition dist_displayed (o : cursor_row_info) : bool :=
  is_some (start_bt o) && is_some (end_bt o) && is_some (r_label o).
Definition edge_displayed (o : cursor_row_info) : bool :=
  dist_displayed o && is_some (box o).


Definition all_rows (p : cursor_row_info -> bool) (rows : list cursor_row_info) : bool :=
  forallb p rows.

(** The text of a button, if there is one. *)
Definition button_text (b : option QPushButton) : option string :=
  match b with
  | Some w => Some (bt_text w)
  | None => None
  end.

(** The row with its two marker references exchanged. *)
Definition swap_refs (o : cursor_row_info) : cursor_row_info :=
  set_cursor2 (set_cursor1 o (cursor2 o)) (cursor1 o).

(** The first character of a text is [g]. *)
Definition leads_with (g : ascii) (s : string) : bool :=
  match s with
  | String c _ => Ascii.eqb c g
  | EmptyString => false
  end.

(** A reference after the stale check. *)
Definition checked_ref (view : View) (c : Z) : Z :=
  if is_stale view c then -1 else c.

(** The text of a button after the stale check of its reference. *)
Definition checked_text (view : View) (c : Z) (b : option QPushButton) : option string :=
  if is_stale view c then Some "" else button_text b.

(** The result an edge row shows after the pass. *)
Definition edge_result (edges : Signal -> Z -> Z -> option (Z * Z))
    (view : View) (o : cursor_row_info) : string :=
  if negb (checked_ref view (cursor1 o) =? -1) && negb (checked_ref view (cursor2 o) =? -1)
  then match scan_signals edges view o (get_signals (session view)) with
       | Some (Some delta_text) => delta_text
       | _ => "-/-/-"
       end
  else "-/-/-".

(** The channel an edge row refers to: the number its selector shows. *)
Definition referenced_channel (b : QComboBox) : Z := QComboBox_currentText_toInt b.

(** The signal gives no edge counts: it is not a logic channel, or it is
    disabled, or its edge scan reports failure. *)
Definition not_available (edges : Signal -> Z -> Z -> option (Z * Z)) (s : Signal) : Prop :=
  signal_type s <> SR_CHANNEL_LOGIC
  \/ enabled s = false
  \/ forall end_ start, edges s end_ start = None.

(** What the cleanup does to one reference [c] with button text [t],
    giving [c'] and [t']: cleared when above the marker count, kept
    otherwise. *)
Definition cleanup_of (view : View) (c : Z) (t : option string)
    (c' : Z) (t' : option string) : Prop :=
  (cursor_count view < c -> c' = -1 /\ t' = Some "")
  /\ (c <= cursor_count view -> c' = c /\ t' = t).


(** ** Concrete states used to exercise the definitions *)

(** One microsecond per pixel. *)
Definition scale_1us : double := ddiv (double_of_Z 1) (double_of_Z 1000000).

Definition sample_signals : list Signal :=
  [ mkSignal SR_CHANNEL_LOGIC true 0 (Some [false; false; true; true; false; false; true]);
    mkSignal SR_CHANNEL_LOGIC false 1 (Some [true; false; true]);
    mkSignal SR_CHANNEL_DSO true 2 None ].

Definition sample_session : SigSession := mkSigSession LOGIC sample_signals 1000000.

Definition cursor_at (order sampleIndex : Z) : Cursor :=
  mkCursor sampleIndex order (mkQSize 40 12).

(** Three markers at samples 1, 4 and 6. *)
Definition sample_view : View :=
  mkView sample_session scale_1us 0 800 [cursor_at 1 1; cursor_at 2 4; cursor_at 3 6].

(** Two markers 2^63 samples apart. *)
Definition far_view : View :=
  mkView sample_session scale_1us 0 800 [cursor_at 1 0; cursor_at 2 (2 ^ 63)].

(** A stand-in for [View::index2pixel] and [View::LabelPadding]. *)
Definition sample_index2pixel (view : View) (index : Z) (has_hoff : bool) : Z :=
  trunc_to_Z (cur_offset_of view (cursor_at 0 index)) - _x_offset view.
Definition sample_LabelPadding : QSize := mkQSize 4 4.

(** A stand-in for [View::get_cm_delta]: the distance in sample periods,
    with the forced sign of the ruler's formatter. *)
Definition sample_cm_delta (view : View) (index1 index2 : Z) : string :=
  ("+" ++ QString_number (Z.abs (get_cursor_samples view index1
                                 - get_cursor_samples view index2)) ++ "T")%string.

(** A stand-in for [View::get_cm_time]. *)
Definition sample_cm_time (view : View) (index : Z) : string :=
  ("+" ++ QString_number (get_cursor_samples view index) ++ "T")%string.

(** A row with its data only, as it is before any panel is built. *)
Definition bare_row (c1 c2 ch : Z) : cursor_row_info :=
  mkRow c1 c2 None None None None None ch.

(** The session before channel 1 was disabled. *)
Definition sample_session_before : SigSession :=
  mkSigSession LOGIC
    [ mkSignal SR_CHANNEL_LOGIC true 0 (Some [false; false; true; true; false; false; true]);
      mkSignal SR_CHANNEL_LOGIC true 1 (Some [true; false; true]);
      mkSignal SR_CHANNEL_DSO true 2 None ]
    1000000.

(** A dock in logic mode: three distance rows and three edge rows with
    their widgets, the last edge row with channel 1 selected. *)
Definition sample_dock : MeasureDock :=
  mkDock
    (mkRows LOGIC
       (map build_dist_row [bare_row 1 2 0; bare_row (-1) 2 0; bare_row 2 3 0])
       (map (build_edge_row sample_session_before)
            [bare_row 1 3 0; bare_row (-1) (-1) 0; bare_row 1 2 1])
       [])
    (mkRows DSO [] [] [])
    (mkRows ANALOG [] [] []).

(** The sample dock after [reload]: panels built, results computed. *)
Definition dock_before : MeasureDock :=
  match reload sample_cm_delta sample_cm_time LogicSignal_edges sample_view sample_dock with
  | Some d => d
  | None => sample_dock
  end.

(** The same view with the device switched to oscilloscope mode. *)
Definition dso_view : View := set_work_mode sample_view DSO.



(** What a list of rows shows: references and result text. *)
Definition shown (rows : list cursor_row_info) : list (Z * Z * option string) :=
  map (fun o => (cursor1 o, cursor2 o, result_text o)) rows.

(** The sample view after the removal of its first marker: two markers left. *)
Definition two_marker_view : View := View_del_cursor sample_view 0.

From Stdlib Require Import DecimalPos DecimalZ.

(** ** [pv::dock::MeasureDock]: the slots driven by the widgets *)

(** [QString::toInt()] on the texts the dock gives its buttons: decimal
    numerals, possibly with a leading minus.  0 for the empty text, for a
    text that is no such numeral and for a number outside [int].  (Qt also
    accepts surrounding white space and a leading plus sign; no button of
    the dock carries such a text.) *)
Definition QString_toInt (s : string) : Z :=
  match NilZero.int_of_string s with
  | Some i =>
      let z := Z.of_int i in
      if (- 2 ^ 31 <=? z) && (z <? 2 ^ 31) then z else 0
  | None => 0
  end.

(** [list.erase(it)], the iterator standing at position [k]. *)
Fixpoint erase_at {A : Type} (k : nat) (l : list A) : list A :=
  match l, k with
  | [], _ => []
  | _ :: rest, O => rest
  | a :: rest, S k' => a :: erase_at k' rest
  end.

(** The element at position [k] rewritten in place. *)
Fixpoint map_at {A : Type} (k : nat) (f : A -> A) (l : list A) : list A :=
  match l, k with
  | [], _ => []
  | a :: rest, O => f a :: rest
  | a :: rest, S k' => a :: map_at k' f rest
  end.

Definition set_channelIndex (o : cursor_row_info) (v : Z) : cursor_row_info :=
  mkRow (cursor1 o) (cursor2 o) (box o) (del_bt o) (start_bt o) (end_bt o) (r_label o) v.

(** A pointer to the start or end button of a row, as [_sel_btn] keeps it.
    Every button belongs to one row, so the pointer is the place of its
    owner: the kind of row, the position of the row, the slot. *)
Record sel_button := mkSel {
  sel_in_edge_row : bool;         (* an edge row, not a distance row *)
  sel_row : nat;
  sel_is_end : bool               (* the end button, not the start button *)
}.

Section DockSlots.

Variable Max_Measure_Limits : nat.
Variable get_cm_delta : View -> Z -> Z -> string.
Variable get_cm_time : View -> Z -> string.
Variable edges : Signal -> Z -> Z -> option (Z * Z).

(** [MeasureDock::MeasureDock(QWidget *parent, View &view, SigSession *session)]:
    the row lists start empty (the [_mode_type] of each entry being whatever
    its storage held) and the constructor calls [add_dist_measure()]. *)
Definition MeasureDock_ctor (uninit0 uninit1 uninit2 : work_mode) (view : View)
    : MeasureDock :=
  add_dist_measure Max_Measure_Limits view
    (mkDock (mkRows uninit0 [] [] []) (mkRows uninit1 [] [] []) (mkRows uninit2 [] [] [])).

(** [void MeasureDock::del_dist_measure()], [sender] being the position of
    the distance row whose delete button was clicked.  The loop compares the
    delete button of each row with the (non-NULL) sender: the row at that
    position matches when it still has its button. *)
Definition del_dist_measure (sender : nat) (view : View) (d : MeasureDock) : MeasureDock :=
  let '(d, dex) := get_mode_rows (session view) d in
  let mode_rows := mode_rows_at d dex in
  match nth_error (_dist_row_list mode_rows) sender with
  | Some o =>
      if is_some (del_bt o)
      then
        let d := set_mode_rows_at d dex
                   (set_dist_row_list mode_rows
                      (erase_at sender (_dist_row_list mode_rows))) in
        build_dist_pannel view d
      else d
  | None => d
  end.

(** [void MeasureDock::del_edge_measure()]. *)
Definition del_edge_measure (sender : nat) (view : View) (d : MeasureDock) : MeasureDock :=
  let '(d, dex) := get_mode_rows (session view) d in
  let mode_rows := mode_rows_at d dex in
  match nth_error (_edge_row_list mode_rows) sender with
  | Some o =>
      if is_some (del_bt o)
      then
        let d := set_mode_rows_at d dex
                   (set_edge_row_list mode_rows
                      (erase_at sender (_edge_row_list mode_rows))) in
        build_edge_pannel view d
      else d
  | None => d
  end.

(** The assignment [o.channelIndex = box->currentIndex()] on the row that
    owns the selector. *)
Definition take_channel_index (o : cursor_row_info) : cursor_row_info :=
  match box o with
  | Some b => set_channelIndex o (cb_current b)
  | None => o
  end.

(** [void MeasureDock::on_edge_channel_selected()].  [sender] is the position
    of the edge row whose selector sent the signal, [None] when the sender is
    no selector ([box == NULL]); [_bSetting] is the flag [reload] raises
    while it builds the panels. *)
Definition on_edge_channel_selected (sender : option nat) (_bSetting : bool)
    (view : View) (d : MeasureDock) : option MeasureDock :=
  let '(d, dex) := get_mode_rows (session view) d in
  let mode_rows := mode_rows_at d dex in
  let d :=
    match sender with
    | Some k =>
        if negb _bSetting
        then set_mode_rows_at d dex
               (set_edge_row_list mode_rows
                  (map_at k take_channel_index (_edge_row_list mode_rows)))
        else d
    | None => d
    end in
  update_edge edges view d.

(** The buttons of the dialog [popup_all_coursors] opens: one per cursor,
    the button at position [index] showing [index + 1].  (With an empty
    cursor list the member shows a message instead and returns: no button.) *)
Definition popup_all_coursors (view : View) : list QPushButton :=
  map (fun index => mkQPushButton (QString_number (Z.of_nat index + 1)))
      (seq 0 (List.length (_cursorList view))).

(** The button [_sel_btn] points to, in the row [inf]. *)
Definition sel_button_of (_sel_btn : sel_button) (inf : cursor_row_info)
    : option QPushButton :=
  if sel_is_end _sel_btn then end_bt inf else start_bt inf.

(** What [set_sel_cursor] does to the row that owns [_sel_btn]: the button
    takes the text of the clicked dialog button, the reference of its slot
    the number that text reads as. *)
Definition bind_sel_cursor (_sel_btn : sel_button) (sel_cursor_bt : QPushButton)
    (inf : cursor_row_info) : cursor_row_info :=
  match sel_button_of _sel_btn inf with
  | Some b =>
      let b := QPushButton_setText b (bt_text sel_cursor_bt) in
      if sel_is_end _sel_btn
      then set_cursor2 (set_end_bt inf (Some b)) (QString_toInt (bt_text sel_cursor_bt))
      else set_cursor1 (set_start_bt inf (Some b)) (QString_toInt (bt_text sel_cursor_bt))
  | None => inf
  end.

(** [void MeasureDock::set_sel_cursor()]: [_sel_btn] is the button that
    opened the dialog, [sel_cursor_bt] the dialog button that was clicked
    (the sender).  The two loops look for the row that owns [_sel_btn], the
    distance rows first; [assert(inf)] fails when no row of the active mode
    does. *)
Definition set_sel_cursor (_sel_btn : sel_button) (sel_cursor_bt : QPushButton)
    (view : View) (d : MeasureDock) : option MeasureDock :=
  let '(d, dex) := get_mode_rows (session view) d in
  let mode_rows := mode_rows_at d dex in
  let rows :=
    if sel_in_edge_row _sel_btn then _edge_row_list mode_rows
    else _dist_row_list mode_rows in
  inf <- nth_error rows (sel_row _sel_btn) ;;
  _ <- sel_button_of _sel_btn inf ;;
  let rows := map_at (sel_row _sel_btn) (bind_sel_cursor _sel_btn sel_cursor_bt) rows in
  if sel_in_edge_row _sel_btn
  then update_edge edges view
         (set_mode_rows_at d dex (set_edge_row_list mode_rows rows))
  else update_dist get_cm_delta view
         (set_mode_rows_at d dex (set_dist_row_list mode_rows rows)).

(** [void MeasureDock::cursor_moving()]; [cursors_shown] is what
    [_view.cursors_shown()] returns. *)
Definition cursor_moving (cursors_shown : bool) (view : View) (d : MeasureDock)
    : option MeasureDock :=
  d <- (if cursors_shown then update_cursor_info get_cm_time view d else Some d) ;;
  update_dist get_cm_delta view d.

(** [void MeasureDock::reStyle()]: the three loops set the icon of the
    delete button of every distance, edge and cursor panel row of the active
    mode, without a test for [NULL]; [update_dist] follows. *)
Definition reStyle (view : View) (d : MeasureDock) : option MeasureDock :=
  let '(d, dex) := get_mode_rows (session view) d in
  let mode_rows := mode_rows_at d dex in
  if forallb (fun o => is_some (del_bt o)) (_dist_row_list mode_rows)
     && forallb (fun o => is_some (del_bt o)) (_edge_row_list mode_rows)
     && forallb (fun row => is_some (opt_del_bt row)) (_opt_row_list mode_rows)
  then update_dist get_cm_delta view d
  else None.

(** [box->setCurrentIndex(item)] on the selector of a row. *)
Definition pick_item (item : Z) (o : cursor_row_info) : cursor_row_info :=
  match box o with
  | Some b => set_box o (Some (QComboBox_setCurrentIndex b item))
  | None => o
  end.

(** The user picks the item at position [item] in the selector of the edge
    row at position [k]: the selector changes its current index and sends
    [currentIndexChanged] to [on_edge_channel_selected].  (Qt sends the
    signal on a change of the index; the slot run without a change finds the
    row as it left it.) *)
Definition pick_channel (k : nat) (item : Z) (view : View) (d : MeasureDock)
    : option MeasureDock :=
  let rows := mode_rows_at d (active_dex view) in
  let d :=
    set_mode_rows_at d (active_dex view)
      (set_edge_row_list rows (map_at k (pick_item item) (_edge_row_list rows))) in
  on_edge_channel_selected (Some k) false view d.

(** What can happen to the dock: the slots above, the members of the first
    part, and the changes of the view that reach the dock through them. *)
Inductive dock_event :=
  | EvAddDist
  | EvAddEdge
  | EvDelDist (sender : nat)
  | EvDelEdge (sender : nat)
  | EvSelectCursor (_sel_btn : sel_button) (sel_cursor_bt : QPushButton)
  | EvPickChannel (sender : nat) (item : Z)
  | EvDelCursor (sender : nat)
  | EvCursorsChanged (cursors : list Cursor)
  | EvCursorMoving (cursors : list Cursor) (cursors_shown : bool)
  | EvReload (view' : View)
  | EvReCalc
  | EvReStyle.

(** The member an event runs, on the view and the dock. *)
Definition fire (e : dock_event) (s : View * MeasureDock) : option (View * MeasureDock) :=
  let '(view, d) := s in
  match e with
  | EvAddDist => Some (view, add_dist_measure Max_Measure_Limits view d)
  | EvAddEdge => Some (view, add_edge_measure Max_Measure_Limits view d)
  | EvDelDist sender => Some (view, del_dist_measure sender view d)
  | EvDelEdge sender => Some (view, del_edge_measure sender view d)
  | EvSelectCursor _sel_btn sel_cursor_bt =>
      d <- set_sel_cursor _sel_btn sel_cursor_bt view d ;; Some (view, d)
  | EvPickChannel sender item =>
      d <- pick_channel sender item view d ;; Some (view, d)
  | EvDelCursor sender => del_cursor get_cm_delta get_cm_time edges sender view d
  | EvCursorsChanged cursors =>
      let view := set_cursorList view cursors in
      d <- cursor_update get_cm_delta get_cm_time edges view d ;; Some (view, d)
  | EvCursorMoving cursors cursors_shown =>
      let view := set_cursorList view cursors in
      d <- cursor_moving cursors_shown view d ;; Some (view, d)
  | EvReload view' =>
      d <- reload get_cm_delta get_cm_time edges view' d ;; Some (view', d)
  | EvReCalc => d <- reCalc get_cm_delta get_cm_time edges view d ;; Some (view, d)
  | EvReStyle => d <- reStyle view d ;; Some (view, d)
  end.

(** The events the widgets can send in a state: a dialog button exists only
    for a marker of the list and the dialog opens from a button a row has; a
    marker that moves stays in the list; the cursor list of a view fits an
    [int] (see [cursor_count]). *)
Definition possible (e : dock_event) (s : View * MeasureDock) : bool :=
  let '(view, d) := s in
  match e with
  | EvSelectCursor _sel_btn sel_cursor_bt =>
      let rows := if sel_in_edge_row _sel_btn then edge_rows view d else dist_rows view d in
      match nth_error rows (sel_row _sel_btn) with
      | Some inf => is_some (sel_button_of _sel_btn inf)
      | None => false
      end
      && existsb (fun b => String.eqb (bt_text b) (bt_text sel_cursor_bt))
                 (popup_all_coursors view)
  | EvCursorsChanged cursors => Z.of_nat (List.length cursors) <? 2 ^ 31
  | EvCursorMoving cursors _ =>
      (List.length cursors =? List.length (_cursorList view))%nat
  | EvReload view' => cursor_count view' <? 2 ^ 31
  | _ => true
  end.

(** A run of events; an event that cannot happen in the state it would
    meet is not delivered. *)
Fixpoint run (events : list dock_event) (s : View * MeasureDock)
    : option (View * MeasureDock) :=
  match events with
  | [] => Some s
  | e :: rest =>
      if possible e s then s' <- fire e s ;; run rest s' else run rest s
  end.

End DockSlots.

(** ** Vocabulary of the properties of the slots *)

(** A reference is unset or names a marker of the list. *)
Definition ref_in_range (view : View) (c : Z) : bool :=
  (c =? -1) || ((1 <=? c) && (c <=? cursor_count view)).

(** A reference is unset or a display order (1 or more). *)
Definition ref_is_order (c : Z) : bool := (c =? -1) || (1 <=? c).

Definition row_refs_in_range (view : View) (o : cursor_row_info) : bool :=
  ref_in_range view (cursor1 o) && ref_in_range view (cursor2 o).

Definition row_refs_are_orders (o : cursor_row_info) : bool :=
  ref_is_order (cursor1 o) && ref_is_order (cursor2 o).

(** A cursor panel row with its three widgets. *)
Definition opt_row_bound (row : cursor_opt_info) : bool :=
  is_some (opt_del_bt row) && is_some (goto_bt row) && is_some (info_label row).

(** A row of the active mode as the panel builds leave it: with its widgets,
    its references unset or display orders. *)
Definition dist_row_shown (o : cursor_row_info) : bool :=
  dist_displayed o && is_some (del_bt o) && row_refs_are_orders o.
Definition edge_row_shown (o : cursor_row_info) : bool :=
  edge_displayed o && is_some (del_bt o) && row_refs_are_orders o.

(** A row of the active mode after a recomputation: shown, its references
    unset or naming a marker of the list. *)
Definition dist_row_ready (view : View) (o : cursor_row_info) : bool :=
  dist_displayed o && is_some (del_bt o) && row_refs_in_range view o.
Definition edge_row_ready (view : View) (o : cursor_row_info) : bool :=
  edge_displayed o && is_some (del_bt o) && row_refs_in_range view o.

(** The rows of the active mode are ready and the cursor panel, if it has
    been built, has one row with its widgets per marker. *)
Definition rows_ready (view : View) (r : row_list_item) : bool :=
  all_rows (dist_row_ready view) (_dist_row_list r)
  && all_rows (edge_row_ready view) (_edge_row_list r)
  && forallb opt_row_bound (_opt_row_list r)
  && ((List.length (_opt_row_list r) =? 0)%nat
      || (List.length (_opt_row_list r) =? List.length (_cursorList view))%nat).

(** The rows of an entry are shown, whatever the view. *)
Definition rows_shown (r : row_list_item) : bool :=
  all_rows dist_row_shown (_dist_row_list r)
  && all_rows edge_row_shown (_edge_row_list r).

(** No list of rows of the entry is longer than the cap. *)
Definition rows_capped (cap : nat) (r : row_list_item) : bool :=
  (List.length (_dist_row_list r) <=? cap)%nat
  && (List.length (_edge_row_list r) <=? cap)%nat.

(** What holds of the rows of every mode, shown or not: every reference is
    unset or a display order, and no list is longer than the cap. *)
Definition rows_kept (cap : nat) (r : row_list_item) : bool :=
  all_rows row_refs_are_orders (_dist_row_list r)
  && all_rows row_refs_are_orders (_edge_row_list r)
  && rows_capped cap r.

(** The state the dock is in between two events: the rows of the active
    mode are ready, the rows of every mode are kept. *)
Definition dock_ready (cap : nat) (s : View * MeasureDock) : bool :=
  let '(view, d) := s in
  (cursor_count view <? 2 ^ 31)
  && rows_ready view (mode_rows_at d (active_dex view))
  && rows_kept cap (_mode_rows_0 d)
  && rows_kept cap (_mode_rows_1 d)
  && rows_kept cap (_mode_rows_2 d).

(** The rows of the modes that are not active are the rows of [d] without
    their widgets: what a member leaves of them. *)
Definition others_detached (view : View) (d d' : MeasureDock) : Prop :=
  forall i, i <> active_dex view -> mode_rows_at d' i = detach_rows (mode_rows_at d i).

(** The data of [o'] are those of [o] up to references that have been
    unset. *)
Definition refs_kept_or_unset (o o' : cursor_row_info) : Prop :=
  (cursor1 o' = cursor1 o \/ cursor1 o' = -1)
  /\ (cursor2 o' = cursor2 o \/ cursor2 o' = -1)
  /\ channelIndex o' = channelIndex o.

(** What a pass may do to a row [o], giving [o']: unset a reference; the
    channel, the selector and the delete button stay. *)
Definition only_unbound (o o' : cursor_row_info) : Prop :=
  refs_kept_or_unset o o' /\ box o' = box o /\ del_bt o' = del_bt o.

(** The signal whose counts an edge row shows: a logic channel, enabled,
    with the index the selector [b] shows, whose scan between the two
    sample positions succeeds. *)
Definition gives_counts (edges : Signal -> Z -> Z -> option (Z * Z))
    (b : QComboBox) (end_ start : Z) (s : Signal) : bool :=
  channel_type_eqb (signal_type s) SR_CHANNEL_LOGIC && enabled s
  && (get_index s =? QComboBox_currentText_toInt b)
  && is_some (edges s end_ start).

(** The text a rebuilt label starts with: the text of the label it
    replaces, empty when there was none. *)
Definition label_text (o : cursor_row_info) : string :=
  match r_label o with
  | Some old => lb_text old
  | None => ""
  end.

(** The rows [_sel_btn] points into, its slot in a row and the other slot. *)
Definition sel_rows (view : View) (d : MeasureDock) (_sel_btn : sel_button)
    : list cursor_row_info :=
  if sel_in_edge_row _sel_btn then edge_rows view d else dist_rows view d.
Definition slot_ref (_sel_btn : sel_button) (o : cursor_row_info) : Z :=
  if sel_is_end _sel_btn then cursor2 o else cursor1 o.
Definition other_ref (_sel_btn : sel_button) (o : cursor_row_info) : Z :=
  if sel_is_end _sel_btn then cursor1 o else cursor2 o.

(** The body of the loops over [_opt_row_list] in [get_mode_rows] and in
    [build_cursor_pannel], as the source has it:
    [if (row.del_bt != NULL){ row.del_bt->deleteLater();
       row.goto_bt->deleteLater(); row.info_label->deleteLater(); }].
    The call through a [NULL] jump button or label is a fault. *)
Definition delete_opt_row (row : cursor_opt_info) : option unit :=
  match opt_del_bt row with
  | Some _ =>
      _ <- goto_bt row ;;
      _ <- info_label row ;;
      Some tt
  | None => Some tt
  end.

(** A cursor panel row on which that body does not fault: with a delete
    button it has its jump button and its label too. *)
Definition opt_row_whole (row : cursor_opt_info) : bool :=
  is_some (delete_opt_row row).

(** Every cursor panel row of every mode is whole: the docks the total
    [get_mode_rows] and [build_cursor_pannel] of the model stand for. *)
Definition cursor_panel_whole (d : MeasureDock) : bool :=
  forallb opt_row_whole (_opt_row_list (_mode_rows_0 d))
  && forallb opt_row_whole (_opt_row_list (_mode_rows_1 d))
  && forallb opt_row_whole (_opt_row_list (_mode_rows_2 d)).



(** The enabled logic channels of a session, in its order. *)
Definition enabled_logic_channels (sess : SigSession) : list Z :=
  map get_index
      (filter (fun s => channel_type_eqb (signal_type s) SR_CHANNEL_LOGIC && enabled s)
              (get_signals sess)).

(** ** The members seen from the entry of the active mode *)

(** Every member starts with [get_mode_rows()] and works on the entry it
    returns.  [with_active view F] is that shape: [F] is the work on the
    entry, its fault the fault of the member. *)
Definition with_active (view : View) (F : row_list_item -> option row_list_item)
    (d : MeasureDock) : option MeasureDock :=
  let '(d, dex) := get_mode_rows (session view) d in
  r <- F (mode_rows_at d dex) ;;
  Some (set_mode_rows_at d dex r).

(** [F] leaves [_mode_type] alone. *)
Definition keeps_mode (F : row_list_item -> option row_list_item) : Prop :=
  forall r r', F r = Some r' -> _mode_type r' = _mode_type r.

Section Entry.

Variable Max_Measure_Limits : nat.
Variable get_cm_delta : View -> Z -> Z -> string.
Variable get_cm_time : View -> Z -> string.
Variable edges : Signal -> Z -> Z -> option (Z * Z).

(** The work of each member on the entry [get_mode_rows()] returned. *)
Definition entry_build_dist (r : row_list_item) : row_list_item :=
  set_dist_row_list r (map build_dist_row (_dist_row_list r)).

Definition entry_build_edge (sess : SigSession) (r : row_list_item) : row_list_item :=
  set_edge_row_list r (map (build_edge_row sess) (_edge_row_list r)).

Definition entry_build_cursor (view : View) (r : row_list_item) : row_list_item :=
  set_opt_row_list r (build_cursor_rows get_cm_time view 0 (_cursorList view)).

Definition entry_add_dist (r : row_list_item) : row_list_item :=
  if (List.length (_dist_row_list r) <? Max_Measure_Limits)%nat
  then entry_build_dist (set_dist_row_list r (_dist_row_list r ++ [new_row_info]))
  else r.

Definition entry_add_edge (sess : SigSession) (r : row_list_item) : row_list_item :=
  if (List.length (_edge_row_list r) <? Max_Measure_Limits)%nat
  then entry_build_edge sess (set_edge_row_list r (_edge_row_list r ++ [new_row_info]))
  else r.

Definition entry_del_dist (sender : nat) (r : row_list_item) : row_list_item :=
  match nth_error (_dist_row_list r) sender with
  | Some o =>
      if is_some (del_bt o)
      then entry_build_dist (set_dist_row_list r (erase_at sender (_dist_row_list r)))
      else r
  | None => r
  end.

Definition entry_del_edge (sender : nat) (sess : SigSession) (r : row_list_item)
    : row_list_item :=
  match nth_error (_edge_row_list r) sender with
  | Some o =>
      if is_some (del_bt o)
      then entry_build_edge sess (set_edge_row_list r (erase_at sender (_edge_row_list r)))
      else r
  | None => r
  end.

Definition entry_update_dist (view : View) (r : row_list_item) : option row_list_item :=
  rows <- update_dist_rows get_cm_delta view (_dist_row_list r) ;;
  Some (set_dist_row_list r rows).

Definition entry_update_edge (view : View) (r : row_list_item) : option row_list_item :=
  rows <- update_edge_rows edges view (_edge_row_list r) ;;
  Some (set_edge_row_list r rows).

Definition entry_update_cursor_info (view : View) (r : row_list_item)
    : option row_list_item :=
  if (List.length (_opt_row_list r) =? 0)%nat then Some r
  else if (List.length (_cursorList view) =? List.length (_opt_row_list r))%nat
  then Some (set_opt_row_list r (update_cursor_info_rows get_cm_time view 0 (_opt_row_list r)))
  else None.

Definition entry_bind_sel (_sel_btn : sel_button) (sel_cursor_bt : QPushButton)
    (r : row_list_item) : option row_list_item :=
  let rows :=
    if sel_in_edge_row _sel_btn then _edge_row_list r else _dist_row_list r in
  inf <- nth_error rows (sel_row _sel_btn) ;;
  _ <- sel_button_of _sel_btn inf ;;
  let rows := map_at (sel_row _sel_btn) (bind_sel_cursor _sel_btn sel_cursor_bt) rows in
  Some (if sel_in_edge_row _sel_btn then set_edge_row_list r rows
        else set_dist_row_list r rows).

Definition entry_set_sel_cursor (_sel_btn : sel_button) (sel_cursor_bt : QPushButton)
    (view : View) (r : row_list_item) : option row_list_item :=
  r <- entry_bind_sel _sel_btn sel_cursor_bt r ;;
  if sel_in_edge_row _sel_btn then entry_update_edge view r else entry_update_dist view r.

Definition entry_take_channel (sender : option nat) (_bSetting : bool)
    (r : row_list_item) : row_list_item :=
  match sender with
  | Some k =>
      if negb _bSetting
      then set_edge_row_list r (map_at k take_channel_index (_edge_row_list r))
      else r
  | None => r
  end.

Definition entry_channel_selected (sender : option nat) (_bSetting : bool)
    (view : View) (r : row_list_item) : option row_list_item :=
  entry_update_edge view (entry_take_channel sender _bSetting r).

Definition entry_pick_channel (k : nat) (item : Z) (view : View) (r : row_list_item)
    : option row_list_item :=
  entry_channel_selected (Some k) false view
    (set_edge_row_list r (map_at k (pick_item item) (_edge_row_list r))).

Definition entry_reCalc (view : View) (r : row_list_item) : option row_list_item :=
  r <- entry_update_dist view r ;;
  r <- entry_update_edge view r ;;
  entry_update_cursor_info view r.

Definition entry_cursor_update (view : View) (r : row_list_item) : option row_list_item :=
  r <- entry_update_dist view r ;;
  r <- entry_update_edge view r ;;
  Some (entry_build_cursor view r).

(** The three panel builds [reload] starts with, before its [reCalc()]. *)
Definition entry_rebuild (view : View) (r : row_list_item) : row_list_item :=
  entry_build_cursor view (entry_build_edge (session view) (entry_build_dist r)).

Definition entry_reload (view : View) (r : row_list_item) : option row_list_item :=
  entry_reCalc view (entry_rebuild view r).

Definition entry_cursor_moving (cursors_shown : bool) (view : View) (r : row_list_item)
    : option row_list_item :=
  r <- (if cursors_shown then entry_update_cursor_info view r else Some r) ;;
  entry_update_dist view r.

Definition entry_styled (r : row_list_item) : bool :=
  forallb (fun o => is_some (del_bt o)) (_dist_row_list r)
  && forallb (fun o => is_some (del_bt o)) (_edge_row_list r)
  && forallb (fun row => is_some (opt_del_bt row)) (_opt_row_list r).

Definition entry_reStyle (view : View) (r : row_list_item) : option row_list_item :=
  if entry_styled r then entry_update_dist view r else None.

(** The view [del_cursor] leaves: without the marker of the cursor panel row
    at position [sender], if there is such a row. *)
Definition view_after_del (sender : nat) (view : View) (d : MeasureDock) : View :=
  match nth_error (_opt_row_list (mode_rows_at d (active_dex view))) sender with
  | Some row => View_del_cursor view (opt_cursor row)
  | None => view
  end.

(** The text [update_dist] leaves in the label of a row with the
    references it has after the stale checks. *)
Definition dist_result (view : View) (o : cursor_row_info) : string :=
  if negb (cursor1 o =? -1) && negb (cursor2 o =? -1)
  then dist_text get_cm_delta view (cursor1 o) (cursor2 o)
  else " ".

(** The text [update_edge] leaves in the label of a row with the references
    it has after the stale checks; none when the pass faults on the row. *)
Definition edge_shown (view : View) (o : cursor_row_info) : option string :=
  if negb (cursor1 o =? -1) && negb (cursor2 o =? -1)
  then match scan_signals edges view o (get_signals (session view)) with
       | Some (Some delta_text) => Some delta_text
       | Some None => Some "-/-/-"
       | None => None
       end
  else Some "-/-/-".

End Entry.



(** ** Vocabulary of the label *)

(** A double that is a number other than zero and the infinities. *)
Definition finite_nonzero (x : double) : bool :=
  match x with
  | S754_finite _ _ _ => true
  | _ => false
  end.

(** ** A run of events on the sample dock *)

(** Every event below can happen in the state it meets. *)
Definition sample_events : list dock_event :=
  [ EvAddDist;
    EvSelectCursor (mkSel false 3 false) (mkQPushButton "2");
    EvSelectCursor (mkSel false 3 true) (mkQPushButton "3");
    EvPickChannel 0 0;
    EvDelCursor 0;
    EvCursorMoving [cursor_at 1 5; cursor_at 2 6] true;
    EvReStyle;
    EvReload dso_view;
    EvAddEdge;
    EvDelDist 0;
    EvReCalc;
    EvReload sample_view;
    EvDelEdge 1;
    EvCursorsChanged [] ].

(** A view of a session that has no sample rate yet. *)
Definition idle_view : View :=
  mkView (mkSigSession LOGIC sample_signals 0) scale_1us 0 800 [cursor_at 1 0].

(** The sample view at two samples per pixel (2 us per pixel at 1 MHz) and
    at half a sample per pixel. *)
Definition two_per_pixel_view : View :=
  mkView sample_session (ddiv (double_of_Z 2) (double_of_Z 1000000)) 0 800
         (_cursorList sample_view).
Definition half_per_pixel_view : View :=
  mkView sample_session (ddiv (double_of_Z 1) (double_of_Z 2000000)) 0 800
         (_cursorList sample_view).

(** * Properties *)

(** ** Floating-point comparison *)

Lemma SFcompare_antisym (x y : spec_float) :
  SFcompare y x = option_map CompOpp (SFcompare x y).
Proof.
  destruct x as [sx|sx| |sx mx ex], y as [sy|sy| |sy my ey]; simpl;
    try reflexivity; try (destruct sx; reflexivity); try (destruct sy; reflexivity);
    try (destruct sx, sy; reflexivity).
  assert (Hm : Pos.compare_cont Eq my mx = CompOpp (Pos.compare_cont Eq mx my)).
  { symmetry. apply (Pos.compare_cont_antisym mx my Eq). }
  destruct sx, sy; simpl; try reflexivity;
    rewrite (Z.compare_antisym ex ey); destruct (ex ?= ey); simpl; try reflexivity;
    rewrite Hm; destruct (Pos.compare_cont Eq mx my); reflexivity.
Qed.

Lemma SFcompare_defined (x y : spec_float) :
  is_nan x = false -> is_nan y = false -> exists c, SFcompare x y = Some c.
Proof.
  destruct x, y; simpl; intros; try discriminate; eauto.
Qed.

(** For numbers, "not less than" is "greater than or equal". *)
Lemma not_dlt_dle (x y : double) :
  is_nan x = false -> is_nan y = false -> negb (dlt x y) = dle y x.
Proof.
  intros Hx Hy. unfold dlt, dle, SFltb, SFleb.
  rewrite (SFcompare_antisym x y).
  destruct (SFcompare_defined x y Hx Hy) as [c ->].
  destruct c; reflexivity.
Qed.

(** Shifting a non-negative mantissa keeps it non-negative. *)
Lemma shr_1_nonneg (mrs : shr_record) : 0 <= shr_m mrs -> 0 <= shr_m (shr_1 mrs).
Proof.
  destruct mrs as [m r s]; simpl.
  destruct m as [|p|p]; simpl; intros H; try lia.
  - destruct p; simpl; lia.
Qed.

Lemma iter_shr_1_nonneg (p : positive) (mrs : shr_record) :
  0 <= shr_m mrs -> 0 <= shr_m (iter_pos shr_1 p mrs).
Proof.
  revert mrs. induction p; intros mrs H; simpl.
  - apply IHp, IHp, shr_1_nonneg, H.
  - apply IHp, IHp, H.
  - apply shr_1_nonneg, H.
Qed.

Lemma shr_fexp_nonneg (prec emax m e : Z) (l : location) :
  0 <= m -> 0 <= shr_m (fst (shr_fexp prec emax m e l)).
Proof.
  intros H. unfold shr_fexp, shr.
  assert (H0 : 0 <= shr_m (shr_record_of_loc m l)).
  { destruct l as [|[ | | ]]; simpl; exact H. }
  destruct (fexp prec emax (Zdigits2 m + e) - e); simpl; auto.
  apply iter_shr_1_nonneg, H0.
Qed.

Lemma round_nearest_even_nonneg (m : Z) (l : location) :
  0 <= m -> 0 <= round_nearest_even m l.
Proof.
  intros H. destruct l as [|[ | | ]]; simpl; try lia.
  destruct (Z.even m); lia.
Qed.

Lemma binary_round_aux_not_nan (prec emax : Z) (s : bool) (m e : Z) (l : location) :
  0 <= m -> is_nan (binary_round_aux prec emax s m e l) = false.
Proof.
  intros H. unfold binary_round_aux.
  pose proof (shr_fexp_nonneg prec emax m e l H) as H1.
  destruct (shr_fexp prec emax m e l) as [mrs' e']. simpl in H1.
  pose proof (shr_fexp_nonneg prec emax _ e' loc_Exact
                (round_nearest_even_nonneg _ (loc_of_shr_record mrs') H1)) as H2.
  destruct (shr_fexp prec emax (round_nearest_even (shr_m mrs') (loc_of_shr_record mrs'))
              e' loc_Exact) as [mrs'' e'']. simpl in H2.
  destruct (shr_m mrs'') as [|p|p]; simpl; try reflexivity.
  - destruct (e'' <=? emax - prec); reflexivity.
  - lia.
Qed.

(** The conversion of an integer is never a NaN. *)
Lemma double_of_Z_not_nan (z : Z) : is_nan (double_of_Z z) = false.
Proof.
  unfold double_of_Z, binary_normalize.
  destruct z as [|p|p]; try reflexivity; unfold binary_round;
    destruct (shl_align p 0 _) as [mz ez];
    apply binary_round_aux_not_nan; lia.
Qed.

(** ** cursor.cpp *)

(** C2 (as the code has it).  Whatever [order] the constructor is given, the
    constructed cursor's [_order] is what the member's storage held before
    the constructor ran: the body assigns the member to itself and never
    reads the argument. *)
Theorem Cursor_ctor_ignores_order :
  forall (uninit_order : Z) (uninit_text_size : QSize) (order sampleIndex : Z),
    _order (Cursor_ctor uninit_order uninit_text_size order sampleIndex) = uninit_order
    /\ _index (Cursor_ctor uninit_order uninit_text_size order sampleIndex) = sampleIndex.
Proof.
  intros. split; reflexivity.
Qed.

(** The constructor at a concrete input: order 3 asked for, storage holding 0. *)
Example Cursor_ctor_order_3 :
  _order (Cursor_ctor 0 (mkQSize 0 0) 3 1000) = 0
  /\ _order (Cursor_ctor 0 (mkQSize 0 0) 3 1000) <> 3.
Proof.
  split; [reflexivity | discriminate].
Qed.

Lemma dlt_nan_l (x : double) : dlt S754_nan x = false.
Proof. reflexivity. Qed.

Lemma dlt_nan_r (x : double) : dlt x S754_nan = false.
Proof. destruct x as [s|s| |s m e]; try reflexivity; destruct s; reflexivity. Qed.

Lemma dle_nan_l (x : double) : dle S754_nan x = false.
Proof. reflexivity. Qed.

(** A quotient by a finite non-zero double is a number when the dividend
    is. *)
Lemma ddiv_not_nan (x y : double) :
  is_nan x = false -> finite_nonzero y = true -> is_nan (ddiv x y) = false.
Proof.
  intros Hx Hy. destruct y as [sy|sy| |sy my ey]; try discriminate.
  destruct x as [sx|sx| |sx mx ex]; try discriminate; try reflexivity.
  unfold ddiv, SFdiv, SFdiv_core_binary. cbv zeta.
  match goal with
  | |- context [Z.div_eucl ?a ?b] =>
      assert (Ha : 0 <= a) by
        (destruct (ex - ey - Z.min (fexp dbl_prec dbl_emax
                     (Zdigits2 (Z.pos mx) + ex - (Zdigits2 (Z.pos my) + ey))) (ex - ey));
         [lia | apply Z.shiftl_nonneg; lia | lia]);
      pose proof (Z.div_pos a b Ha ltac:(lia)) as Hq;
      unfold Z.div in Hq;
      destruct (Z.div_eucl a b) as [q r]
  end.
  apply binary_round_aux_not_nan. exact Hq.
Qed.

Section CursorLabelFacts.

Variable index2pixel : View -> Z -> bool -> Z.
Variable LabelPadding : QSize.

(** C7 (amended).  [get_label_rect] reports the label visible exactly when
    the converted pixel offset, the double
    [_index / (cur_snap_samplerate * scale)], lies within
    [[x_offset, x_offset + width]] or is not a number; when the label is
    not visible the rectangle returned is [QRect(-1, -1, 0, 0)].  The offset
    is a number whenever the samples per pixel [cur_snap_samplerate * scale]
    are a finite double other than zero. *)
Theorem get_label_rect_visible_iff_in_viewport :
  forall (view : View) (c : Cursor) (rect : QRect) (has_hoff : bool),
    let samples_per_pixel :=
      dmul (double_of_Z (cur_snap_samplerate (session view))) (_scale view) in
    let offset := ddiv (double_of_Z (_index c)) samples_per_pixel in
    let lo := double_of_Z (_x_offset view) in
    let hi := double_of_Z (_x_offset view + view_width view) in
    let within := dle lo offset && dle offset hi in
    snd (get_label_rect index2pixel LabelPadding view c rect has_hoff)
    = (is_nan offset || within)
    /\ (snd (get_label_rect index2pixel LabelPadding view c rect has_hoff) = false ->
        get_label_rect index2pixel LabelPadding view c rect has_hoff
        = (mkQRect (-1) (-1) 0 0, false))
    /\ (finite_nonzero samples_per_pixel = true ->
        is_nan offset = false
        /\ snd (get_label_rect index2pixel LabelPadding view c rect has_hoff) = within).
Proof.
  intros view c rect has_hoff samples_per_pixel offset lo hi within.
  assert (Hvis : snd (get_label_rect index2pixel LabelPadding view c rect has_hoff)
                 = negb (dlt offset lo || dlt hi offset)).
  { unfold get_label_rect, cur_offset_of. fold samples_per_pixel. fold offset.
    fold lo. fold hi. destruct (dlt offset lo || dlt hi offset); reflexivity. }
  assert (Hall : negb (dlt offset lo || dlt hi offset) = (is_nan offset || within)).
  { destruct (is_nan offset) eqn:Hnan.
    - destruct offset; try discriminate.
      now rewrite dlt_nan_l, dlt_nan_r.
    - unfold within. rewrite negb_orb.
      rewrite (not_dlt_dle _ lo Hnan (double_of_Z_not_nan _)).
      rewrite (not_dlt_dle hi _ (double_of_Z_not_nan _) Hnan).
      reflexivity. }
  split; [now rewrite Hvis|]. split.
  - unfold get_label_rect, cur_offset_of. fold samples_per_pixel. fold offset.
    fold lo. fold hi. destruct (dlt offset lo || dlt hi offset);
      [reflexivity | discriminate].
  - intros Hspp.
    assert (Hnan : is_nan offset = false).
    { apply ddiv_not_nan; [apply double_of_Z_not_nan | exact Hspp]. }
    split; [exact Hnan|]. rewrite Hvis, Hall, Hnan. reflexivity.
Qed.

End CursorLabelFacts.

(** The theorem on a view of two samples per pixel (columns 0 to 800): the
    cursor on sample 1000 has the offset 500 and is visible, though 1000 is
    no column of the view; at half a sample per pixel the cursor on sample
    600 has the offset 1200 and is not, though 600 is a column. *)
Lemma get_label_rect_visible_iff_in_viewport_witness :
  get_label_rect sample_index2pixel sample_LabelPadding two_per_pixel_view
    (cursor_at 1 1000) (mkQRect 0 0 800 30) true
  = (mkQRect 476 (-1) 48 20, true)
  /\ get_label_rect sample_index2pixel sample_LabelPadding half_per_pixel_view
       (cursor_at 2 600) (mkQRect 0 0 800 30) true
     = (mkQRect (-1) (-1) 0 0, false).
Proof.
  split.
  - destruct (get_label_rect_visible_iff_in_viewport sample_index2pixel sample_LabelPadding
                two_per_pixel_view (cursor_at 1 1000) (mkQRect 0 0 800 30) true)
      as (_ & _ & Hin).
    destruct Hin as [_ Hv]; [vm_compute; reflexivity|].
    rewrite (surjective_pairing (get_label_rect _ _ _ _ _ _)), Hv.
    vm_compute. reflexivity.
  - destruct (get_label_rect_visible_iff_in_viewport sample_index2pixel sample_LabelPadding
                half_per_pixel_view (cursor_at 2 600) (mkQRect 0 0 800 30) true)
      as (Hv & Hout & _).
    apply Hout. rewrite Hv. vm_compute. reflexivity.
Defined.

(** C7 (as stated) fails where the offset is not a number.  Before the
    session has a sample rate the samples per pixel are 0 and the cursor on
    sample 0 has the offset [0 / 0]: it lies within no interval, here not
    within the columns 5000 to 5800 of the view, and the label is reported
    visible, with a rectangle that is not [QRect(-1, -1, 0, 0)]. *)
Lemma label_visible_without_offset :
  let view := mkView (session idle_view) scale_1us 5000 800 [cursor_at 1 0] in
  let offset :=
    ddiv (double_of_Z (_index (cursor_at 1 0)))
         (dmul (double_of_Z (cur_snap_samplerate (session view))) (_scale view)) in
  is_nan offset = true
  /\ dle (double_of_Z (_x_offset view)) offset
     && dle offset (double_of_Z (_x_offset view + view_width view)) = false
  /\ snd (get_label_rect sample_index2pixel sample_LabelPadding view
            (cursor_at 1 0) (mkQRect 0 0 800 30) true) = true
  /\ fst (get_label_rect sample_index2pixel sample_LabelPadding view
            (cursor_at 1 0) (mkQRect 0 0 800 30) true) <> mkQRect (-1) (-1) 0 0.
Proof.
  split; [vm_compute; reflexivity|].
  split; [vm_compute; reflexivity|].
  split; [vm_compute; reflexivity|].
  vm_compute. discriminate.
Qed.

(** ** Texts *)

Lemma occurs_append (c : ascii) (a b : string) :
  occurs c (a ++ b)%string = occurs c a || occurs c b.
Proof.
  induction a as [|d a IH]; simpl; [reflexivity|].
  rewrite IH. apply orb_assoc.
Qed.

Lemma replace_append (x y : ascii) (a b : string) :
  QString_replace x y (a ++ b)%string
  = (QString_replace x y a ++ QString_replace x y b)%string.
Proof.
  induction a as [|d a IH]; simpl; [reflexivity|]. now rewrite IH.
Qed.

Lemma replace_absent (x y : ascii) (s : string) :
  occurs x s = false -> QString_replace x y s = s.
Proof.
  induction s as [|d s IH]; simpl; [reflexivity|].
  intros H. apply orb_false_iff in H. destruct H as [Hd Hs].
  rewrite Hd, (IH Hs). reflexivity.
Qed.

(** A decimal numeral has no sign character in it. *)
Lemma digits_unsigned (d : Decimal.uint) :
  occurs plus_glyph (NilEmpty.string_of_uint d) = false
  /\ occurs minus_glyph (NilEmpty.string_of_uint d) = false.
Proof.
  induction d; simpl; try (split; reflexivity); destruct IHd as [-> ->];
    split; reflexivity.
Qed.

Lemma numeral_unsigned (d : Decimal.uint) :
  occurs plus_glyph (NilZero.string_of_uint d) = false
  /\ occurs minus_glyph (NilZero.string_of_uint d) = false.
Proof.
  destruct d; try apply digits_unsigned. split; reflexivity.
Qed.

Lemma QString_number_nonneg (z : Z) :
  0 <= z ->
  occurs plus_glyph (QString_number z) = false
  /\ occurs minus_glyph (QString_number z) = false.
Proof.
  intros H. unfold QString_number.
  destruct z as [|p|p]; [split; reflexivity | apply numeral_unsigned | lia].
Qed.

Lemma QString_number_neg (z : Z) :
  z < 0 -> QString_number z = String minus_glyph (QString_number (- z)).
Proof.
  intros H. destruct z as [|p|p]; try lia. reflexivity.
Qed.

Lemma QString_number_no_plus (z : Z) : occurs plus_glyph (QString_number z) = false.
Proof.
  destruct (Z.neg_nonneg_cases z) as [H|H].
  - rewrite (QString_number_neg z H). simpl.
    apply QString_number_nonneg. lia.
  - apply QString_number_nonneg, H.
Qed.

Lemma glyph_count_append (c : ascii) (a b : string) :
  glyph_count c (a ++ b)%string = (glyph_count c a + glyph_count c b)%nat.
Proof.
  induction a as [|d a IH]; cbn; [reflexivity|]. rewrite IH. lia.
Qed.

Lemma glyph_count_absent (c : ascii) (s : string) :
  occurs c s = false -> glyph_count c s = O.
Proof.
  induction s as [|d s IH]; cbn; [reflexivity|].
  intros H. apply orb_false_iff in H. destruct H as [-> Hs].
  now rewrite (IH Hs).
Qed.

(** ** Machine integers *)

Lemma wrap_i64_u64 (z : Z) : wrap_i64 (wrap_u64 z) = wrap_i64 z.
Proof.
  unfold wrap_i64, wrap_u64.
  rewrite Zplus_mod_idemp_l. reflexivity.
Qed.

Lemma wrap_i64_small (z : Z) : - 2 ^ 63 <= z < 2 ^ 63 -> wrap_i64 z = z.
Proof.
  intros H. unfold wrap_i64.
  rewrite Z.mod_small; lia.
Qed.

(** ** measuredock.cpp: the distance text *)

Section DistanceText.

Variable get_cm_delta : View -> Z -> Z -> string.

(** The text of a positive delta is the formatted time followed by the
    number; nothing is replaced. *)
Lemma dist_text_positive (view : View) (c1 c2 : Z) :
  0 < dist_delta view c1 c2 ->
  dist_text get_cm_delta view c1 c2
  = (get_cm_delta view (c1 - 1) (c2 - 1) ++ "/"
     ++ QString_number (dist_delta view c1 c2))%string.
Proof.
  intros H. unfold dist_text.
  destruct (Z.ltb_spec (dist_delta view c1 c2) 0); [lia | reflexivity].
Qed.

(** The text of a negative delta, when the formatted time is a ['+']
    followed by sign-free characters: the ['+'] becomes ['-'] and the number
    brings its own minus sign. *)
Lemma dist_text_negative (view : View) (c1 c2 : Z) (body : string) :
  dist_delta view c1 c2 < 0 ->
  get_cm_delta view (c1 - 1) (c2 - 1) = String plus_glyph body ->
  occurs plus_glyph body = false ->
  dist_text get_cm_delta view c1 c2
  = String minus_glyph
      (body ++ "/" ++ String minus_glyph (QString_number (- dist_delta view c1 c2)))%string.
Proof.
  intros H Hcm Hbody. unfold dist_text.
  destruct (Z.ltb_spec (dist_delta view c1 c2) 0) as [_|]; [|lia].
  rewrite Hcm. cbn [append QString_replace].
  rewrite Ascii.eqb_refl.
  rewrite replace_append, (replace_absent _ _ body Hbody).
  rewrite replace_absent.
  - rewrite (QString_number_neg _ H). reflexivity.
  - cbn [append occurs]. rewrite QString_number_no_plus. reflexivity.
Qed.

(** The two deltas of a pair are opposite as long as the two sample indices
    are less than 2^63 apart. *)
Lemma dist_delta_opp (view : View) (a b : Z) :
  Z.abs (get_cursor_samples view (a - 1) - get_cursor_samples view (b - 1)) < 2 ^ 63 ->
  dist_delta view a b
  = get_cursor_samples view (a - 1) - get_cursor_samples view (b - 1)
  /\ dist_delta view b a = - dist_delta view a b.
Proof.
  intros H. unfold dist_delta. rewrite !wrap_i64_u64.
  rewrite !wrap_i64_small; lia.
Qed.

(** C3 (amended).  For a pair of marker orders [(a, b)] whose sample indices
    are less than 2^63 apart and whose formatted time distance is a ['+']
    followed by sign-free text, the same for [(a, b)] and [(b, a)]: the two
    deltas are opposite numbers, and the texts differ only in the sign
    glyphs.  The text of the positive delta leads with ['+'], its only sign
    glyph; the text of the negative delta leads with ['-'], has no ['+'] in
    it and has a second ['-'], the one of the sample count after the ["/"]. *)
Theorem dist_text_opposite_signs :
  forall (view : View) (a b : Z) (body : string),
    get_cm_delta view (a - 1) (b - 1) = String plus_glyph body ->
    get_cm_delta view (b - 1) (a - 1) = String plus_glyph body ->
    occurs plus_glyph body = false ->
    occurs minus_glyph body = false ->
    Z.abs (get_cursor_samples view (a - 1) - get_cursor_samples view (b - 1)) < 2 ^ 63 ->
    let delta := dist_delta view a b in
    let positive_text (m : Z) :=
      String plus_glyph (body ++ "/" ++ QString_number m)%string in
    let negative_text (m : Z) :=
      String minus_glyph (body ++ "/" ++ String minus_glyph (QString_number m))%string in
    dist_delta view b a = - delta
    /\ (0 < delta ->
        dist_text get_cm_delta view a b = positive_text delta
        /\ dist_text get_cm_delta view b a = negative_text delta)
    /\ (delta < 0 ->
        dist_text get_cm_delta view a b = negative_text (- delta)
        /\ dist_text get_cm_delta view b a = positive_text (- delta))
    /\ (forall m, 0 < m ->
        leads_with plus_glyph (positive_text m) = true
        /\ glyph_count plus_glyph (positive_text m) = 1%nat
        /\ glyph_count minus_glyph (positive_text m) = 0%nat
        /\ leads_with minus_glyph (negative_text m) = true
        /\ glyph_count plus_glyph (negative_text m) = 0%nat
        /\ glyph_count minus_glyph (negative_text m) = 2%nat).
Proof.
  intros view a b body Hab Hba Hplus Hminus Hclose delta positive_text negative_text.
  destruct (dist_delta_opp view a b Hclose) as [_ Hopp].
  fold delta in Hopp.
  split; [exact Hopp|]. split; [|split].
  - intros Hpos. split.
    + rewrite (dist_text_positive view a b Hpos), Hab. reflexivity.
    + assert (Hneg : dist_delta view b a < 0) by lia.
      rewrite (dist_text_negative view b a body Hneg Hba Hplus).
      rewrite Hopp, Z.opp_involutive. reflexivity.
  - intros Hneg. split.
    + rewrite (dist_text_negative view a b body Hneg Hab Hplus). reflexivity.
    + assert (Hpos : 0 < dist_delta view b a) by lia.
      rewrite (dist_text_positive view b a Hpos), Hba, Hopp. reflexivity.
  - intros m Hm.
    destruct (QString_number_nonneg m ltac:(lia)) as [Hp Hn].
    apply glyph_count_absent in Hplus, Hminus, Hp, Hn.
    unfold positive_text, negative_text. cbn [leads_with glyph_count].
    rewrite !glyph_count_append. cbn [glyph_count].
    rewrite Hplus, Hminus, Hp, Hn. repeat split; reflexivity.
Qed.

End DistanceText.

(** C3 (as stated) fails.  The text of a negative delta carries two sign
    glyphs, not one: for the markers on samples 1 and 4 it is ["-3T/-3"],
    the minus that replaced the formatter's ['+'] and the minus of the sample
    count.  And when two markers are 2^63 samples apart, the delta of the pair
    and the delta of the exchanged pair are both negative, and both texts
    lead with the minus glyph. *)
Lemma distance_sign_glyphs_counterexample :
  dist_text sample_cm_delta sample_view 1 2 = "-3T/-3"
  /\ glyph_count minus_glyph (dist_text sample_cm_delta sample_view 1 2) = 2%nat
  /\ dist_delta far_view 1 2 = - 2 ^ 63
  /\ dist_delta far_view 2 1 = - 2 ^ 63
  /\ dist_delta far_view 2 1 <> - dist_delta far_view 1 2
  /\ leads_with minus_glyph (dist_text sample_cm_delta far_view 1 2) = true
  /\ leads_with minus_glyph (dist_text sample_cm_delta far_view 2 1) = true.
Proof.
  split; [vm_compute; reflexivity|].
  split; [vm_compute; reflexivity|].
  split; [vm_compute; reflexivity|].
  split; [vm_compute; reflexivity|].
  split; [vm_compute; discriminate|].
  split; vm_compute; reflexivity.
Qed.

(** The theorem at markers on samples 1 and 4. *)
Lemma dist_text_opposite_signs_witness :
  dist_delta sample_view 2 1 = - dist_delta sample_view 1 2
  /\ dist_text sample_cm_delta sample_view 1 2 = "-3T/-3"
  /\ dist_text sample_cm_delta sample_view 2 1 = "+3T/3".
Proof.
  destruct (dist_text_opposite_signs sample_cm_delta sample_view 1 2 "3T")
    as (Hopp & _ & Hneg & _).
  - reflexivity.
  - reflexivity.
  - reflexivity.
  - reflexivity.
  - vm_compute. reflexivity.
  - split; [exact Hopp|]. apply Hneg. vm_compute. reflexivity.
Defined.

(** ** measuredock.cpp: the per-mode row sets *)

Lemma mode_dex_eqb_eq (i j : mode_dex) : mode_dex_eqb i j = true <-> i = j.
Proof.
  destruct i, j; simpl; split; intros H; try reflexivity; discriminate.
Qed.

Lemma mode_rows_at_set_same (d : MeasureDock) (i : mode_dex) (r : row_list_item) :
  mode_rows_at (set_mode_rows_at d i r) i = r.
Proof. destruct i; reflexivity. Qed.

Lemma mode_rows_at_set_other (d : MeasureDock) (i j : mode_dex) (r : row_list_item) :
  i <> j -> mode_rows_at (set_mode_rows_at d i r) j = mode_rows_at d j.
Proof. destruct i, j; intros H; try reflexivity; contradiction. Qed.

Lemma get_mode_rows_snd (s : SigSession) (d : MeasureDock) :
  snd (get_mode_rows s d) = dex_of_mode (get_work_mode s).
Proof. reflexivity. Qed.

(** The entry of the active mode only has its [_mode_type] written. *)
Lemma get_mode_rows_active (s : SigSession) (d : MeasureDock) :
  mode_rows_at (fst (get_mode_rows s d)) (dex_of_mode (get_work_mode s))
  = set_mode_type (mode_rows_at d (dex_of_mode (get_work_mode s))) (get_work_mode s).
Proof.
  unfold get_mode_rows, detach_unless. destruct (get_work_mode s), d; reflexivity.
Qed.

(** The entries of the other modes are detached. *)
Lemma get_mode_rows_inactive (s : SigSession) (d : MeasureDock) (i : mode_dex) :
  i <> dex_of_mode (get_work_mode s) ->
  mode_rows_at (fst (get_mode_rows s d)) i = detach_rows (mode_rows_at d i).
Proof.
  unfold get_mode_rows, detach_unless.
  destruct (get_work_mode s), d, i; simpl; intros H; try reflexivity; contradiction.
Qed.



Lemma row_data_build_dist_row (o : cursor_row_info) :
  row_data (build_dist_row o) = row_data o.
Proof.
  unfold build_dist_row. destruct o as [c1 c2 bx db sb eb rl ch]. cbn.
  destruct (c1 =? -1); cbn; destruct (c2 =? -1); reflexivity.
Qed.

Lemma row_data_build_edge_row (s : SigSession) (o : cursor_row_info) :
  row_data (build_edge_row s o) = row_data o.
Proof.
  unfold build_edge_row. destruct o as [c1 c2 bx db sb eb rl ch]. cbn.
  destruct (c1 =? -1); cbn; destruct (c2 =? -1); reflexivity.
Qed.

Lemma map_row_data_map (f : cursor_row_info -> cursor_row_info)
    (rows : list cursor_row_info) :
  (forall o, row_data (f o) = row_data o) ->
  map row_data (map f rows) = map row_data rows.
Proof.
  intros H. rewrite map_map. apply map_ext. exact H.
Qed.

(** What [build_dist_pannel] leaves in a row: fresh buttons labelled from
    the references, a fresh label carrying over the text of the old one if
    there was one. *)
Lemma build_dist_row_widgets (o : cursor_row_info) :
  dist_displayed (build_dist_row o) = true
  /\ button_text (start_bt (build_dist_row o))
     = Some (if cursor1 o =? -1 then "" else QString_number (cursor1 o))
  /\ button_text (end_bt (build_dist_row o))
     = Some (if cursor2 o =? -1 then "" else QString_number (cursor2 o))
  /\ result_text (build_dist_row o)
     = Some (match r_label o with Some old => lb_text old | None => "" end).
Proof.
  unfold build_dist_row. destruct o as [c1 c2 bx db sb eb rl ch]. cbn.
  destruct (c1 =? -1); cbn; destruct (c2 =? -1); cbn; destruct rl; repeat split.
Qed.

Lemma build_edge_row_widgets (s : SigSession) (o : cursor_row_info) :
  edge_displayed (build_edge_row s o) = true
  /\ button_text (start_bt (build_edge_row s o))
     = Some (if cursor1 o =? -1 then " " else QString_number (cursor1 o))
  /\ button_text (end_bt (build_edge_row s o))
     = Some (if cursor2 o =? -1 then " " else QString_number (cursor2 o))
  /\ result_text (build_edge_row s o)
     = Some (match r_label o with Some old => lb_text old | None => "" end).
Proof.
  unfold build_edge_row. destruct o as [c1 c2 bx db sb eb rl ch]. cbn.
  destruct (c1 =? -1); cbn; destruct (c2 =? -1); cbn; destruct rl; repeat split.
Qed.

(** ** measuredock.cpp: one pass of [update_dist] / [update_edge] over a row *)

Section RowUpdate.

Variable get_cm_delta : View -> Z -> Z -> string.
Variable edges : Signal -> Z -> Z -> option (Z * Z).

Lemma checked_ref_bound (view : View) (c : Z) :
  checked_ref view c <> -1 -> checked_ref view c = c /\ is_stale view c = false.
Proof.
  unfold checked_ref. destruct (is_stale view c); [contradiction | auto].
Qed.

Lemma is_stale_spec (view : View) (c : Z) :
  is_stale view c = true <-> c <> -1 /\ cursor_count view < c.
Proof.
  unfold is_stale. rewrite andb_true_iff, negb_true_iff, Z.eqb_neq, Z.ltb_lt. tauto.
Qed.

(** A displayed distance row is always processed without a fault, and this
    is what the pass leaves. *)
Lemma update_dist_row_displayed (view : View) (o : cursor_row_info) :
  dist_displayed o = true ->
  exists o',
    update_dist_row get_cm_delta view o = Some o'
    /\ dist_displayed o' = true
    /\ cursor1 o' = checked_ref view (cursor1 o)
    /\ cursor2 o' = checked_ref view (cursor2 o)
    /\ button_text (start_bt o') = checked_text view (cursor1 o) (start_bt o)
    /\ button_text (end_bt o') = checked_text view (cursor2 o) (end_bt o)
    /\ result_text o'
       = Some (if negb (cursor1 o' =? -1) && negb (cursor2 o' =? -1)
               then dist_text get_cm_delta view (cursor1 o') (cursor2 o')
               else " ")
    /\ box o' = box o /\ del_bt o' = del_bt o /\ channelIndex o' = channelIndex o.
Proof.
  destruct o as [c1 c2 bx db [sb|] [eb|] [rl|] ch]; cbn; try discriminate.
  intros _. unfold update_dist_row, clear_stale_cursor1, clear_stale_cursor2,
    checked_ref, checked_text. cbn -[is_stale].
  destruct (is_stale view c1) eqn:E1; cbn -[is_stale];
    destruct (is_stale view c2) eqn:E2; cbn -[is_stale].
  all: rewrite ?andb_false_r; cbn -[is_stale].
  all: try (eexists; repeat split; cbn; rewrite ?andb_false_r; reflexivity).
  destruct (negb (c1 =? -1) && negb (c2 =? -1)) eqn:E;
    eexists; repeat split; cbn; rewrite E; reflexivity.
Qed.

(** The scan of the signals never faults on a row that has its selector. *)
Lemma scan_signals_total (view : View) (o : cursor_row_info) (sigs : list Signal) :
  is_some (box o) = true ->
  exists found, scan_signals edges view o sigs = Some found.
Proof.
  destruct (box o) as [b|] eqn:Hb; [intros _ | discriminate].
  induction sigs as [|s rest IH]; simpl; [eauto|].
  rewrite Hb. simpl.
  destruct (channel_type_eqb (signal_type s) SR_CHANNEL_LOGIC && enabled s); [|exact IH].
  destruct (get_index s =? QComboBox_currentText_toInt b); [|exact IH].
  destruct (edges s _ _) as [[r f]|]; [eauto | exact IH].
Qed.

(** A displayed edge row is always processed without a fault, and this is
    what the pass leaves. *)
Lemma update_edge_row_displayed (view : View) (o : cursor_row_info) :
  edge_displayed o = true ->
  exists o',
    update_edge_row edges view o = Some o'
    /\ edge_displayed o' = true
    /\ cursor1 o' = checked_ref view (cursor1 o)
    /\ cursor2 o' = checked_ref view (cursor2 o)
    /\ button_text (start_bt o') = checked_text view (cursor1 o) (start_bt o)
    /\ button_text (end_bt o') = checked_text view (cursor2 o) (end_bt o)
    /\ result_text o' = Some (edge_result edges view o)
    /\ box o' = box o /\ del_bt o' = del_bt o /\ channelIndex o' = channelIndex o.
Proof.
  intros Hd.
  destruct (scan_signals_total view o (get_signals (session view))) as [found Hscan].
  { unfold edge_displayed in Hd. apply andb_true_iff in Hd. apply Hd. }
  unfold edge_result. rewrite Hscan.
  destruct o as [c1 c2 [bx|] db [sb|] [eb|] [rl|] ch]; cbn in Hd; try discriminate.
  unfold update_edge_row, clear_stale_cursor1, clear_stale_cursor2,
    checked_ref, checked_text. cbn -[is_stale scan_signals] in *.
  destruct (is_stale view c1) eqn:E1; cbn -[is_stale scan_signals];
    destruct (is_stale view c2) eqn:E2; cbn -[is_stale scan_signals].
  all: rewrite ?andb_false_r; cbn -[is_stale scan_signals].
  all: try (eexists; repeat split; cbn; rewrite ?andb_false_r; reflexivity).
  destruct (negb (c1 =? -1) && negb (c2 =? -1)); cbn -[scan_signals].
  - rewrite Hscan. cbn. destruct found; eexists; repeat split.
  - eexists; repeat split.
Qed.

End RowUpdate.

(** ** measuredock.cpp: the loops and the dock around them *)

(** When every row has what the body needs, the loop reaches every row and
    the row at each position is the body's result for the row that was
    there. *)
Lemma rows_until_unbound_all (body : cursor_row_info -> option cursor_row_info)
    (p : cursor_row_info -> bool) (rows : list cursor_row_info) :
  (forall o, p o = true -> is_some (start_bt o) = true /\ exists o', body o = Some o') ->
  all_rows p rows = true ->
  exists rows',
    rows_until_unbound body rows = Some rows'
    /\ List.length rows' = List.length rows
    /\ forall k o, nth_error rows k = Some o ->
         exists o', nth_error rows' k = Some o' /\ body o = Some o'.
Proof.
  intros Hp. induction rows as [|inf rest IH]; intros Hall.
  - exists []. repeat split. intros [|k] o H; discriminate.
  - cbn in Hall. apply andb_true_iff in Hall. destruct Hall as [Hinf Hrest].
    destruct (Hp inf Hinf) as [Hs [inf' Hbody]].
    destruct (IH Hrest) as (rest' & Hloop & Hlen & Hnth).
    exists (inf' :: rest'). cbn.
    destruct (start_bt inf); [|discriminate].
    rewrite Hbody. cbn. rewrite Hloop. cbn.
    repeat split; [now rewrite Hlen|].
    intros [|k] o H; cbn in *.
    + inversion H; subst. eauto.
    + apply Hnth, H.
Qed.

Section DockUpdate.

Variable get_cm_delta : View -> Z -> Z -> string.
Variable get_cm_time : View -> Z -> string.
Variable edges : Signal -> Z -> Z -> option (Z * Z).

(** [update_dist] around its loop: the distance rows of the active mode
    become the loop's result, its edge rows and cursor panel stay, the other
    modes are detached. *)
Lemma update_dist_dock (view : View) (d : MeasureDock) (rows' : list cursor_row_info) :
  update_dist_rows get_cm_delta view (dist_rows view d) = Some rows' ->
  exists d',
    update_dist get_cm_delta view d = Some d'
    /\ dist_rows view d' = rows'
    /\ edge_rows view d' = edge_rows view d
    /\ _opt_row_list (mode_rows_at d' (active_dex view))
       = _opt_row_list (mode_rows_at d (active_dex view))
    /\ forall i, i <> active_dex view ->
         mode_rows_at d' i = detach_rows (mode_rows_at d i).
Proof.
  unfold dist_rows, edge_rows, active_dex, update_dist. intros Hloop.
  pose proof (get_mode_rows_active (session view) d) as Ha.
  pose proof (get_mode_rows_inactive (session view) d) as Hi.
  pose proof (get_mode_rows_snd (session view) d) as Hs.
  destruct (get_mode_rows (session view) d) as [d1 dex]. cbn in Ha, Hi, Hs. subst dex.
  rewrite Ha. unfold set_mode_type, set_dist_row_list, set_edge_row_list.
  cbn [_dist_row_list _edge_row_list _opt_row_list _mode_type].
  rewrite Hloop. cbn [bind].
  eexists. split; [reflexivity|].
  rewrite mode_rows_at_set_same. cbn [_dist_row_list _edge_row_list _opt_row_list].
  repeat split.
  intros i Hne. rewrite mode_rows_at_set_other by congruence. apply Hi, Hne.
Qed.

(** The same for [update_edge]. *)
Lemma update_edge_dock (view : View) (d : MeasureDock) (rows' : list cursor_row_info) :
  update_edge_rows edges view (edge_rows view d) = Some rows' ->
  exists d',
    update_edge edges view d = Some d'
    /\ edge_rows view d' = rows'
    /\ dist_rows view d' = dist_rows view d
    /\ _opt_row_list (mode_rows_at d' (active_dex view))
       = _opt_row_list (mode_rows_at d (active_dex view))
    /\ forall i, i <> active_dex view ->
         mode_rows_at d' i = detach_rows (mode_rows_at d i).
Proof.
  unfold dist_rows, edge_rows, active_dex, update_edge. intros Hloop.
  pose proof (get_mode_rows_active (session view) d) as Ha.
  pose proof (get_mode_rows_inactive (session view) d) as Hi.
  pose proof (get_mode_rows_snd (session view) d) as Hs.
  destruct (get_mode_rows (session view) d) as [d1 dex]. cbn in Ha, Hi, Hs. subst dex.
  rewrite Ha. unfold set_mode_type, set_dist_row_list, set_edge_row_list.
  cbn [_dist_row_list _edge_row_list _opt_row_list _mode_type].
  rewrite Hloop. cbn [bind].
  eexists. split; [reflexivity|].
  rewrite mode_rows_at_set_same. cbn [_dist_row_list _edge_row_list _opt_row_list].
  repeat split.
  intros i Hne. rewrite mode_rows_at_set_other by congruence. apply Hi, Hne.
Qed.

(** [update_dist] on a dock whose distance rows are displayed: it returns,
    and the row at each position is the pass over the row that was there. *)
Lemma update_dist_displayed (view : View) (d : MeasureDock) :
  all_rows dist_displayed (dist_rows view d) = true ->
  exists d',
    update_dist get_cm_delta view d = Some d'
    /\ List.length (dist_rows view d') = List.length (dist_rows view d)
    /\ edge_rows view d' = edge_rows view d
    /\ forall k o, nth_error (dist_rows view d) k = Some o ->
         exists o', nth_error (dist_rows view d') k = Some o'
                    /\ update_dist_row get_cm_delta view o = Some o'.
Proof.
  intros Hall.
  destruct (rows_until_unbound_all (update_dist_row get_cm_delta view) dist_displayed
              (dist_rows view d)) as (rows' & Hloop & Hlen & Hnth); [|exact Hall|].
  - intros o Ho. split.
    + unfold dist_displayed in Ho. repeat (apply andb_true_iff in Ho; destruct Ho as [Ho ?]).
      exact Ho.
    + destruct (update_dist_row_displayed get_cm_delta view o Ho) as (o' & H & _). eauto.
  - destruct (update_dist_dock view d rows' Hloop) as (d' & Hd & Hrows & Hedge & _).
    exists d'. rewrite Hrows. auto.
Qed.

(** The same for [update_edge]. *)
Lemma update_edge_displayed (view : View) (d : MeasureDock) :
  all_rows edge_displayed (edge_rows view d) = true ->
  exists d',
    update_edge edges view d = Some d'
    /\ List.length (edge_rows view d') = List.length (edge_rows view d)
    /\ dist_rows view d' = dist_rows view d
    /\ forall k o, nth_error (edge_rows view d) k = Some o ->
         exists o', nth_error (edge_rows view d') k = Some o'
                    /\ update_edge_row edges view o = Some o'.
Proof.
  intros Hall.
  destruct (rows_until_unbound_all (update_edge_row edges view) edge_displayed
              (edge_rows view d)) as (rows' & Hloop & Hlen & Hnth); [|exact Hall|].
  - intros o Ho. split.
    + unfold edge_displayed, dist_displayed in Ho.
      repeat (apply andb_true_iff in Ho; destruct Ho as [Ho ?]). exact Ho.
    + destruct (update_edge_row_displayed edges view o Ho) as (o' & H & _). eauto.
  - destruct (update_edge_dock view d rows' Hloop) as (d' & Hd & Hrows & Hdist & _).
    exists d'. rewrite Hrows. auto.
Qed.

End DockUpdate.

(** ** measuredock.cpp: what a pass leaves in the rows *)

Section RowResults.

Variable get_cm_delta : View -> Z -> Z -> string.
Variable edges : Signal -> Z -> Z -> option (Z * Z).

Lemma is_stale_same_count (view view' : View) (c : Z) :
  cursor_count view' = cursor_count view -> is_stale view' c = is_stale view c.
Proof. intros H. unfold is_stale. now rewrite H. Qed.

Lemma is_stale_unset (view : View) : is_stale view (-1) = false.
Proof. reflexivity. Qed.

Lemma checked_ref_unset (view : View) (c1 c2 : Z) :
  c1 = -1 \/ c2 = -1 ->
  negb (checked_ref view c1 =? -1) && negb (checked_ref view c2 =? -1) = false.
Proof.
  unfold checked_ref. intros [-> | ->]; cbn.
  - reflexivity.
  - apply andb_false_r.
Qed.

Lemma clear_stale_cursor1_same_count (view view' : View) (o : cursor_row_info) :
  cursor_count view' = cursor_count view ->
  clear_stale_cursor1 view' o = clear_stale_cursor1 view o.
Proof.
  intros H. unfold clear_stale_cursor1. now rewrite (is_stale_same_count view view').
Qed.

Lemma clear_stale_cursor2_same_count (view view' : View) (o : cursor_row_info) :
  cursor_count view' = cursor_count view ->
  clear_stale_cursor2 view' o = clear_stale_cursor2 view o.
Proof.
  intros H. unfold clear_stale_cursor2. now rewrite (is_stale_same_count view view').
Qed.

Lemma clear_stale_cursor1_refs (view : View) (o o1 : cursor_row_info) :
  clear_stale_cursor1 view o = Some o1 ->
  cursor1 o1 = checked_ref view (cursor1 o) /\ cursor2 o1 = cursor2 o.
Proof.
  unfold clear_stale_cursor1, checked_ref.
  destruct (is_stale view (cursor1 o)).
  - destruct (start_bt o); cbn; [|discriminate].
    intros H. inversion H. split; reflexivity.
  - intros H. inversion H. split; reflexivity.
Qed.

Lemma clear_stale_cursor2_refs (view : View) (o o2 : cursor_row_info) :
  clear_stale_cursor2 view o = Some o2 ->
  cursor1 o2 = cursor1 o /\ cursor2 o2 = checked_ref view (cursor2 o).
Proof.
  unfold clear_stale_cursor2, checked_ref.
  destruct (is_stale view (cursor2 o)).
  - destruct (end_bt o); cbn; [|discriminate].
    intros H. inversion H. split; reflexivity.
  - intros H. inversion H. split; reflexivity.
Qed.

(** A distance row with an unset reference: the pass reads neither the
    samples of the markers nor the formatter, only the number of markers. *)
Lemma update_dist_row_unset (get_cm_delta' : View -> Z -> Z -> string)
    (view view' : View) (o : cursor_row_info) :
  cursor1 o = -1 \/ cursor2 o = -1 ->
  cursor_count view' = cursor_count view ->
  update_dist_row get_cm_delta' view' o = update_dist_row get_cm_delta view o.
Proof.
  intros Hunset Hcount. unfold update_dist_row.
  rewrite (clear_stale_cursor1_same_count view view' o Hcount).
  destruct (clear_stale_cursor1 view o) as [o1|] eqn:E1; cbn [bind]; [|reflexivity].
  destruct (set_cursor_btn_color (start_bt o1)); cbn [bind]; [|reflexivity].
  rewrite (clear_stale_cursor2_same_count view view' o1 Hcount).
  destruct (clear_stale_cursor2 view o1) as [o2|] eqn:E2; cbn [bind]; [|reflexivity].
  destruct (set_cursor_btn_color (end_bt o2)); cbn [bind]; [|reflexivity].
  destruct (r_label o2); cbn [bind]; [|reflexivity].
  destruct (clear_stale_cursor1_refs view o o1 E1) as [H11 H12].
  destruct (clear_stale_cursor2_refs view o1 o2 E2) as [H21 H22].
  rewrite H21, H22, H11, H12, (checked_ref_unset view _ _ Hunset). reflexivity.
Qed.

(** An edge row with an unset reference: the pass reads neither the
    signals of the session nor the samples of the markers. *)
Lemma update_edge_row_unset (edges' : Signal -> Z -> Z -> option (Z * Z))
    (view view' : View) (o : cursor_row_info) :
  cursor1 o = -1 \/ cursor2 o = -1 ->
  cursor_count view' = cursor_count view ->
  update_edge_row edges' view' o = update_edge_row edges view o.
Proof.
  intros Hunset Hcount. unfold update_edge_row.
  rewrite (clear_stale_cursor1_same_count view view' o Hcount).
  destruct (clear_stale_cursor1 view o) as [o1|] eqn:E1; cbn [bind]; [|reflexivity].
  rewrite (clear_stale_cursor2_same_count view view' o1 Hcount).
  destruct (clear_stale_cursor2 view o1) as [o2|] eqn:E2; cbn [bind]; [|reflexivity].
  destruct (clear_stale_cursor1_refs view o o1 E1) as [H11 H12].
  destruct (clear_stale_cursor2_refs view o1 o2 E2) as [H21 H22].
  rewrite H21, H22, H11, H12, (checked_ref_unset view _ _ Hunset). reflexivity.
Qed.

(** C5.  Recomputation of displayed rows: every distance row with an unset
    marker reference gets the placeholder [" "] as its result, and the pass
    over it attempts no measurement (it gives the same row whatever the
    marker samples and the time formatter are); every edge row with an unset
    reference gets the placeholder ["-/-/-"], whatever the signals and the
    marker samples are. *)
Theorem unset_reference_shows_placeholder :
  forall (view : View) (d : MeasureDock),
    all_rows dist_displayed (dist_rows view d) = true ->
    all_rows edge_displayed (edge_rows view d) = true ->
    exists d1 d2,
      update_dist get_cm_delta view d = Some d1
      /\ update_edge edges view d = Some d2
      /\ (forall k o,
            nth_error (dist_rows view d) k = Some o ->
            cursor1 o = -1 \/ cursor2 o = -1 ->
            exists o',
              nth_error (dist_rows view d1) k = Some o'
              /\ result_text o' = Some " "
              /\ forall get_cm_delta' view',
                   cursor_count view' = cursor_count view ->
                   update_dist_row get_cm_delta' view' o = Some o')
      /\ (forall k o,
            nth_error (edge_rows view d) k = Some o ->
            cursor1 o = -1 \/ cursor2 o = -1 ->
            exists o',
              nth_error (edge_rows view d2) k = Some o'
              /\ result_text o' = Some "-/-/-"
              /\ forall edges' view',
                   cursor_count view' = cursor_count view ->
                   update_edge_row edges' view' o = Some o').
Proof.
  intros view d Hdist Hedge.
  destruct (update_dist_displayed get_cm_delta view d Hdist) as (d1 & Hd1 & _ & _ & Hn1).
  destruct (update_edge_displayed edges view d Hedge) as (d2 & Hd2 & _ & _ & Hn2).
  exists d1, d2. repeat split; try assumption.
  - intros k o Hk Hunset.
    destruct (Hn1 k o Hk) as (o' & Hk' & Hrow). exists o'.
    split; [exact Hk'|]. split.
    + assert (Ho : dist_displayed o = true).
      { unfold all_rows in Hdist. rewrite forallb_forall in Hdist.
        apply Hdist. eapply nth_error_In, Hk. }
      destruct (update_dist_row_displayed get_cm_delta view o Ho)
        as (o'' & Hrow' & _ & H1 & H2 & _ & _ & Hres & _).
      rewrite Hrow in Hrow'. inversion Hrow'; subst o''.
      rewrite Hres, H1, H2, (checked_ref_unset view _ _ Hunset). reflexivity.
    + intros cm' view' Hcount. rewrite <- Hrow.
      apply update_dist_row_unset; assumption.
  - intros k o Hk Hunset.
    destruct (Hn2 k o Hk) as (o' & Hk' & Hrow). exists o'.
    split; [exact Hk'|]. split.
    + assert (Ho : edge_displayed o = true).
      { unfold all_rows in Hedge. rewrite forallb_forall in Hedge.
        apply Hedge. eapply nth_error_In, Hk. }
      destruct (update_edge_row_displayed edges view o Ho)
        as (o'' & Hrow' & _ & _ & _ & _ & _ & Hres & _).
      rewrite Hrow in Hrow'. inversion Hrow'; subst o''.
      rewrite Hres. unfold edge_result.
      rewrite (checked_ref_unset view _ _ Hunset). reflexivity.
    + intros edges' view' Hcount. rewrite <- Hrow.
      apply update_edge_row_unset; assumption.
Qed.

End RowResults.

(** The theorem on the sample dock: its second distance row and its second
    edge row have an unset reference. *)
Lemma unset_reference_shows_placeholder_witness :
  exists d1 d2,
    update_dist sample_cm_delta sample_view sample_dock = Some d1
    /\ update_edge LogicSignal_edges sample_view sample_dock = Some d2
    /\ (exists o', nth_error (dist_rows sample_view d1) 1 = Some o'
                   /\ result_text o' = Some " ")
    /\ (exists o', nth_error (edge_rows sample_view d2) 1 = Some o'
                   /\ result_text o' = Some "-/-/-").
Proof.
  destruct (unset_reference_shows_placeholder sample_cm_delta LogicSignal_edges
              sample_view sample_dock) as (d1 & d2 & H1 & H2 & Hd & He).
  - reflexivity.
  - reflexivity.
  - exists d1, d2. split; [exact H1|]. split; [exact H2|]. split.
    + destruct (Hd 1%nat (build_dist_row (bare_row (-1) 2 0))) as (o' & Hk & Hr & _).
      * reflexivity.
      * left. reflexivity.
      * exists o'. split; assumption.
    + destruct (He 1%nat (build_edge_row sample_session_before (bare_row (-1) (-1) 0)))
        as (o' & Hk & Hr & _).
      * reflexivity.
      * left. reflexivity.
      * exists o'. split; assumption.
Defined.

Section EdgeAvailability.

Variable edges : Signal -> Z -> Z -> option (Z * Z).

Lemma channel_type_eqb_eq (a b : channel_type) :
  channel_type_eqb a b = true <-> a = b.
Proof.
  destruct a, b; cbn; split; intros H; try reflexivity; discriminate.
Qed.

(** With no available signal for the referenced channel the loop over the
    signals ends without a text. *)
Lemma scan_signals_not_available (view : View) (o : cursor_row_info) (b : QComboBox)
    (sigs : list Signal) :
  box o = Some b ->
  (forall s, In s sigs -> get_index s = referenced_channel b -> not_available edges s) ->
  scan_signals edges view o sigs = Some None.
Proof.
  intros Hb. induction sigs as [|s rest IH]; intros Hna; [reflexivity|].
  cbn -[channel_type_eqb]. rewrite Hb. cbn [bind].
  assert (IH' : scan_signals edges view o rest = Some None).
  { apply IH. intros s' Hin. apply Hna. now right. }
  destruct (channel_type_eqb (signal_type s) SR_CHANNEL_LOGIC) eqn:Et; cbn [andb];
    [|exact IH'].
  destruct (enabled s) eqn:Een; [|exact IH'].
  destruct (Z.eqb_spec (get_index s) (QComboBox_currentText_toInt b)) as [Hidx|];
    [|exact IH'].
  destruct (Hna s (or_introl eq_refl) Hidx) as [Ht | [Hen | Hsc]].
  - apply channel_type_eqb_eq in Et. contradiction.
  - congruence.
  - rewrite Hsc. exact IH'.
Qed.

(** C6.  Recomputation of displayed edge rows: a row whose referenced
    channel has no available signal (each signal of that index is not a logic
    channel, or disabled, or fails its edge scan) shows exactly ["-/-/-"]
    afterwards, whatever its marker references and the marker positions are
    and whatever its label showed before; in particular when both references
    are bound. *)
Theorem unavailable_channel_shows_placeholder :
  forall (view : View) (d : MeasureDock),
    all_rows edge_displayed (edge_rows view d) = true ->
    exists d',
      update_edge edges view d = Some d'
      /\ forall k o b,
           nth_error (edge_rows view d) k = Some o ->
           box o = Some b ->
           (forall s, In s (get_signals (session view)) ->
                      get_index s = referenced_channel b -> not_available edges s) ->
           exists o',
             nth_error (edge_rows view d') k = Some o'
             /\ result_text o' = Some "-/-/-".
Proof.
  intros view d Hedge.
  destruct (update_edge_displayed edges view d Hedge) as (d' & Hd' & _ & _ & Hn).
  exists d'. split; [exact Hd'|].
  intros k o b Hk Hb Hna.
  destruct (Hn k o Hk) as (o' & Hk' & Hrow). exists o'. split; [exact Hk'|].
  assert (Ho : edge_displayed o = true).
  { unfold all_rows in Hedge. rewrite forallb_forall in Hedge.
    apply Hedge. eapply nth_error_In, Hk. }
  destruct (update_edge_row_displayed edges view o Ho)
    as (o'' & Hrow' & _ & _ & _ & _ & _ & Hres & _).
  rewrite Hrow in Hrow'. inversion Hrow'; subst o''.
  rewrite Hres. unfold edge_result.
  rewrite (scan_signals_not_available view o b _ Hb Hna).
  destruct (negb _ && negb _); reflexivity.
Qed.

End EdgeAvailability.

(** A signal without a snapshot fails the edge scan of the spec. *)
Lemma LogicSignal_edges_no_snapshot (s : Signal) (end_ start : Z) :
  snapshot s = None -> LogicSignal_edges s end_ start = None.
Proof. intros H. unfold LogicSignal_edges. now rewrite H. Qed.

(** The theorem on the sample dock: the third edge row has both references
    bound and refers to channel 1, which is disabled. *)
Lemma unavailable_channel_shows_placeholder_witness :
  exists d' o',
    update_edge LogicSignal_edges sample_view sample_dock = Some d'
    /\ nth_error (edge_rows sample_view d') 2 = Some o'
    /\ (cursor1 o', cursor2 o') = (1, 2)
    /\ result_text o' = Some "-/-/-".
Proof.
  destruct (unavailable_channel_shows_placeholder LogicSignal_edges sample_view sample_dock)
    as (d' & Hd' & Hrows).
  - reflexivity.
  - destruct (Hrows 2%nat (build_edge_row sample_session_before (bare_row 1 2 1))
                (mkQComboBox [0; 1] 1)) as (o' & Hk & Hr).
    + reflexivity.
    + reflexivity.
    + intros s [<- | [<- | [<- | []]]] Hidx.
      * discriminate Hidx.
      * right. left. reflexivity.
      * discriminate Hidx.
    + exists d', o'. split; [exact Hd'|]. split; [exact Hk|]. split; [|exact Hr].
      pose proof Hd' as Hc. vm_compute in Hc. injection Hc as <-.
      clear Hr. revert Hk. vm_compute.
      intros H. inversion H. reflexivity.
Defined.

(** ** measuredock.cpp: the stale-reference cleanup *)

Section StaleCleanup.

Variable get_cm_delta : View -> Z -> Z -> string.
Variable edges : Signal -> Z -> Z -> option (Z * Z).

Lemma checked_cleanup (view : View) (c : Z) (b : option QPushButton) :
  cleanup_of view c (button_text b) (checked_ref view c) (checked_text view c b).
Proof.
  unfold cleanup_of, checked_ref, checked_text, is_stale.
  assert (0 <= cursor_count view) by (unfold cursor_count; lia).
  split; intros Hc.
  - destruct (Z.eqb_spec c (-1)); [lia|].
    destruct (Z.ltb_spec (cursor_count view) c); [|lia]. cbn. auto.
  - destruct (Z.ltb_spec (cursor_count view) c); [lia|].
    rewrite andb_false_r. auto.
Qed.

(** The sample a reference within the marker list stands for is the sample
    of the marker that is at that display order now. *)
Lemma get_cursor_samples_current (view : View) (c : Z) :
  1 <= c <= cursor_count view ->
  exists m, nth_error (_cursorList view) (Z.to_nat (c - 1)) = Some m
            /\ get_cursor_samples view (c - 1) = _index m.
Proof.
  unfold cursor_count, get_cursor_samples. intros H.
  destruct (Z.leb_spec 0 (c - 1)); [|lia].
  destruct (Z.ltb_spec (c - 1) (Z.of_nat (List.length (_cursorList view)))); [|lia].
  cbn [andb].
  destruct (nth_error (_cursorList view) (Z.to_nat (c - 1))) as [m|] eqn:E.
  - eauto.
  - apply nth_error_None in E. lia.
Qed.

(** C10.  The stale-reference cleanup of displayed distance and edge rows
    clears a reference (sets it to -1, with its button's text emptied)
    exactly when it is strictly greater than the number of markers; every
    reference less than or equal to that number is retained with its
    button's text, also the one equal to it.  A retained reference stands
    for the marker that holds that display order in the current list: the
    distance text of a row with two retained references is computed from the
    samples at those positions, and so is the edge result. *)
Theorem stale_reference_cleared_only_above_count :
  forall (view : View) (d : MeasureDock),
    all_rows dist_displayed (dist_rows view d) = true ->
    all_rows edge_displayed (edge_rows view d) = true ->
    exists d1 d2,
      update_dist get_cm_delta view d = Some d1
      /\ update_edge edges view d = Some d2
      /\ (forall k o,
            nth_error (dist_rows view d) k = Some o ->
            exists o',
              nth_error (dist_rows view d1) k = Some o'
              /\ cleanup_of view (cursor1 o) (button_text (start_bt o))
                   (cursor1 o') (button_text (start_bt o'))
              /\ cleanup_of view (cursor2 o) (button_text (end_bt o))
                   (cursor2 o') (button_text (end_bt o'))
              /\ (cursor1 o' <> -1 -> cursor2 o' <> -1 ->
                  result_text o'
                  = Some (dist_text get_cm_delta view (cursor1 o) (cursor2 o))))
      /\ (forall k o,
            nth_error (edge_rows view d) k = Some o ->
            exists o',
              nth_error (edge_rows view d2) k = Some o'
              /\ cleanup_of view (cursor1 o) (button_text (start_bt o))
                   (cursor1 o') (button_text (start_bt o'))
              /\ cleanup_of view (cursor2 o) (button_text (end_bt o))
                   (cursor2 o') (button_text (end_bt o'))
              /\ (cursor1 o' <> -1 -> cursor2 o' <> -1 ->
                  result_text o'
                  = Some (match scan_signals edges view o (get_signals (session view)) with
                          | Some (Some delta_text) => delta_text
                          | _ => "-/-/-"
                          end)))
      /\ (forall c, 1 <= c <= cursor_count view ->
            exists m, nth_error (_cursorList view) (Z.to_nat (c - 1)) = Some m
                      /\ get_cursor_samples view (c - 1) = _index m).
Proof.
  intros view d Hdist Hedge.
  destruct (update_dist_displayed get_cm_delta view d Hdist) as (d1 & Hd1 & _ & _ & Hn1).
  destruct (update_edge_displayed edges view d Hedge) as (d2 & Hd2 & _ & _ & Hn2).
  exists d1, d2. split; [exact Hd1|]. split; [exact Hd2|].
  split; [|split]; [| |apply get_cursor_samples_current].
  - intros k o Hk.
    destruct (Hn1 k o Hk) as (o' & Hk' & Hrow). exists o'. split; [exact Hk'|].
    assert (Ho : dist_displayed o = true).
    { unfold all_rows in Hdist. rewrite forallb_forall in Hdist.
      apply Hdist. eapply nth_error_In, Hk. }
    destruct (update_dist_row_displayed get_cm_delta view o Ho)
      as (o'' & Hrow' & _ & H1 & H2 & Hs & He & Hres & _).
    rewrite Hrow in Hrow'. inversion Hrow'; subst o''.
    rewrite H1, H2, Hs, He.
    split; [apply checked_cleanup|]. split; [apply checked_cleanup|].
    intros Hb1 Hb2. rewrite Hres, H1, H2.
    destruct (checked_ref_bound view _ Hb1) as [-> _].
    destruct (checked_ref_bound view _ Hb2) as [-> _].
    destruct (Z.eqb_spec (cursor1 o) (-1)) as [E|_];
      [unfold checked_ref in Hb1; rewrite E in Hb1; cbn in Hb1; contradiction|].
    destruct (Z.eqb_spec (cursor2 o) (-1)) as [E|_];
      [unfold checked_ref in Hb2; rewrite E in Hb2; cbn in Hb2; contradiction|].
    reflexivity.
  - intros k o Hk.
    destruct (Hn2 k o Hk) as (o' & Hk' & Hrow). exists o'. split; [exact Hk'|].
    assert (Ho : edge_displayed o = true).
    { unfold all_rows in Hedge. rewrite forallb_forall in Hedge.
      apply Hedge. eapply nth_error_In, Hk. }
    destruct (update_edge_row_displayed edges view o Ho)
      as (o'' & Hrow' & _ & H1 & H2 & Hs & He & Hres & _).
    rewrite Hrow in Hrow'. inversion Hrow'; subst o''.
    rewrite H1, H2, Hs, He.
    split; [apply checked_cleanup|]. split; [apply checked_cleanup|].
    intros Hb1 Hb2. rewrite Hres. unfold edge_result.
    destruct (Z.eqb_spec (checked_ref view (cursor1 o)) (-1)); [contradiction|].
    destruct (Z.eqb_spec (checked_ref view (cursor2 o)) (-1)); [contradiction|].
    reflexivity.
Qed.

End StaleCleanup.

(** The theorem on the sample dock with two markers left: in the distance
    row bound to (2, 3) the reference 2, equal to the number of markers, is
    kept and the reference 3 is cleared. *)
Lemma stale_reference_cleared_only_above_count_witness :
  exists d1 o',
    update_dist sample_cm_delta two_marker_view sample_dock = Some d1
    /\ nth_error (dist_rows two_marker_view d1) 2 = Some o'
    /\ cursor1 o' = 2
    /\ button_text (start_bt o') = Some "2"
    /\ cursor2 o' = -1
    /\ button_text (end_bt o') = Some "".
Proof.
  destruct (stale_reference_cleared_only_above_count sample_cm_delta LogicSignal_edges
              two_marker_view sample_dock) as (d1 & d2 & Hd1 & _ & Hdist & _).
  - vm_compute. reflexivity.
  - vm_compute. reflexivity.
  - destruct (Hdist 2%nat (build_dist_row (bare_row 2 3 0)))
      as (o' & Hk & [_ Hkeep] & [Hclear _] & _).
    + vm_compute. reflexivity.
    + exists d1, o'. split; [exact Hd1|]. split; [exact Hk|].
      destruct Hkeep as [Hc1 Ht1]; [vm_compute; discriminate|].
      destruct Hclear as [Hc2 Ht2]; [vm_compute; reflexivity|].
      rewrite Hc1, Ht1, Hc2, Ht2. repeat split.
Defined.

(** ** Edge counting *)

(** The scan of the spec does not depend on the order of its two ends. *)
Lemma LogicSignal_edges_sym (s : Signal) (a b : Z) :
  LogicSignal_edges s a b = LogicSignal_edges s b a.
Proof.
  unfold LogicSignal_edges. destruct (snapshot s); [|reflexivity].
  now rewrite (Z.min_comm b a), (Z.max_comm b a).
Qed.

Lemma scan_signals_swap (view : View) (o : cursor_row_info) (sigs : list Signal) :
  scan_signals LogicSignal_edges view (swap_refs o) sigs
  = scan_signals LogicSignal_edges view o sigs.
Proof.
  induction sigs as [|s rest IH]; [reflexivity|].
  cbn -[LogicSignal_edges channel_type_eqb]. rewrite IH.
  destruct (channel_type_eqb (signal_type s) SR_CHANNEL_LOGIC && enabled s);
    [|reflexivity].
  destruct o as [c1 c2 [bx|] db sb eb rl ch]; cbn -[LogicSignal_edges]; [|reflexivity].
  destruct (get_index s =? QComboBox_currentText_toInt bx); [|reflexivity].
  now rewrite (LogicSignal_edges_sym s (get_cursor_samples view (c1 - 1))).
Qed.

Lemma checked_ref_swap_bound (view : View) (c1 c2 : Z) :
  negb (checked_ref view c2 =? -1) && negb (checked_ref view c1 =? -1)
  = negb (checked_ref view c1 =? -1) && negb (checked_ref view c2 =? -1).
Proof. apply andb_comm. Qed.

(** C4.  Edge counting does not depend on the order of the two markers:
    for every channel snapshot and every pair of sample indices the scan
    gives the same rising and falling counts for [(a, b)] and [(b, a)];
    the loop over the signals gives the same text (rising, falling and
    their total) for a row and for the row with its two references
    exchanged, and so a displayed row and its exchanged row show the same
    result after [update_edge]'s pass. *)
Theorem edge_count_order_independent :
  forall (s : Signal) (a b : Z) (view : View) (o : cursor_row_info),
    LogicSignal_edges s a b = LogicSignal_edges s b a
    /\ scan_signals LogicSignal_edges view (swap_refs o) (get_signals (session view))
       = scan_signals LogicSignal_edges view o (get_signals (session view))
    /\ (edge_displayed o = true ->
        exists o1 o2,
          update_edge_row LogicSignal_edges view o = Some o1
          /\ update_edge_row LogicSignal_edges view (swap_refs o) = Some o2
          /\ result_text o2 = result_text o1).
Proof.
  intros s a b view o. split; [apply LogicSignal_edges_sym|].
  split; [apply scan_signals_swap|].
  intros Ho.
  assert (Hs : edge_displayed (swap_refs o) = true) by (destruct o; exact Ho).
  destruct (update_edge_row_displayed LogicSignal_edges view o Ho)
    as (o1 & H1 & _ & _ & _ & _ & _ & Hr1 & _).
  destruct (update_edge_row_displayed LogicSignal_edges view (swap_refs o) Hs)
    as (o2 & H2 & _ & _ & _ & _ & _ & Hr2 & _).
  exists o1, o2. split; [exact H1|]. split; [exact H2|].
  rewrite Hr1, Hr2. unfold edge_result.
  rewrite scan_signals_swap.
  replace (cursor1 (swap_refs o)) with (cursor2 o) by (destruct o; reflexivity).
  replace (cursor2 (swap_refs o)) with (cursor1 o) by (destruct o; reflexivity).
  now rewrite checked_ref_swap_bound.
Qed.

(** The theorem on the first edge row of the sample dock, markers 1 and 3 on
    channel 0: two rising edges and one falling edge either way. *)
Lemma edge_count_order_independent_witness :
  exists o1 o2,
    update_edge_row LogicSignal_edges sample_view
      (build_edge_row sample_session_before (bare_row 1 3 0)) = Some o1
    /\ update_edge_row LogicSignal_edges sample_view
         (swap_refs (build_edge_row sample_session_before (bare_row 1 3 0))) = Some o2
    /\ result_text o2 = result_text o1
    /\ result_text o1 = Some "2/1/3".
Proof.
  destruct (edge_count_order_independent
              (mkSignal SR_CHANNEL_LOGIC true 0 None) 0 0 sample_view
              (build_edge_row sample_session_before (bare_row 1 3 0)))
    as (_ & _ & H).
  destruct (H eq_refl) as (o1 & o2 & H1 & H2 & Heq).
  exists o1, o2. split; [exact H1|]. split; [exact H2|]. split; [exact Heq|].
  vm_compute in H1. injection H1 as <-. reflexivity.
Defined.

(** ** measuredock.cpp: building panels and adding rows *)

(** Every member that starts with [get_mode_rows()] and then rewrites the
    returned entry has this shape: the active entry is rewritten, the other
    entries are detached. *)
Lemma rewrite_active_rows_at (s : SigSession) (d : MeasureDock) (i : mode_dex)
    (f : row_list_item -> row_list_item) :
  mode_rows_at
    (set_mode_rows_at (fst (get_mode_rows s d)) (snd (get_mode_rows s d))
       (f (mode_rows_at (fst (get_mode_rows s d)) (snd (get_mode_rows s d))))) i
  = if mode_dex_eqb i (dex_of_mode (get_work_mode s))
    then f (set_mode_type (mode_rows_at d i) (get_work_mode s))
    else detach_rows (mode_rows_at d i).
Proof.
  rewrite get_mode_rows_snd, get_mode_rows_active.
  destruct (mode_dex_eqb i (dex_of_mode (get_work_mode s))) eqn:E.
  - apply mode_dex_eqb_eq in E. subst i. apply mode_rows_at_set_same.
  - assert (Hne : i <> dex_of_mode (get_work_mode s)).
    { intros ->. destruct (dex_of_mode (get_work_mode s)); discriminate. }
    rewrite mode_rows_at_set_other by congruence.
    apply get_mode_rows_inactive, Hne.
Qed.

Lemma build_dist_pannel_at (view : View) (d : MeasureDock) (i : mode_dex) :
  mode_rows_at (build_dist_pannel view d) i
  = if mode_dex_eqb i (active_dex view)
    then mkRows (get_work_mode (session view))
                (map build_dist_row (_dist_row_list (mode_rows_at d i)))
                (_edge_row_list (mode_rows_at d i))
                (_opt_row_list (mode_rows_at d i))
    else detach_rows (mode_rows_at d i).
Proof.
  unfold build_dist_pannel, active_dex.
  rewrite (surjective_pairing (get_mode_rows (session view) d)).
  apply (rewrite_active_rows_at (session view) d i
           (fun r => set_dist_row_list r (map build_dist_row (_dist_row_list r)))).
Qed.

Lemma build_edge_pannel_at (view : View) (d : MeasureDock) (i : mode_dex) :
  mode_rows_at (build_edge_pannel view d) i
  = if mode_dex_eqb i (active_dex view)
    then mkRows (get_work_mode (session view))
                (_dist_row_list (mode_rows_at d i))
                (map (build_edge_row (session view)) (_edge_row_list (mode_rows_at d i)))
                (_opt_row_list (mode_rows_at d i))
    else detach_rows (mode_rows_at d i).
Proof.
  unfold build_edge_pannel, active_dex.
  rewrite (surjective_pairing (get_mode_rows (session view) d)).
  apply (rewrite_active_rows_at (session view) d i
           (fun r => set_edge_row_list r
                       (map (build_edge_row (session view)) (_edge_row_list r)))).
Qed.

Lemma build_cursor_pannel_at (get_cm_time : View -> Z -> string)
    (view : View) (d : MeasureDock) (i : mode_dex) :
  mode_rows_at (build_cursor_pannel get_cm_time view d) i
  = if mode_dex_eqb i (active_dex view)
    then mkRows (get_work_mode (session view))
                (_dist_row_list (mode_rows_at d i))
                (_edge_row_list (mode_rows_at d i))
                (build_cursor_rows get_cm_time view 0 (_cursorList view))
    else detach_rows (mode_rows_at d i).
Proof.
  unfold build_cursor_pannel, active_dex.
  rewrite (surjective_pairing (get_mode_rows (session view) d)).
  apply (rewrite_active_rows_at (session view) d i
           (fun r => set_opt_row_list r
                       (build_cursor_rows get_cm_time view 0 (_cursorList view)))).
Qed.

Lemma active_dex_eqb_refl (view : View) :
  mode_dex_eqb (active_dex view) (active_dex view) = true.
Proof. apply mode_dex_eqb_eq. reflexivity. Qed.

Section AddRow.

Variable Max_Measure_Limits : nat.

(** At the cap the two members do what their first statement,
    [get_mode_rows()], does, and nothing else. *)
Lemma add_measure_at_cap (view : View) (d : MeasureDock) :
  ((Max_Measure_Limits <= List.length (dist_rows view d))%nat ->
   add_dist_measure Max_Measure_Limits view d = fst (get_mode_rows (session view) d))
  /\ ((Max_Measure_Limits <= List.length (edge_rows view d))%nat ->
      add_edge_measure Max_Measure_Limits view d = fst (get_mode_rows (session view) d)).
Proof.
  unfold add_dist_measure, add_edge_measure, dist_rows, edge_rows.
  pose proof (get_mode_rows_active (session view) d) as Ha.
  pose proof (get_mode_rows_snd (session view) d) as Hs.
  destruct (get_mode_rows (session view) d) as [d1 dex]. cbn in Ha, Hs. subst dex.
  fold (active_dex view) in *. rewrite Ha.
  unfold set_mode_type. cbn [_dist_row_list _edge_row_list fst].
  split; intros H.
  - destruct (Nat.ltb_spec (List.length (_dist_row_list (mode_rows_at d (active_dex view))))
                Max_Measure_Limits); [lia | reflexivity].
  - destruct (Nat.ltb_spec (List.length (_edge_row_list (mode_rows_at d (active_dex view))))
                Max_Measure_Limits); [lia | reflexivity].
Qed.

Lemma add_dist_measure_rows (view : View) (d : MeasureDock) :
  dist_rows view (add_dist_measure Max_Measure_Limits view d)
  = (if (List.length (dist_rows view d) <? Max_Measure_Limits)%nat
     then map build_dist_row (dist_rows view d ++ [new_row_info])
     else dist_rows view d)
  /\ edge_rows view (add_dist_measure Max_Measure_Limits view d) = edge_rows view d.
Proof.
  unfold add_dist_measure, dist_rows, edge_rows.
  pose proof (get_mode_rows_active (session view) d) as Ha.
  pose proof (get_mode_rows_snd (session view) d) as Hs.
  destruct (get_mode_rows (session view) d) as [d1 dex]. cbn in Ha, Hs. subst dex.
  fold (active_dex view) in *. rewrite Ha.
  unfold set_mode_type. cbn [_dist_row_list _edge_row_list].
  destruct (List.length (_dist_row_list (mode_rows_at d (active_dex view)))
            <? Max_Measure_Limits)%nat.
  - rewrite build_dist_pannel_at, active_dex_eqb_refl, mode_rows_at_set_same.
    split; reflexivity.
  - rewrite Ha. split; reflexivity.
Qed.

Lemma add_edge_measure_rows (view : View) (d : MeasureDock) :
  edge_rows view (add_edge_measure Max_Measure_Limits view d)
  = (if (List.length (edge_rows view d) <? Max_Measure_Limits)%nat
     then map (build_edge_row (session view)) (edge_rows view d ++ [new_row_info])
     else edge_rows view d)
  /\ dist_rows view (add_edge_measure Max_Measure_Limits view d) = dist_rows view d.
Proof.
  unfold add_edge_measure, dist_rows, edge_rows.
  pose proof (get_mode_rows_active (session view) d) as Ha.
  pose proof (get_mode_rows_snd (session view) d) as Hs.
  destruct (get_mode_rows (session view) d) as [d1 dex]. cbn in Ha, Hs. subst dex.
  fold (active_dex view) in *. rewrite Ha.
  unfold set_mode_type. cbn [_dist_row_list _edge_row_list].
  destruct (List.length (_edge_row_list (mode_rows_at d (active_dex view)))
            <? Max_Measure_Limits)%nat.
  - rewrite build_edge_pannel_at, active_dex_eqb_refl, mode_rows_at_set_same.
    split; reflexivity.
  - rewrite Ha. split; reflexivity.
Qed.

(** C8.  For each kind of row: when the list of the active mode already
    holds [Max_Measure_Limits] rows (or more), adding a row leaves that list,
    and so its length, unchanged, and nothing reports it (the call does what
    [get_mode_rows()] alone does); below the cap the
    list grows by exactly one row, appended at the end with
    [cursor1 = cursor2 = -1] and [channelIndex = 0], the rows before it
    keeping their data.  The list of the other kind is not touched. *)
Theorem add_row_capped :
  forall (view : View) (d : MeasureDock),
    let dist := dist_rows view d in
    let edge := edge_rows view d in
    let d_dist := add_dist_measure Max_Measure_Limits view d in
    let d_edge := add_edge_measure Max_Measure_Limits view d in
    ((Max_Measure_Limits <= List.length dist)%nat ->
       dist_rows view d_dist = dist /\ edge_rows view d_dist = edge
       /\ d_dist = fst (get_mode_rows (session view) d))
    /\ ((List.length dist < Max_Measure_Limits)%nat ->
        exists inf,
          dist_rows view d_dist = (map build_dist_row dist ++ [inf])%list
          /\ List.length (dist_rows view d_dist) = S (List.length dist)
          /\ map row_data (dist_rows view d_dist) = (map row_data dist ++ [(-1, -1, 0)])%list
          /\ cursor1 inf = -1 /\ cursor2 inf = -1 /\ channelIndex inf = 0
          /\ edge_rows view d_dist = edge)
    /\ ((Max_Measure_Limits <= List.length edge)%nat ->
        edge_rows view d_edge = edge /\ dist_rows view d_edge = dist
        /\ d_edge = fst (get_mode_rows (session view) d))
    /\ ((List.length edge < Max_Measure_Limits)%nat ->
        exists inf,
          edge_rows view d_edge = (map (build_edge_row (session view)) edge ++ [inf])%list
          /\ List.length (edge_rows view d_edge) = S (List.length edge)
          /\ map row_data (edge_rows view d_edge) = (map row_data edge ++ [(-1, -1, 0)])%list
          /\ cursor1 inf = -1 /\ cursor2 inf = -1 /\ channelIndex inf = 0
          /\ dist_rows view d_edge = dist).
Proof.
  intros view d dist edge d_dist d_edge.
  destruct (add_dist_measure_rows view d) as [Hdd Hde].
  destruct (add_edge_measure_rows view d) as [Hee Hed].
  fold dist in Hdd, Hed. fold edge in Hde, Hee. fold d_dist in Hdd, Hde.
  fold d_edge in Hee, Hed.
  destruct (add_measure_at_cap view d) as [Hcd Hce].
  fold dist in Hcd. fold edge in Hce. fold d_dist in Hcd. fold d_edge in Hce.
  repeat split.
  - rewrite Hdd. destruct (Nat.ltb_spec (List.length dist) Max_Measure_Limits);
      [lia | reflexivity].
  - exact Hde.
  - apply Hcd. assumption.
  - intros Hlt. exists (build_dist_row new_row_info).
    rewrite Hdd. destruct (Nat.ltb_spec (List.length dist) Max_Measure_Limits); [|lia].
    rewrite map_app. cbn [map].
    repeat split; try exact Hde.
    + rewrite length_app, length_map. cbn. lia.
    + rewrite map_app, map_row_data_map by apply row_data_build_dist_row. reflexivity.
  - rewrite Hee. destruct (Nat.ltb_spec (List.length edge) Max_Measure_Limits);
      [lia | reflexivity].
  - exact Hed.
  - apply Hce. assumption.
  - intros Hlt. exists (build_edge_row (session view) new_row_info).
    rewrite Hee. destruct (Nat.ltb_spec (List.length edge) Max_Measure_Limits); [|lia].
    rewrite map_app. cbn [map].
    repeat split; try exact Hed.
    + rewrite length_app, length_map. cbn. lia.
    + rewrite map_app, map_row_data_map by apply row_data_build_edge_row. reflexivity.
Qed.

End AddRow.

(** The theorem on the sample dock (three rows of each kind), with a cap of
    three for the distance rows and of four for the edge rows. *)
Lemma add_row_capped_witness :
  List.length (dist_rows sample_view (add_dist_measure 3 sample_view sample_dock)) = 3%nat
  /\ List.length (edge_rows sample_view (add_edge_measure 4 sample_view sample_dock)) = 4%nat.
Proof.
  split.
  - destruct (add_row_capped 3 sample_view sample_dock) as ((Hd & _ & _) & _).
    + cbn. lia.
    + rewrite Hd. reflexivity.
  - destruct (add_row_capped 4 sample_view sample_dock) as (_ & _ & _ & He).
    destruct He as (inf & _ & Hlen & _).
    + cbn. lia.
    + rewrite Hlen. reflexivity.
Defined.

(** ** measuredock.cpp: rows without their widgets *)


Lemma detach_row_idem (o : cursor_row_info) : detach_row (detach_row o) = detach_row o.
Proof. reflexivity. Qed.

Lemma detach_rows_idem (r : row_list_item) : detach_rows (detach_rows r) = detach_rows r.
Proof.
  destruct r as [m dl el ol]. unfold detach_rows, set_dist_row_list, set_edge_row_list,
    set_opt_row_list. cbn [_mode_type _dist_row_list _edge_row_list _opt_row_list].
  rewrite !map_map.
  f_equal; apply map_ext; intros o; apply detach_row_idem.
Qed.


(** ** measuredock.cpp: removing a marker *)

Lemma length_remove_at {A : Type} (k : nat) (l : list A) :
  (k < List.length l)%nat -> List.length (remove_at k l) = pred (List.length l).
Proof.
  revert k. induction l as [|a l IH]; intros k H; cbn in *; [lia|].
  destruct k; [reflexivity|]. cbn. rewrite IH by lia.
  destruct l; cbn in *; lia.
Qed.

Lemma length_make_cursors_order_from (k : Z) (l : list Cursor) :
  List.length (make_cursors_order_from k l) = List.length l.
Proof.
  revert k. induction l as [|c l IH]; intros k; cbn; [reflexivity|]. now rewrite IH.
Qed.

(** Removing a marker of the list leaves one marker less. *)
Lemma cursor_count_del_cursor (view : View) (cursor : nat) :
  (cursor < List.length (_cursorList view))%nat ->
  cursor_count (View_del_cursor view cursor) = cursor_count view - 1.
Proof.
  intros H. unfold cursor_count, View_del_cursor, set_cursorList, make_cursors_order.
  cbn [_cursorList].
  rewrite length_make_cursors_order_from, length_remove_at by exact H. lia.
Qed.

Section MarkerRemoval.

Variable get_cm_delta : View -> Z -> Z -> string.
Variable get_cm_time : View -> Z -> string.
Variable edges : Signal -> Z -> Z -> option (Z * Z).

(** [cursor_update] on a dock whose rows are displayed: it returns, and
    every distance and edge row is the pass over the row that was there. *)
Lemma cursor_update_displayed (view : View) (d : MeasureDock) :
  all_rows dist_displayed (dist_rows view d) = true ->
  all_rows edge_displayed (edge_rows view d) = true ->
  exists d',
    cursor_update get_cm_delta get_cm_time edges view d = Some d'
    /\ (forall k o, nth_error (dist_rows view d) k = Some o ->
          exists o', nth_error (dist_rows view d') k = Some o'
                     /\ update_dist_row get_cm_delta view o = Some o')
    /\ (forall k o, nth_error (edge_rows view d) k = Some o ->
          exists o', nth_error (edge_rows view d') k = Some o'
                     /\ update_edge_row edges view o = Some o').
Proof.
  intros Hdist Hedge.
  destruct (update_dist_displayed get_cm_delta view d Hdist) as (d1 & Hd1 & _ & He1 & Hn1).
  rewrite <- He1 in Hedge.
  destruct (update_edge_displayed edges view d1 Hedge) as (d2 & Hd2 & _ & Hdd2 & Hn2).
  exists (build_cursor_pannel get_cm_time view d2).
  unfold cursor_update. rewrite Hd1. cbn [bind]. rewrite Hd2. cbn [bind].
  split; [reflexivity|].
  assert (Hkeep : dist_rows view (build_cursor_pannel get_cm_time view d2) = dist_rows view d2
                  /\ edge_rows view (build_cursor_pannel get_cm_time view d2)
                     = edge_rows view d2).
  { unfold dist_rows, edge_rows.
    rewrite build_cursor_pannel_at, active_dex_eqb_refl. split; reflexivity. }
  destruct Hkeep as [-> ->]. rewrite Hdd2. split.
  - exact Hn1.
  - intros k o Hk. rewrite <- He1 in Hk. apply Hn2, Hk.
Qed.

(** C1 (amended).  After a marker is removed and the rows are updated
    ([del_cursor]): every slot of a displayed distance or edge row whose
    reference is greater than the number of markers left is reset to -1,
    with its button's text emptied, and the result of that row is reset to
    its placeholder; every slot whose reference is at most the number of
    markers left keeps it, whether or not it referred to the display order
    of the removed marker; a row that keeps both references has its result
    computed anew from the markers now at those display orders.  This holds
    from every state of the marker list. *)
Theorem marker_removal_clears_references_above_count :
  forall (sender : nat) (view : View) (d : MeasureDock),
    all_rows dist_displayed (dist_rows view d) = true ->
    all_rows edge_displayed (edge_rows view d) = true ->
    exists view' d',
      del_cursor get_cm_delta get_cm_time edges sender view d = Some (view', d')
      /\ session view' = session view
      /\ (forall row,
            nth_error (_opt_row_list (mode_rows_at d (active_dex view))) sender = Some row ->
            view' = View_del_cursor view (opt_cursor row)
            /\ ((opt_cursor row < List.length (_cursorList view))%nat ->
                cursor_count view' = cursor_count view - 1))
      /\ (forall k o,
            nth_error (dist_rows view d) k = Some o ->
            exists o',
              nth_error (dist_rows view' d') k = Some o'
              /\ cleanup_of view' (cursor1 o) (button_text (start_bt o))
                   (cursor1 o') (button_text (start_bt o'))
              /\ cleanup_of view' (cursor2 o) (button_text (end_bt o))
                   (cursor2 o') (button_text (end_bt o'))
              /\ (cursor_count view' < cursor1 o \/ cursor_count view' < cursor2 o ->
                  result_text o' = Some " ")
              /\ (cursor1 o' <> -1 -> cursor2 o' <> -1 ->
                  result_text o'
                  = Some (dist_text get_cm_delta view' (cursor1 o) (cursor2 o))))
      /\ (forall k o,
            nth_error (edge_rows view d) k = Some o ->
            exists o',
              nth_error (edge_rows view' d') k = Some o'
              /\ cleanup_of view' (cursor1 o) (button_text (start_bt o))
                   (cursor1 o') (button_text (start_bt o'))
              /\ cleanup_of view' (cursor2 o) (button_text (end_bt o))
                   (cursor2 o') (button_text (end_bt o'))
              /\ (cursor_count view' < cursor1 o \/ cursor_count view' < cursor2 o ->
                  result_text o' = Some "-/-/-")
              /\ (cursor1 o' <> -1 -> cursor2 o' <> -1 ->
                  result_text o'
                  = Some (match scan_signals edges view' o (get_signals (session view')) with
                          | Some (Some delta_text) => delta_text
                          | _ => "-/-/-"
                          end))).
Proof.
  intros sender view d Hdist Hedge.
  unfold del_cursor.
  pose proof (get_mode_rows_active (session view) d) as Ha.
  pose proof (get_mode_rows_snd (session view) d) as Hs.
  destruct (get_mode_rows (session view) d) as [d1 dex]. cbn in Ha, Hs. subst dex.
  fold (active_dex view) in *. rewrite Ha.
  unfold set_mode_type at 1. cbn [_opt_row_list].
  set (view' :=
         match
           match nth_error (_opt_row_list (mode_rows_at d (active_dex view))) sender with
           | Some row => Some (opt_cursor row)
           | None => None
           end
         with
         | Some c => View_del_cursor view c
         | None => view
         end).
  assert (Hsess : session view' = session view).
  { unfold view'. destruct (nth_error _ sender); reflexivity. }
  assert (Hdex : active_dex view' = active_dex view).
  { unfold active_dex. now rewrite Hsess. }
  assert (Hd1 : dist_rows view' d1 = dist_rows view d /\ edge_rows view' d1 = edge_rows view d).
  { unfold dist_rows, edge_rows. rewrite Hdex, Ha. split; reflexivity. }
  destruct Hd1 as [Hdd Hde].
  destruct (cursor_update_displayed view' d1) as (d' & Hd' & Hn1 & Hn2).
  { now rewrite Hdd. }
  { now rewrite Hde. }
  exists view', d'. rewrite Hd'. cbn [bind].
  split; [reflexivity|]. split; [exact Hsess|].
  split; [|split].
  - intros row Hrow. unfold view'. rewrite Hrow. split; [reflexivity|].
    apply cursor_count_del_cursor.
  - intros k o Hk.
    assert (Ho : dist_displayed o = true).
    { unfold all_rows in Hdist. rewrite forallb_forall in Hdist.
      apply Hdist. eapply nth_error_In, Hk. }
    rewrite <- Hdd in Hk.
    destruct (Hn1 k o Hk) as (o' & Hk' & Hrow). exists o'. split; [exact Hk'|].
    destruct (update_dist_row_displayed get_cm_delta view' o Ho)
      as (o'' & Hrow' & _ & H1 & H2 & Hsb & Heb & Hres & _).
    rewrite Hrow in Hrow'. inversion Hrow'; subst o''.
    rewrite H1, H2, Hsb, Heb.
    split; [apply checked_cleanup|]. split; [apply checked_cleanup|].
    pose proof (checked_cleanup view' (cursor1 o) (start_bt o)) as [Hc1 _].
    pose proof (checked_cleanup view' (cursor2 o) (end_bt o)) as [Hc2 _].
    split.
    + intros Hstale. rewrite Hres, H1, H2.
      destruct Hstale as [Hst | Hst].
      * destruct (Hc1 Hst) as [-> _]. reflexivity.
      * destruct (Hc2 Hst) as [-> _]. cbn. now rewrite andb_false_r.
    + intros Hb1 Hb2. rewrite Hres, H1, H2.
      destruct (checked_ref_bound view' _ Hb1) as [E1 _].
      destruct (checked_ref_bound view' _ Hb2) as [E2 _].
      rewrite E1, E2 in *.
      destruct (Z.eqb_spec (cursor1 o) (-1)); [contradiction|].
      destruct (Z.eqb_spec (cursor2 o) (-1)); [contradiction|].
      reflexivity.
  - intros k o Hk.
    assert (Ho : edge_displayed o = true).
    { unfold all_rows in Hedge. rewrite forallb_forall in Hedge.
      apply Hedge. eapply nth_error_In, Hk. }
    rewrite <- Hde in Hk.
    destruct (Hn2 k o Hk) as (o' & Hk' & Hrow). exists o'. split; [exact Hk'|].
    destruct (update_edge_row_displayed edges view' o Ho)
      as (o'' & Hrow' & _ & H1 & H2 & Hsb & Heb & Hres & _).
    rewrite Hrow in Hrow'. inversion Hrow'; subst o''.
    rewrite H1, H2, Hsb, Heb.
    split; [apply checked_cleanup|]. split; [apply checked_cleanup|].
    pose proof (checked_cleanup view' (cursor1 o) (start_bt o)) as [Hc1 _].
    pose proof (checked_cleanup view' (cursor2 o) (end_bt o)) as [Hc2 _].
    split.
    + intros Hstale. rewrite Hres. unfold edge_result.
      destruct Hstale as [Hst | Hst].
      * destruct (Hc1 Hst) as [-> _]. reflexivity.
      * destruct (Hc2 Hst) as [-> _]. cbn. now rewrite andb_false_r.
    + intros Hb1 Hb2. rewrite Hres. unfold edge_result.
      destruct (Z.eqb_spec (checked_ref view' (cursor1 o)) (-1)); [contradiction|].
      destruct (Z.eqb_spec (checked_ref view' (cursor2 o)) (-1)); [contradiction|].
      reflexivity.
Qed.

End MarkerRemoval.

(** C1 (as stated) fails.  Three markers on samples 1, 4 and 6; the marker of
    display order 1 is removed.  The distance row bound to orders (1, 2)
    referred to the removed marker's order: it keeps both references and
    shows a measured result, now between the markers on samples 4 and 6.
    The distance row bound to orders (2, 3) did not refer to it: its
    reference 3 is reset and its result becomes the placeholder.  The edge
    rows behave alike. *)
Lemma marker_removal_keeps_reference_to_removed_order :
  shown (dist_rows sample_view dock_before)
  = [(1, 2, Some "-3T/-3"); (-1, 2, Some " "); (2, 3, Some "-2T/-2")]
  /\ shown (edge_rows sample_view dock_before)
     = [(1, 3, Some "2/1/3"); (-1, -1, Some "-/-/-"); (1, 2, Some "1/1/2")]
  /\ option_map
       (fun '(v, d) => (map _index (_cursorList v), map _order (_cursorList v),
                        shown (dist_rows v d), shown (edge_rows v d)))
       (del_cursor sample_cm_delta sample_cm_time LogicSignal_edges 0 sample_view dock_before)
     = Some ([4; 6], [1; 2],
             [(1, 2, Some "-2T/-2"); (-1, 2, Some " "); (2, -1, Some " ")],
             [(1, -1, Some "-/-/-"); (-1, -1, Some "-/-/-"); (1, 2, Some "1/0/1")]).
Proof.
  split; [vm_compute; reflexivity|].
  split; [vm_compute; reflexivity|].
  vm_compute. reflexivity.
Qed.

(** The theorem on the sample dock, the first marker removed. *)
Lemma marker_removal_clears_references_above_count_witness :
  exists view' d' o',
    del_cursor sample_cm_delta sample_cm_time LogicSignal_edges 0 sample_view dock_before
    = Some (view', d')
    /\ cursor_count view' = 2
    /\ nth_error (dist_rows view' d') 2 = Some o'
    /\ cursor2 o' = -1
    /\ result_text o' = Some " ".
Proof.
  destruct (marker_removal_clears_references_above_count
              sample_cm_delta sample_cm_time LogicSignal_edges 0 sample_view dock_before)
    as (view' & d' & Hdel & _ & Hview & Hdist & _).
  - vm_compute. reflexivity.
  - vm_compute. reflexivity.
  - destruct (Hview (mkOptRow (Some mkQToolButton) (Some (mkQPushButton "1"))
                       (Some (mkQLabel "+1T/1")) 0)) as [Hv Hcount].
    + vm_compute. reflexivity.
    + assert (Hc : cursor_count view' = 2).
      { rewrite Hcount; [reflexivity | cbn; lia]. }
      destruct (Hdist 2%nat (mkRow 2 3 None (Some mkQToolButton)
                               (Some (mkQPushButton "2")) (Some (mkQPushButton "3"))
                               (Some (mkQLabel "-2T/-2")) 0))
        as (o' & Hk & _ & Hc2 & Hres & _).
      * vm_compute. reflexivity.
      * exists view', d', o'. split; [exact Hdel|]. split; [exact Hc|].
        split; [exact Hk|]. split.
        -- apply Hc2. rewrite Hc. cbn. lia.
        -- apply Hres. right. rewrite Hc. cbn. lia.
Defined.

(** ** measuredock.cpp: the cursor panel *)

Section Reload.

Variable get_cm_delta : View -> Z -> Z -> string.
Variable get_cm_time : View -> Z -> string.
Variable edges : Signal -> Z -> Z -> option (Z * Z).

Lemma length_build_cursor_rows (view : View) (k : nat) (cursors : list Cursor) :
  List.length (build_cursor_rows get_cm_time view k cursors) = List.length cursors.
Proof.
  revert k. induction cursors as [|c rest IH]; intros k; cbn; [reflexivity|].
  now rewrite IH.
Qed.


End Reload.

(** * Further properties of the dock *)

(** ** [get_mode_rows] *)

Lemma dock_ext (d d' : MeasureDock) :
  (forall i, mode_rows_at d i = mode_rows_at d' i) -> d = d'.
Proof.
  intros H. destruct d as [a b c], d' as [a' b' c'].
  pose proof (H Dex0) as H0. pose proof (H Dex1) as H1. pose proof (H Dex2) as H2.
  cbn in H0, H1, H2. now subst.
Qed.

Lemma mode_dex_eq_dec (i j : mode_dex) : {i = j} + {i <> j}.
Proof. decide equality. Qed.

Lemma set_mode_type_idem (r : row_list_item) (m : work_mode) :
  set_mode_type (set_mode_type r m) m = set_mode_type r m.
Proof. reflexivity. Qed.

(** What [get_mode_rows] leaves at each entry. *)
Lemma get_mode_rows_at (s : SigSession) (d : MeasureDock) (i : mode_dex) :
  mode_rows_at (fst (get_mode_rows s d)) i
  = if mode_dex_eqb i (dex_of_mode (get_work_mode s))
    then set_mode_type (mode_rows_at d i) (get_work_mode s)
    else detach_rows (mode_rows_at d i).
Proof.
  destruct (mode_dex_eqb i (dex_of_mode (get_work_mode s))) eqn:E.
  - apply mode_dex_eqb_eq in E. subst i. apply get_mode_rows_active.
  - apply get_mode_rows_inactive. intros ->.
    destruct (dex_of_mode (get_work_mode s)); discriminate.
Qed.

Lemma get_mode_rows_twice (s : SigSession) (d : MeasureDock) :
  fst (get_mode_rows s (fst (get_mode_rows s d))) = fst (get_mode_rows s d).
Proof.
  apply dock_ext. intros i. rewrite !get_mode_rows_at.
  destruct (mode_dex_eqb i (dex_of_mode (get_work_mode s))).
  - apply set_mode_type_idem.
  - apply detach_rows_idem.
Qed.

(** X1.  [get_mode_rows] can be called any number of times in a row: the
    second call finds the dock as the first left it and returns the same
    entry. *)
Theorem get_mode_rows_idempotent :
  forall (s : SigSession) (d : MeasureDock),
    get_mode_rows s (fst (get_mode_rows s d)) = get_mode_rows s d.
Proof.
  intros s d.
  rewrite (surjective_pairing (get_mode_rows s (fst (get_mode_rows s d)))).
  rewrite (surjective_pairing (get_mode_rows s d)) at 3.
  rewrite !get_mode_rows_snd. f_equal. apply get_mode_rows_twice.
Qed.
(** ** The members as work on the active entry *)

Lemma set_mode_rows_at_same (d : MeasureDock) (i : mode_dex) :
  set_mode_rows_at d i (mode_rows_at d i) = d.
Proof. destruct d, i; reflexivity. Qed.

Lemma set_mode_rows_at_twice (d : MeasureDock) (i : mode_dex) (r r' : row_list_item) :
  set_mode_rows_at (set_mode_rows_at d i r) i r' = set_mode_rows_at d i r'.
Proof. destruct d, i; reflexivity. Qed.

Lemma mode_dex_eqb_neq (i j : mode_dex) : mode_dex_eqb i j = false <-> i <> j.
Proof. destruct i, j; cbn; split; intros H; congruence. Qed.

Lemma mode_type_active (s : SigSession) (d : MeasureDock) :
  _mode_type (mode_rows_at (fst (get_mode_rows s d)) (dex_of_mode (get_work_mode s)))
  = get_work_mode s.
Proof. rewrite get_mode_rows_active. reflexivity. Qed.

Lemma set_mode_type_same (r : row_list_item) : set_mode_type r (_mode_type r) = r.
Proof. destruct r; reflexivity. Qed.

(** [get_mode_rows] on a dock it has returned, whose active entry has been
    replaced by one with the mode in it. *)
Lemma get_mode_rows_set_active (s : SigSession) (d : MeasureDock) (r : row_list_item) :
  _mode_type r = get_work_mode s ->
  get_mode_rows s (set_mode_rows_at (fst (get_mode_rows s d)) (dex_of_mode (get_work_mode s)) r)
  = (set_mode_rows_at (fst (get_mode_rows s d)) (dex_of_mode (get_work_mode s)) r,
     dex_of_mode (get_work_mode s)).
Proof.
  intros Hr.
  rewrite (surjective_pairing (get_mode_rows s _)). rewrite get_mode_rows_snd. f_equal.
  apply dock_ext. intros i. rewrite get_mode_rows_at.
  destruct (mode_dex_eqb i (dex_of_mode (get_work_mode s))) eqn:E.
  - apply mode_dex_eqb_eq in E. subst i. rewrite mode_rows_at_set_same.
    rewrite <- Hr. apply set_mode_type_same.
  - apply mode_dex_eqb_neq in E.
    rewrite mode_rows_at_set_other by congruence.
    rewrite get_mode_rows_inactive by exact E. apply detach_rows_idem.
Qed.

(** What a member of that shape leaves at each entry. *)
Lemma with_active_at (view : View) (F : row_list_item -> option row_list_item)
    (d d' : MeasureDock) :
  with_active view F d = Some d' ->
  exists r',
    F (set_mode_type (mode_rows_at d (active_dex view)) (get_work_mode (session view)))
    = Some r'
    /\ mode_rows_at d' (active_dex view) = r'
    /\ others_detached view d d'.
Proof.
  unfold with_active. rewrite (surjective_pairing (get_mode_rows (session view) d)).
  rewrite get_mode_rows_snd. fold (active_dex view).
  unfold active_dex at 1. rewrite get_mode_rows_active. fold (active_dex view).
  destruct (F _) as [r'|]; cbn [bind]; [|discriminate].
  intros H. injection H as <-. exists r'. split; [reflexivity|]. split.
  - apply mode_rows_at_set_same.
  - intros i Hi. rewrite mode_rows_at_set_other by congruence.
    now apply get_mode_rows_inactive.
Qed.

Lemma with_active_returns (view : View) (F : row_list_item -> option row_list_item)
    (d : MeasureDock) (r' : row_list_item) :
  F (set_mode_type (mode_rows_at d (active_dex view)) (get_work_mode (session view)))
  = Some r' ->
  exists d', with_active view F d = Some d'.
Proof.
  intros H. unfold with_active.
  rewrite (surjective_pairing (get_mode_rows (session view) d)).
  rewrite get_mode_rows_snd. rewrite get_mode_rows_active.
  fold (active_dex view). rewrite H. cbn [bind]. eauto.
Qed.

Lemma with_active_ext (view : View) (F G : row_list_item -> option row_list_item)
    (d : MeasureDock) :
  (forall r, F r = G r) -> with_active view F d = with_active view G d.
Proof.
  intros H. unfold with_active. destruct (get_mode_rows (session view) d) as [d1 dex].
  now rewrite H.
Qed.

(** Two members in a row are one member: the second [get_mode_rows()] finds
    nothing left to do. *)
Lemma with_active_seq (view : View) (F G : row_list_item -> option row_list_item)
    (d : MeasureDock) :
  keeps_mode F ->
  (d1 <- with_active view F d ;; with_active view G d1)
  = with_active view (fun r => r1 <- F r ;; G r1) d.
Proof.
  intros HF. unfold with_active at 1 3.
  rewrite (surjective_pairing (get_mode_rows (session view) d)).
  rewrite get_mode_rows_snd.
  destruct (F (mode_rows_at (fst (get_mode_rows (session view) d))
                            (dex_of_mode (get_work_mode (session view))))) as [r1|] eqn:E;
    cbn [bind]; [|reflexivity].
  unfold with_active.
  rewrite get_mode_rows_set_active
    by (rewrite (HF _ _ E); apply mode_type_active).
  rewrite mode_rows_at_set_same.
  destruct (G r1) as [r2|]; cbn [bind]; [|reflexivity].
  now rewrite set_mode_rows_at_twice.
Qed.

Lemma with_active_then (view : View) (F G : row_list_item -> option row_list_item)
    (d d1 : MeasureDock) :
  keeps_mode F ->
  with_active view F d = Some d1 ->
  with_active view G d1 = with_active view (fun r => r1 <- F r ;; G r1) d.
Proof.
  intros HF H. rewrite <- with_active_seq by exact HF. now rewrite H.
Qed.

(** A member that has returned [d'] returns [d'] again when its work is
    idempotent. *)
Lemma with_active_idem (view : View) (F : row_list_item -> option row_list_item)
    (d d' : MeasureDock) :
  keeps_mode F ->
  (forall r r', F r = Some r' -> F r' = Some r') ->
  with_active view F d = Some d' ->
  with_active view F d' = Some d'.
Proof.
  intros HF Hi H. rewrite (with_active_then view F F d d' HF H). rewrite <- H.
  apply with_active_ext. intros r. destruct (F r) as [r1|] eqn:E; cbn [bind]; [|reflexivity].
  exact (Hi r r1 E).
Qed.

Section NormalForms.

Variable Max_Measure_Limits : nat.
Variable get_cm_delta : View -> Z -> Z -> string.
Variable get_cm_time : View -> Z -> string.
Variable edges : Signal -> Z -> Z -> option (Z * Z).

Lemma keeps_mode_total (f : row_list_item -> row_list_item) :
  (forall r, _mode_type (f r) = _mode_type r) -> keeps_mode (fun r => Some (f r)).
Proof. intros H r r' E. injection E as <-. apply H. Qed.

Lemma keeps_mode_bind (F G : row_list_item -> option row_list_item) :
  keeps_mode F -> keeps_mode G -> keeps_mode (fun r => r1 <- F r ;; G r1).
Proof.
  intros HF HG r r' E. destruct (F r) as [r1|] eqn:E1; cbn [bind] in E; [|discriminate].
  rewrite (HG _ _ E). now apply HF.
Qed.

Lemma keeps_mode_update_dist (view : View) :
  keeps_mode (entry_update_dist get_cm_delta view).
Proof.
  intros r r' E. unfold entry_update_dist in E.
  destruct (update_dist_rows _ _ _); cbn [bind] in E; [|discriminate].
  injection E as <-. reflexivity.
Qed.

Lemma keeps_mode_update_edge (view : View) :
  keeps_mode (entry_update_edge edges view).
Proof.
  intros r r' E. unfold entry_update_edge in E.
  destruct (update_edge_rows _ _ _); cbn [bind] in E; [|discriminate].
  injection E as <-. reflexivity.
Qed.

Lemma keeps_mode_update_cursor_info (view : View) :
  keeps_mode (entry_update_cursor_info get_cm_time view).
Proof.
  intros r r' E. unfold entry_update_cursor_info in E.
  destruct (List.length (_opt_row_list r) =? 0)%nat; [injection E as <-; reflexivity|].
  destruct (List.length (_cursorList view) =? List.length (_opt_row_list r))%nat;
    [injection E as <-; reflexivity | discriminate].
Qed.

Lemma update_dist_entry (view : View) (d : MeasureDock) :
  update_dist get_cm_delta view d = with_active view (entry_update_dist get_cm_delta view) d.
Proof.
  unfold update_dist, with_active, entry_update_dist.
  destruct (get_mode_rows (session view) d) as [d1 dex].
  destruct (update_dist_rows _ _ _); reflexivity.
Qed.

Lemma update_edge_entry (view : View) (d : MeasureDock) :
  update_edge edges view d = with_active view (entry_update_edge edges view) d.
Proof.
  unfold update_edge, with_active, entry_update_edge.
  destruct (get_mode_rows (session view) d) as [d1 dex].
  destruct (update_edge_rows _ _ _); reflexivity.
Qed.

Lemma update_cursor_info_entry (view : View) (d : MeasureDock) :
  update_cursor_info get_cm_time view d
  = with_active view (entry_update_cursor_info get_cm_time view) d.
Proof.
  unfold update_cursor_info, with_active, entry_update_cursor_info.
  destruct (get_mode_rows (session view) d) as [d1 dex].
  destruct (_ =? 0)%nat; cbn [bind]; [now rewrite set_mode_rows_at_same|].
  destruct (_ =? _)%nat; reflexivity.
Qed.

Lemma build_dist_pannel_entry (view : View) (d : MeasureDock) :
  Some (build_dist_pannel view d)
  = with_active view (fun r => Some (entry_build_dist r)) d.
Proof.
  unfold build_dist_pannel, with_active, entry_build_dist.
  destruct (get_mode_rows (session view) d) as [d1 dex]. reflexivity.
Qed.

Lemma build_edge_pannel_entry (view : View) (d : MeasureDock) :
  Some (build_edge_pannel view d)
  = with_active view (fun r => Some (entry_build_edge (session view) r)) d.
Proof.
  unfold build_edge_pannel, with_active, entry_build_edge.
  destruct (get_mode_rows (session view) d) as [d1 dex]. reflexivity.
Qed.

Lemma build_cursor_pannel_entry (view : View) (d : MeasureDock) :
  Some (build_cursor_pannel get_cm_time view d)
  = with_active view (fun r => Some (entry_build_cursor get_cm_time view r)) d.
Proof.
  unfold build_cursor_pannel, with_active, entry_build_cursor.
  destruct (get_mode_rows (session view) d) as [d1 dex]. reflexivity.
Qed.

Lemma add_dist_measure_entry (view : View) (d : MeasureDock) :
  Some (add_dist_measure Max_Measure_Limits view d)
  = with_active view (fun r => Some (entry_add_dist Max_Measure_Limits r)) d.
Proof.
  unfold add_dist_measure.
  pose proof (with_active_then view
    (fun r => Some (set_dist_row_list r (_dist_row_list r ++ [new_row_info])%list))
    (fun r => Some (entry_build_dist r)) d) as Hseq.
  unfold with_active in *. unfold entry_add_dist.
  destruct (get_mode_rows (session view) d) as [d1 dex].
  destruct (_ <? _)%nat.
  - cbn [bind] in *. rewrite build_dist_pannel_entry. unfold with_active.
    apply Hseq; [|reflexivity]. now apply keeps_mode_total.
  - cbn [bind]. now rewrite set_mode_rows_at_same.
Qed.

Lemma add_edge_measure_entry (view : View) (d : MeasureDock) :
  Some (add_edge_measure Max_Measure_Limits view d)
  = with_active view
      (fun r => Some (entry_add_edge Max_Measure_Limits (session view) r)) d.
Proof.
  unfold add_edge_measure.
  pose proof (with_active_then view
    (fun r => Some (set_edge_row_list r (_edge_row_list r ++ [new_row_info])%list))
    (fun r => Some (entry_build_edge (session view) r)) d) as Hseq.
  unfold with_active in *. unfold entry_add_edge.
  destruct (get_mode_rows (session view) d) as [d1 dex].
  destruct (_ <? _)%nat.
  - cbn [bind] in *. rewrite build_edge_pannel_entry. unfold with_active.
    apply Hseq; [|reflexivity]. now apply keeps_mode_total.
  - cbn [bind]. now rewrite set_mode_rows_at_same.
Qed.

Lemma del_dist_measure_entry (sender : nat) (view : View) (d : MeasureDock) :
  Some (del_dist_measure sender view d)
  = with_active view (fun r => Some (entry_del_dist sender r)) d.
Proof.
  unfold del_dist_measure.
  pose proof (with_active_then view
    (fun r => Some (set_dist_row_list r (erase_at sender (_dist_row_list r))))
    (fun r => Some (entry_build_dist r)) d) as Hseq.
  unfold with_active in *. unfold entry_del_dist.
  destruct (get_mode_rows (session view) d) as [d1 dex].
  destruct (nth_error _ sender) as [o|]; [destruct (is_some (del_bt o))|].
  - cbn [bind] in *. rewrite build_dist_pannel_entry. unfold with_active.
    apply Hseq; [|reflexivity]. now apply keeps_mode_total.
  - cbn [bind]. now rewrite set_mode_rows_at_same.
  - cbn [bind]. now rewrite set_mode_rows_at_same.
Qed.

Lemma del_edge_measure_entry (sender : nat) (view : View) (d : MeasureDock) :
  Some (del_edge_measure sender view d)
  = with_active view (fun r => Some (entry_del_edge sender (session view) r)) d.
Proof.
  unfold del_edge_measure.
  pose proof (with_active_then view
    (fun r => Some (set_edge_row_list r (erase_at sender (_edge_row_list r))))
    (fun r => Some (entry_build_edge (session view) r)) d) as Hseq.
  unfold with_active in *. unfold entry_del_edge.
  destruct (get_mode_rows (session view) d) as [d1 dex].
  destruct (nth_error _ sender) as [o|]; [destruct (is_some (del_bt o))|].
  - cbn [bind] in *. rewrite build_edge_pannel_entry. unfold with_active.
    apply Hseq; [|reflexivity]. now apply keeps_mode_total.
  - cbn [bind]. now rewrite set_mode_rows_at_same.
  - cbn [bind]. now rewrite set_mode_rows_at_same.
Qed.

Lemma bind_ext {A B : Type} (m : option A) (f g : A -> option B) :
  (forall a, f a = g a) -> bind m f = bind m g.
Proof. intros H. destruct m; cbn; [apply H | reflexivity]. Qed.

Lemma reCalc_entry (view : View) (d : MeasureDock) :
  reCalc get_cm_delta get_cm_time edges view d
  = with_active view (entry_reCalc get_cm_delta get_cm_time edges view) d.
Proof.
  unfold reCalc.
  rewrite (bind_ext (update_dist get_cm_delta view d) _
             (with_active view
                (fun r => r1 <- entry_update_edge edges view r ;;
                          entry_update_cursor_info get_cm_time view r1))).
  - rewrite update_dist_entry.
    rewrite with_active_seq by apply keeps_mode_update_dist. reflexivity.
  - intros d1. rewrite update_edge_entry.
    rewrite (bind_ext _ _ _ (update_cursor_info_entry view)).
    apply with_active_seq, keeps_mode_update_edge.
Qed.

Lemma cursor_update_entry (view : View) (d : MeasureDock) :
  cursor_update get_cm_delta get_cm_time edges view d
  = with_active view (entry_cursor_update get_cm_delta get_cm_time edges view) d.
Proof.
  unfold cursor_update.
  rewrite (bind_ext (update_dist get_cm_delta view d) _
             (with_active view
                (fun r => r1 <- entry_update_edge edges view r ;;
                          Some (entry_build_cursor get_cm_time view r1)))).
  - rewrite update_dist_entry.
    rewrite with_active_seq by apply keeps_mode_update_dist. reflexivity.
  - intros d1. rewrite update_edge_entry.
    rewrite (bind_ext _ _ _ (build_cursor_pannel_entry view)).
    apply with_active_seq, keeps_mode_update_edge.
Qed.

Lemma keeps_mode_reCalc (view : View) :
  keeps_mode (entry_reCalc get_cm_delta get_cm_time edges view).
Proof.
  apply keeps_mode_bind; [apply keeps_mode_update_dist|].
  apply keeps_mode_bind; [apply keeps_mode_update_edge|].
  apply keeps_mode_update_cursor_info.
Qed.

Lemma reload_entry (view : View) (d : MeasureDock) :
  reload get_cm_delta get_cm_time edges view d
  = with_active view (entry_reload get_cm_delta get_cm_time edges view) d.
Proof.
  unfold reload. rewrite reCalc_entry.
  rewrite (with_active_then view (fun r => Some (entry_build_cursor get_cm_time view r)) _
             (build_edge_pannel view (build_dist_pannel view d))
             (build_cursor_pannel get_cm_time view
                (build_edge_pannel view (build_dist_pannel view d))));
    [|now apply keeps_mode_total | symmetry; apply build_cursor_pannel_entry].
  rewrite (with_active_then view (fun r => Some (entry_build_edge (session view) r)) _
             (build_dist_pannel view d) (build_edge_pannel view (build_dist_pannel view d)));
    [|now apply keeps_mode_total | symmetry; apply build_edge_pannel_entry].
  rewrite (with_active_then view (fun r => Some (entry_build_dist r)) _ d
             (build_dist_pannel view d));
    [|now apply keeps_mode_total | symmetry; apply build_dist_pannel_entry].
  reflexivity.
Qed.

Lemma keeps_mode_bind_sel (_sel_btn : sel_button) (sel_cursor_bt : QPushButton) :
  keeps_mode (entry_bind_sel _sel_btn sel_cursor_bt).
Proof.
  intros r r' E. unfold entry_bind_sel in E.
  destruct (nth_error _ _) as [inf|]; cbn [bind] in E; [|discriminate].
  destruct (sel_button_of _ _); cbn [bind] in E; [|discriminate].
  injection E as <-. destruct (sel_in_edge_row _sel_btn); reflexivity.
Qed.

(** [set_sel_cursor] in two steps: the binding, then the pass. *)
Lemma set_sel_cursor_steps (_sel_btn : sel_button) (sel_cursor_bt : QPushButton)
    (view : View) (d : MeasureDock) :
  set_sel_cursor get_cm_delta edges _sel_btn sel_cursor_bt view d
  = (d1 <- with_active view (entry_bind_sel _sel_btn sel_cursor_bt) d ;;
     if sel_in_edge_row _sel_btn then update_edge edges view d1
     else update_dist get_cm_delta view d1).
Proof.
  unfold set_sel_cursor, with_active, entry_bind_sel.
  destruct (get_mode_rows (session view) d) as [d1 dex].
  destruct (sel_in_edge_row _sel_btn);
    (destruct (nth_error _ _) as [inf|]; cbn [bind]; [|reflexivity]);
    (destruct (sel_button_of _ _); cbn [bind]; reflexivity).
Qed.

Lemma set_sel_cursor_entry (_sel_btn : sel_button) (sel_cursor_bt : QPushButton)
    (view : View) (d : MeasureDock) :
  set_sel_cursor get_cm_delta edges _sel_btn sel_cursor_bt view d
  = with_active view
      (entry_set_sel_cursor get_cm_delta edges _sel_btn sel_cursor_bt view) d.
Proof.
  rewrite set_sel_cursor_steps.
  unfold entry_set_sel_cursor. destruct (sel_in_edge_row _sel_btn) eqn:E.
  - rewrite (bind_ext _ _ _ (update_edge_entry view)).
    rewrite with_active_seq by apply keeps_mode_bind_sel. reflexivity.
  - rewrite (bind_ext _ _ _ (update_dist_entry view)).
    rewrite with_active_seq by apply keeps_mode_bind_sel. reflexivity.
Qed.

Lemma on_edge_channel_selected_entry (sender : option nat) (_bSetting : bool)
    (view : View) (d : MeasureDock) :
  on_edge_channel_selected edges sender _bSetting view d
  = with_active view (entry_channel_selected edges sender _bSetting view) d.
Proof.
  assert (H : on_edge_channel_selected edges sender _bSetting view d
              = (d1 <- with_active view
                         (fun r => Some (entry_take_channel sender _bSetting r)) d ;;
                 update_edge edges view d1)).
  { unfold on_edge_channel_selected, with_active, entry_take_channel.
    destruct (get_mode_rows (session view) d) as [d1 dex].
    destruct sender as [k|]; [destruct (negb _bSetting)|]; cbn [bind];
      rewrite ?set_mode_rows_at_same; reflexivity. }
  rewrite H. rewrite (bind_ext _ _ _ (update_edge_entry view)).
  rewrite with_active_seq; [reflexivity|].
  apply keeps_mode_total. intros r. unfold entry_take_channel.
  destruct sender; [destruct (negb _bSetting)|]; reflexivity.
Qed.

(** A change of the active entry made before a member runs is part of the
    work of the member, when it leaves [_mode_type] alone. *)
Lemma with_active_pre (view : View) (F : row_list_item -> option row_list_item)
    (g : row_list_item -> row_list_item) (d : MeasureDock) :
  (forall r m, set_mode_type (g r) m = g (set_mode_type r m)) ->
  with_active view F
    (set_mode_rows_at d (active_dex view) (g (mode_rows_at d (active_dex view))))
  = with_active view (fun r => F (g r)) d.
Proof.
  intros Hg. unfold with_active.
  rewrite (surjective_pairing (get_mode_rows (session view) (set_mode_rows_at _ _ _))).
  rewrite (surjective_pairing (get_mode_rows (session view) d)).
  rewrite !get_mode_rows_snd. fold (active_dex view).
  unfold active_dex at 2 5. rewrite !get_mode_rows_active. fold (active_dex view).
  rewrite mode_rows_at_set_same, Hg.
  destruct (F _) as [r'|]; cbn [bind]; [|reflexivity].
  f_equal. apply dock_ext. intros i.
  destruct (mode_dex_eq_dec i (active_dex view)) as [->|Hi].
  - now rewrite !mode_rows_at_set_same.
  - rewrite !mode_rows_at_set_other by congruence.
    rewrite !get_mode_rows_inactive by exact Hi.
    now rewrite mode_rows_at_set_other by congruence.
Qed.

Lemma pick_channel_entry (k : nat) (item : Z) (view : View) (d : MeasureDock) :
  pick_channel edges k item view d
  = with_active view (entry_pick_channel edges k item view) d.
Proof.
  unfold pick_channel. rewrite on_edge_channel_selected_entry.
  apply (with_active_pre view (entry_channel_selected edges (Some k) false view)
           (fun r => set_edge_row_list r (map_at k (pick_item item) (_edge_row_list r)))).
  reflexivity.
Qed.

Lemma cursor_moving_entry (cursors_shown : bool) (view : View) (d : MeasureDock) :
  cursor_moving get_cm_delta get_cm_time cursors_shown view d
  = with_active view (entry_cursor_moving get_cm_delta get_cm_time cursors_shown view) d.
Proof.
  unfold cursor_moving, entry_cursor_moving.
  rewrite (bind_ext _ _ _ (update_dist_entry view)). destruct cursors_shown.
  - rewrite update_cursor_info_entry.
    now rewrite with_active_seq by apply keeps_mode_update_cursor_info.
  - reflexivity.
Qed.

Lemma reStyle_entry (view : View) (d : MeasureDock) :
  reStyle get_cm_delta view d = with_active view (entry_reStyle get_cm_delta view) d.
Proof.
  assert (H : reStyle get_cm_delta view d
              = (d1 <- with_active view
                         (fun r => if entry_styled r then Some r else None) d ;;
                 update_dist get_cm_delta view d1)).
  { unfold reStyle, with_active, entry_styled.
    destruct (get_mode_rows (session view) d) as [d1 dex].
    destruct (_ && _); cbn [bind]; rewrite ?set_mode_rows_at_same; reflexivity. }
  rewrite H. rewrite (bind_ext _ _ _ (update_dist_entry view)).
  rewrite with_active_seq.
  - apply with_active_ext. intros r. unfold entry_reStyle.
    destruct (entry_styled r); reflexivity.
  - intros r r' E. destruct (entry_styled r); [injection E as <-; reflexivity | discriminate].
Qed.

(** A member run on a dock [get_mode_rows()] has returned, under a view of
    the same session. *)
Lemma with_active_settled (view view' : View) (F : row_list_item -> option row_list_item)
    (d : MeasureDock) :
  session view' = session view ->
  with_active view' F (fst (get_mode_rows (session view) d)) = with_active view' F d.
Proof.
  intros Hs. unfold with_active. rewrite Hs.
  rewrite (surjective_pairing (get_mode_rows (session view) (fst _))).
  rewrite (surjective_pairing (get_mode_rows (session view) d)) at 3.
  now rewrite get_mode_rows_twice, !get_mode_rows_snd.
Qed.

Lemma session_set_cursorList (view : View) (l : list Cursor) :
  session (set_cursorList view l) = session view.
Proof. reflexivity. Qed.

Lemma session_view_after_del (sender : nat) (view : View) (d : MeasureDock) :
  session (view_after_del sender view d) = session view.
Proof. unfold view_after_del. destruct (nth_error _ _); reflexivity. Qed.

Lemma del_cursor_entry (sender : nat) (view : View) (d : MeasureDock) :
  del_cursor get_cm_delta get_cm_time edges sender view d
  = (d' <- with_active (view_after_del sender view d)
             (entry_cursor_update get_cm_delta get_cm_time edges
                (view_after_del sender view d)) d ;;
     Some (view_after_del sender view d, d')).
Proof.
  unfold del_cursor.
  rewrite (surjective_pairing (get_mode_rows (session view) d)).
  rewrite get_mode_rows_snd, get_mode_rows_active.
  cbn [set_mode_type _opt_row_list].
  assert (Hv : match
                 match nth_error (_opt_row_list (mode_rows_at d
                         (dex_of_mode (get_work_mode (session view))))) sender with
                 | Some row => Some (opt_cursor row)
                 | None => None
                 end
               with
               | Some c => View_del_cursor view c
               | None => view
               end = view_after_del sender view d).
  { unfold view_after_del, active_dex. destruct (nth_error _ _); reflexivity. }
  rewrite Hv. rewrite cursor_update_entry.
  rewrite with_active_settled by apply session_view_after_del. reflexivity.
Qed.

End NormalForms.
(** ** Recomputing twice *)

Section Idempotence.

Variable get_cm_delta : View -> Z -> Z -> string.
Variable get_cm_time : View -> Z -> string.
Variable edges : Signal -> Z -> Z -> option (Z * Z).

Lemma is_stale_checked (view : View) (c : Z) :
  is_stale view (checked_ref view c) = false.
Proof.
  unfold checked_ref. destruct (is_stale view c) eqn:E; [reflexivity | exact E].
Qed.

(** What the first stale check leaves in every field of the row. *)
Lemma clear_stale_cursor1_fields (view : View) (o o1 : cursor_row_info) :
  clear_stale_cursor1 view o = Some o1 ->
  cursor1 o1 = checked_ref view (cursor1 o)
  /\ cursor2 o1 = cursor2 o
  /\ button_text (start_bt o1) = checked_text view (cursor1 o) (start_bt o)
  /\ is_some (start_bt o1) = is_some (start_bt o)
  /\ end_bt o1 = end_bt o /\ r_label o1 = r_label o
  /\ box o1 = box o /\ del_bt o1 = del_bt o /\ channelIndex o1 = channelIndex o.
Proof.
  unfold clear_stale_cursor1, checked_ref, checked_text.
  destruct (is_stale view (cursor1 o)).
  - destruct (start_bt o) as [b|] eqn:Eb; cbn; [|discriminate].
    intros H. injection H as <-. destruct o; cbn in *. subst. repeat split.
  - intros H. injection H as <-. repeat split.
Qed.

Lemma clear_stale_cursor2_fields (view : View) (o o2 : cursor_row_info) :
  clear_stale_cursor2 view o = Some o2 ->
  cursor1 o2 = cursor1 o
  /\ cursor2 o2 = checked_ref view (cursor2 o)
  /\ button_text (end_bt o2) = checked_text view (cursor2 o) (end_bt o)
  /\ is_some (end_bt o2) = is_some (end_bt o)
  /\ start_bt o2 = start_bt o /\ r_label o2 = r_label o
  /\ box o2 = box o /\ del_bt o2 = del_bt o /\ channelIndex o2 = channelIndex o.
Proof.
  unfold clear_stale_cursor2, checked_ref, checked_text.
  destruct (is_stale view (cursor2 o)).
  - destruct (end_bt o) as [b|] eqn:Eb; cbn; [|discriminate].
    intros H. injection H as <-. destruct o; cbn in *. subst. repeat split.
  - intros H. injection H as <-. repeat split.
Qed.

Lemma clear_stale_cursor1_fix (view : View) (o : cursor_row_info) :
  is_stale view (cursor1 o) = false -> clear_stale_cursor1 view o = Some o.
Proof. intros H. unfold clear_stale_cursor1. now rewrite H. Qed.

Lemma clear_stale_cursor2_fix (view : View) (o : cursor_row_info) :
  is_stale view (cursor2 o) = false -> clear_stale_cursor2 view o = Some o.
Proof. intros H. unfold clear_stale_cursor2. now rewrite H. Qed.

(** Every run of the pass of [update_dist] that returns leaves this. *)
Lemma update_dist_row_inv (view : View) (o o' : cursor_row_info) :
  update_dist_row get_cm_delta view o = Some o' ->
  cursor1 o' = checked_ref view (cursor1 o)
  /\ cursor2 o' = checked_ref view (cursor2 o)
  /\ button_text (start_bt o') = checked_text view (cursor1 o) (start_bt o)
  /\ button_text (end_bt o') = checked_text view (cursor2 o) (end_bt o)
  /\ is_some (start_bt o') = true /\ is_some (end_bt o') = true
  /\ r_label o' = Some (mkQLabel (dist_result get_cm_delta view o'))
  /\ box o' = box o /\ del_bt o' = del_bt o /\ channelIndex o' = channelIndex o.
Proof.
  unfold update_dist_row.
  destruct (clear_stale_cursor1 view o) as [o1|] eqn:E1; cbn [bind]; [|discriminate].
  destruct (clear_stale_cursor1_fields view o o1 E1)
    as (A1 & A2 & A3 & A4 & A5 & A6 & A7 & A8 & A9).
  destruct (start_bt o1) as [sb|] eqn:Es; cbn [bind set_cursor_btn_color]; [|discriminate].
  destruct (clear_stale_cursor2 view o1) as [o2|] eqn:E2; cbn [bind]; [|discriminate].
  destruct (clear_stale_cursor2_fields view o1 o2 E2)
    as (B1 & B2 & B3 & B4 & B5 & B6 & B7 & B8 & B9).
  destruct (end_bt o2) as [eb|] eqn:Ee; cbn [bind set_cursor_btn_color]; [|discriminate].
  destruct (r_label o2) as [l|] eqn:El; cbn [bind]; [|discriminate].
  intros H.
  assert (Ho' : o' = set_r_label o2 (Some (mkQLabel (dist_result get_cm_delta view o2)))).
  { unfold dist_result.
    destruct (negb (cursor1 o2 =? -1) && negb (cursor2 o2 =? -1));
      injection H as <-; reflexivity. }
  subst o'. destruct o2; cbn in *. subst.
  repeat split; cbn; rewrite ?Es; cbn; congruence.
Qed.

(** A row in the state the pass leaves is a fixed point of the pass. *)
Lemma update_dist_row_fix (view : View) (o : cursor_row_info) :
  is_stale view (cursor1 o) = false ->
  is_stale view (cursor2 o) = false ->
  is_some (start_bt o) = true ->
  is_some (end_bt o) = true ->
  r_label o = Some (mkQLabel (dist_result get_cm_delta view o)) ->
  update_dist_row get_cm_delta view o = Some o.
Proof.
  intros H1 H2 Hs He Hl. unfold update_dist_row.
  rewrite (clear_stale_cursor1_fix view o H1). cbn [bind].
  destruct (start_bt o); [|discriminate]. cbn [bind set_cursor_btn_color].
  rewrite (clear_stale_cursor2_fix view o H2). cbn [bind].
  destruct (end_bt o); [|discriminate]. cbn [bind set_cursor_btn_color].
  rewrite Hl. cbn [bind]. unfold dist_result in *.
  destruct (negb (cursor1 o =? -1) && negb (cursor2 o =? -1));
    destruct o; cbn in *; rewrite Hl; reflexivity.
Qed.

(** The pass of [update_dist] over a row it has just passed over changes
    nothing. *)
Lemma update_dist_row_idem (view : View) (o o' : cursor_row_info) :
  update_dist_row get_cm_delta view o = Some o' ->
  is_some (start_bt o') = true
  /\ update_dist_row get_cm_delta view o' = Some o'.
Proof.
  intros H.
  destruct (update_dist_row_inv view o o' H) as (A1 & A2 & _ & _ & A5 & A6 & A7 & _).
  split; [exact A5|].
  apply update_dist_row_fix; try assumption.
  - rewrite A1. apply is_stale_checked.
  - rewrite A2. apply is_stale_checked.
Qed.

(** The loop over the signals reads the selector and the two references of
    the row only. *)
Lemma scan_signals_ext (view : View) (o o' : cursor_row_info) (sigs : list Signal) :
  box o' = box o -> cursor1 o' = cursor1 o -> cursor2 o' = cursor2 o ->
  scan_signals edges view o' sigs = scan_signals edges view o sigs.
Proof.
  intros Hb H1 H2. induction sigs as [|s rest IH]; [reflexivity|].
  cbn -[channel_type_eqb]. now rewrite Hb, H1, H2, IH.
Qed.

(** Every run of the pass of [update_edge] that returns leaves this. *)
Lemma update_edge_row_inv (view : View) (o o' : cursor_row_info) :
  update_edge_row edges view o = Some o' ->
  cursor1 o' = checked_ref view (cursor1 o)
  /\ cursor2 o' = checked_ref view (cursor2 o)
  /\ button_text (start_bt o') = checked_text view (cursor1 o) (start_bt o)
  /\ button_text (end_bt o') = checked_text view (cursor2 o) (end_bt o)
  /\ is_some (start_bt o') = is_some (start_bt o)
  /\ is_some (end_bt o') = is_some (end_bt o)
  /\ (exists t, edge_shown edges view o' = Some t /\ r_label o' = Some (mkQLabel t))
  /\ box o' = box o /\ del_bt o' = del_bt o /\ channelIndex o' = channelIndex o.
Proof.
  unfold update_edge_row.
  destruct (clear_stale_cursor1 view o) as [o1|] eqn:E1; cbn [bind]; [|discriminate].
  destruct (clear_stale_cursor1_fields view o o1 E1)
    as (A1 & A2 & A3 & A4 & A5 & A6 & A7 & A8 & A9).
  destruct (clear_stale_cursor2 view o1) as [o2|] eqn:E2; cbn [bind]; [|discriminate].
  destruct (clear_stale_cursor2_fields view o1 o2 E2)
    as (B1 & B2 & B3 & B4 & B5 & B6 & B7 & B8 & B9).
  intros H.
  assert (Ho' : exists t, edge_shown edges view o2 = Some t
                          /\ o' = set_r_label o2 (Some (mkQLabel t))).
  { unfold edge_shown.
    destruct (negb (cursor1 o2 =? -1) && negb (cursor2 o2 =? -1)).
    - destruct (scan_signals edges view o2 (get_signals (session view))) as [found|];
        cbn [bind] in H; [|discriminate].
      destruct (r_label o2); cbn [bind] in H; [|discriminate].
      destruct found; injection H as <-; eauto.
    - cbn [bind] in H. destruct (r_label o2); cbn [bind] in H; [|discriminate].
      injection H as <-; eauto. }
  destruct Ho' as (t & Ht & ->).
  assert (Hsame : edge_shown edges view (set_r_label o2 (Some (mkQLabel t))) = edge_shown edges view o2).
  { unfold edge_shown.
    rewrite (scan_signals_ext view o2 (set_r_label o2 (Some (mkQLabel t))))
      by (destruct o2; reflexivity).
    destruct o2; reflexivity. }
  repeat split.
  - destruct o2; cbn in *; congruence.
  - destruct o2; cbn in *; congruence.
  - destruct o2; cbn in *; congruence.
  - destruct o2; cbn in *; congruence.
  - destruct o2; cbn in *; congruence.
  - destruct o2; cbn in *; congruence.
  - exists t. rewrite Hsame. split; [exact Ht|]. destruct o2; reflexivity.
  - destruct o2; cbn in *; congruence.
  - destruct o2; cbn in *; congruence.
  - destruct o2; cbn in *; congruence.
Qed.

Lemma update_edge_row_fix (view : View) (o : cursor_row_info) (t : string) :
  is_stale view (cursor1 o) = false ->
  is_stale view (cursor2 o) = false ->
  edge_shown edges view o = Some t ->
  r_label o = Some (mkQLabel t) ->
  update_edge_row edges view o = Some o.
Proof.
  intros H1 H2 Ht Hl. unfold update_edge_row.
  rewrite (clear_stale_cursor1_fix view o H1). cbn [bind].
  rewrite (clear_stale_cursor2_fix view o H2). cbn [bind].
  unfold edge_shown in Ht.
  destruct (negb (cursor1 o =? -1) && negb (cursor2 o =? -1)).
  - destruct (scan_signals edges view o (get_signals (session view))) as [[t'|]|];
      try discriminate; cbn [bind]; rewrite Hl; cbn [bind];
      injection Ht as <-; destruct o; cbn in *; rewrite Hl; reflexivity.
  - cbn [bind]. rewrite Hl. cbn [bind]. injection Ht as <-.
    destruct o; cbn in *; rewrite Hl; reflexivity.
Qed.

(** The same for [update_edge]. *)
Lemma update_edge_row_idem (view : View) (o o' : cursor_row_info) :
  is_some (start_bt o) = true ->
  update_edge_row edges view o = Some o' ->
  is_some (start_bt o') = true
  /\ update_edge_row edges view o' = Some o'.
Proof.
  intros Hs H.
  destruct (update_edge_row_inv view o o' H)
    as (A1 & A2 & _ & _ & A5 & _ & (t & Ht & Hl) & _).
  split; [congruence|].
  apply (update_edge_row_fix view o' t); try assumption.
  - rewrite A1. apply is_stale_checked.
  - rewrite A2. apply is_stale_checked.
Qed.

(** The loop over the rows, run on its own result. *)
Lemma rows_until_unbound_idem (body : cursor_row_info -> option cursor_row_info)
    (rows rows' : list cursor_row_info) :
  (forall o o', is_some (start_bt o) = true -> body o = Some o' ->
                is_some (start_bt o') = true /\ body o' = Some o') ->
  rows_until_unbound body rows = Some rows' ->
  rows_until_unbound body rows' = Some rows'.
Proof.
  intros Hb. revert rows'. induction rows as [|inf rest IH]; intros rows' H.
  - injection H as <-. reflexivity.
  - cbn in H. destruct (start_bt inf) as [b|] eqn:Es.
    + destruct (body inf) as [inf'|] eqn:Ei; cbn [bind] in H; [|discriminate].
      destruct (rows_until_unbound body rest) as [rest'|] eqn:Er; cbn [bind] in H;
        [|discriminate].
      injection H as <-.
      destruct (Hb inf inf') as [Hs' Hi']; [now rewrite Es | exact Ei |].
      cbn. destruct (start_bt inf'); [|discriminate].
      rewrite Hi'. cbn [bind]. rewrite (IH rest' eq_refl). reflexivity.
    + injection H as <-. cbn. now rewrite Es.
Qed.

Lemma entry_update_dist_idem (view : View) (r r' : row_list_item) :
  entry_update_dist get_cm_delta view r = Some r' ->
  entry_update_dist get_cm_delta view r' = Some r'.
Proof.
  unfold entry_update_dist, update_dist_rows. intros H.
  destruct (rows_until_unbound _ (_dist_row_list r)) as [rows|] eqn:E; cbn [bind] in H;
    [|discriminate].
  injection H as <-. cbn [set_dist_row_list _dist_row_list].
  rewrite (rows_until_unbound_idem _ (_dist_row_list r) rows).
  - reflexivity.
  - intros o o' _ Ho. exact (update_dist_row_idem view o o' Ho).
  - exact E.
Qed.

Lemma entry_update_edge_idem (view : View) (r r' : row_list_item) :
  entry_update_edge edges view r = Some r' ->
  entry_update_edge edges view r' = Some r'.
Proof.
  unfold entry_update_edge, update_edge_rows. intros H.
  destruct (rows_until_unbound _ (_edge_row_list r)) as [rows|] eqn:E; cbn [bind] in H;
    [|discriminate].
  injection H as <-. cbn [set_edge_row_list _edge_row_list].
  rewrite (rows_until_unbound_idem _ (_edge_row_list r) rows).
  - reflexivity.
  - intros o o' Hs Ho. exact (update_edge_row_idem view o o' Hs Ho).
  - exact E.
Qed.

Lemma length_update_cursor_info_rows (view : View) (i : Z) (rows : list cursor_opt_info) :
  List.length (update_cursor_info_rows get_cm_time view i rows) = List.length rows.
Proof.
  revert i. induction rows as [|row rest IH]; intros i; [reflexivity|].
  cbn. now rewrite IH.
Qed.

Lemma update_cursor_info_rows_idem (view : View) (i : Z) (rows : list cursor_opt_info) :
  update_cursor_info_rows get_cm_time view i
    (update_cursor_info_rows get_cm_time view i rows)
  = update_cursor_info_rows get_cm_time view i rows.
Proof.
  revert i. induction rows as [|row rest IH]; intros i; [reflexivity|].
  cbn. rewrite IH. destruct (info_label row) eqn:E; cbn; [|rewrite E]; reflexivity.
Qed.

Lemma entry_update_cursor_info_idem (view : View) (r r' : row_list_item) :
  entry_update_cursor_info get_cm_time view r = Some r' ->
  entry_update_cursor_info get_cm_time view r' = Some r'.
Proof.
  unfold entry_update_cursor_info.
  destruct (List.length (_opt_row_list r) =? 0)%nat eqn:E0.
  - intros H. injection H as <-. now rewrite E0.
  - destruct (List.length (_cursorList view) =? List.length (_opt_row_list r))%nat eqn:E1;
      [|discriminate].
    intros H. injection H as <-. cbn [set_opt_row_list _opt_row_list].
    rewrite length_update_cursor_info_rows, E0, E1.
    now rewrite update_cursor_info_rows_idem.
Qed.

Lemma entry_reCalc_idem (view : View) (r r' : row_list_item) :
  entry_reCalc get_cm_delta get_cm_time edges view r = Some r' ->
  entry_reCalc get_cm_delta get_cm_time edges view r' = Some r'.
Proof.
  unfold entry_reCalc. intros H.
  destruct (entry_update_dist get_cm_delta view r) as [r1|] eqn:E1; cbn [bind] in H;
    [|discriminate].
  destruct (entry_update_edge edges view r1) as [r2|] eqn:E2; cbn [bind] in H;
    [|discriminate].
  pose proof (entry_update_dist_idem view r r1 E1) as I1.
  pose proof (entry_update_edge_idem view r1 r2 E2) as I2.
  pose proof (entry_update_cursor_info_idem view r2 r' H) as I3.
  revert E2 H I1 I2 I3. clear E1.
  unfold entry_update_dist, entry_update_edge, entry_update_cursor_info.
  destruct r1 as [m dl el ol]. cbn [_dist_row_list _edge_row_list _opt_row_list].
  destruct (update_edge_rows edges view el) as [el'|]; cbn [bind]; [|discriminate].
  intros E2. injection E2 as <-.
  cbn [set_edge_row_list _dist_row_list _edge_row_list _opt_row_list _mode_type].
  intros H I1 I2 I3.
  assert (Hr' : _dist_row_list r' = dl /\ _edge_row_list r' = el').
  { destruct (List.length ol =? 0)%nat; [injection H as <-; now split|].
    destruct (List.length (_cursorList view) =? List.length ol)%nat;
      [injection H as <-; now split | discriminate]. }
  destruct Hr' as [Hd He].
  destruct r' as [m' dl2 el2 ol2]. cbn in Hd, He. subst dl2 el2.
  cbn [_dist_row_list _edge_row_list _opt_row_list] in *.
  destruct (update_dist_rows get_cm_delta view dl) as [dl''|]; cbn [bind] in *;
    [|discriminate].
  injection I1 as <-.
  cbn [set_dist_row_list _dist_row_list _edge_row_list _opt_row_list _mode_type].
  destruct (update_edge_rows edges view el') as [el''|]; cbn [bind] in *; [|discriminate].
  injection I2 as <-.
  cbn [set_edge_row_list _dist_row_list _edge_row_list _opt_row_list _mode_type].
  exact I3.
Qed.

(** X2.  [update_dist] is idempotent: run on the dock it has just returned,
    it returns that dock again (no reference, button text or result label
    changes on a second call with nothing moved in between). *)
Theorem update_dist_idempotent :
  forall (view : View) (d d' : MeasureDock),
    update_dist get_cm_delta view d = Some d' ->
    update_dist get_cm_delta view d' = Some d'.
Proof.
  intros view d d'. rewrite !update_dist_entry.
  apply with_active_idem.
  - apply keeps_mode_update_dist.
  - apply entry_update_dist_idem.
Qed.

(** X3.  [update_edge] is idempotent in the same way: the edge counts shown
    after a second call are those of the first. *)
Theorem update_edge_idempotent :
  forall (view : View) (d d' : MeasureDock),
    update_edge edges view d = Some d' ->
    update_edge edges view d' = Some d'.
Proof.
  intros view d d'. rewrite !update_edge_entry.
  apply with_active_idem.
  - apply keeps_mode_update_edge.
  - apply entry_update_edge_idem.
Qed.

(** X4.  [reCalc] (distances, edge counts and the cursor panel texts) is
    idempotent. *)
Theorem reCalc_idempotent :
  forall (view : View) (d d' : MeasureDock),
    reCalc get_cm_delta get_cm_time edges view d = Some d' ->
    reCalc get_cm_delta get_cm_time edges view d' = Some d'.
Proof.
  intros view d d'. rewrite !reCalc_entry.
  apply with_active_idem.
  - apply keeps_mode_reCalc.
  - apply entry_reCalc_idem.
Qed.

End Idempotence.

(** X2 on the sample dock. *)
Lemma update_dist_idempotent_witness :
  exists d',
    update_dist sample_cm_delta sample_view sample_dock = Some d'
    /\ update_dist sample_cm_delta sample_view d' = Some d'.
Proof.
  eexists. split.
  - vm_compute. reflexivity.
  - apply (update_dist_idempotent sample_cm_delta sample_view sample_dock).
    vm_compute. reflexivity.
Defined.

(** X3 on the sample dock. *)
Lemma update_edge_idempotent_witness :
  exists d',
    update_edge LogicSignal_edges sample_view sample_dock = Some d'
    /\ update_edge LogicSignal_edges sample_view d' = Some d'.
Proof.
  eexists. split.
  - vm_compute. reflexivity.
  - apply (update_edge_idempotent LogicSignal_edges sample_view sample_dock).
    vm_compute. reflexivity.
Defined.

(** X4 on the sample dock after [reload]. *)
Lemma reCalc_idempotent_witness :
  exists d',
    reCalc sample_cm_delta sample_cm_time LogicSignal_edges sample_view dock_before = Some d'
    /\ reCalc sample_cm_delta sample_cm_time LogicSignal_edges sample_view d' = Some d'.
Proof.
  eexists. split.
  - vm_compute. reflexivity.
  - apply (reCalc_idempotent sample_cm_delta sample_cm_time LogicSignal_edges
             sample_view dock_before).
    vm_compute. reflexivity.
Defined.
(** ** The state of the dock between two events *)

Lemma all_rows_forall (p : cursor_row_info -> bool) (rows : list cursor_row_info) :
  all_rows p rows = true <-> forall o, In o rows -> p o = true.
Proof. apply forallb_forall. Qed.

Lemma all_rows_impl (p q : cursor_row_info -> bool) (rows : list cursor_row_info) :
  (forall o, p o = true -> q o = true) ->
  all_rows p rows = true -> all_rows q rows = true.
Proof.
  intros H Hp. apply all_rows_forall. intros o Ho. apply H.
  now apply (proj1 (all_rows_forall p rows) Hp).
Qed.

Lemma all_rows_map_impl (p q : cursor_row_info -> bool)
    (f : cursor_row_info -> cursor_row_info) (rows : list cursor_row_info) :
  (forall o, p o = true -> q (f o) = true) ->
  all_rows p rows = true -> all_rows q (map f rows) = true.
Proof.
  intros H. induction rows as [|o rest IH]; [reflexivity|].
  cbn. intros Hp. apply andb_true_iff in Hp. destruct Hp as [Ho Hrest].
  apply andb_true_iff. split; [now apply H | now apply IH].
Qed.

Lemma all_rows_app (p : cursor_row_info -> bool) (a b : list cursor_row_info) :
  all_rows p (a ++ b)%list = all_rows p a && all_rows p b.
Proof. apply forallb_app. Qed.

Lemma in_erase_at {A : Type} (k : nat) (l : list A) (a : A) :
  In a (erase_at k l) -> In a l.
Proof.
  revert k. induction l as [|b rest IH]; intros k H; [destruct k; exact H|].
  destruct k as [|k]; cbn in H.
  - now right.
  - destruct H as [->|H]; [now left | right; now apply (IH k)].
Qed.

Lemma all_rows_erase_at (p : cursor_row_info -> bool) (k : nat)
    (rows : list cursor_row_info) :
  all_rows p rows = true -> all_rows p (erase_at k rows) = true.
Proof.
  intros H. apply all_rows_forall. intros o Ho.
  apply (proj1 (all_rows_forall p rows) H). now apply in_erase_at in Ho.
Qed.

Lemma length_erase_at {A : Type} (k : nat) (l : list A) :
  (List.length (erase_at k l) <= List.length l)%nat.
Proof.
  revert k. induction l as [|b rest IH]; intros k; [destruct k; cbn; lia|].
  destruct k as [|k]; cbn; [lia|]. specialize (IH k). lia.
Qed.

Lemma length_map_at {A : Type} (k : nat) (f : A -> A) (l : list A) :
  List.length (map_at k f l) = List.length l.
Proof.
  revert k. induction l as [|b rest IH]; intros k; [destruct k; reflexivity|].
  destruct k as [|k]; cbn; [reflexivity | now rewrite IH].
Qed.

Lemma all_rows_map_at (p : cursor_row_info -> bool) (k : nat)
    (f : cursor_row_info -> cursor_row_info) (rows : list cursor_row_info) :
  (forall o, nth_error rows k = Some o -> p o = true -> p (f o) = true) ->
  all_rows p rows = true -> all_rows p (map_at k f rows) = true.
Proof.
  revert k. induction rows as [|o rest IH]; intros k Hf H; [destruct k; exact H|].
  cbn in H. apply andb_true_iff in H. destruct H as [Ho Hrest].
  destruct k as [|k]; cbn; apply andb_true_iff; split; try assumption.
  - now apply Hf.
  - apply IH; [|assumption]. intros o' Hk. now apply Hf.
Qed.

Lemma nth_error_map_at {A : Type} (k j : nat) (f : A -> A) (l : list A) :
  nth_error (map_at k f l) j
  = if (j =? k)%nat then option_map f (nth_error l j) else nth_error l j.
Proof.
  revert k j. induction l as [|a rest IH]; intros k j.
  - destruct k, j; cbn; try reflexivity. now destruct (j =? k)%nat.
  - destruct k as [|k], j as [|j]; cbn; try reflexivity. apply IH.
Qed.

(** *** References *)

Lemma ref_in_range_order (view : View) (c : Z) :
  ref_in_range view c = true -> ref_is_order c = true.
Proof.
  unfold ref_in_range, ref_is_order. intros H.
  apply orb_true_iff in H. apply orb_true_iff. destruct H as [H|H]; [now left|].
  apply andb_true_iff in H. now right.
Qed.

Lemma ref_in_range_checked (view : View) (c : Z) :
  ref_is_order c = true -> ref_in_range view (checked_ref view c) = true.
Proof.
  unfold ref_is_order, ref_in_range, checked_ref, is_stale. intros H.
  destruct (c =? -1) eqn:E1; cbn.
  - now rewrite E1.
  - cbn in H. destruct (cursor_count view <? c) eqn:E2; [reflexivity|].
    rewrite E1, H. cbn. apply Z.ltb_ge in E2. now apply Z.leb_le.
Qed.

Lemma ref_in_range_fresh (view : View) (c : Z) :
  ref_in_range view c = true -> is_stale view c = false.
Proof.
  unfold ref_in_range, is_stale. intros H.
  destruct (c =? -1); [reflexivity|]. cbn in *.
  apply andb_true_iff in H. destruct H as [_ H]. apply Z.leb_le in H.
  apply Z.ltb_ge. exact H.
Qed.

Lemma ref_in_range_same_count (view view' : View) (c : Z) :
  cursor_count view' = cursor_count view ->
  ref_in_range view' c = ref_in_range view c.
Proof. unfold ref_in_range. now intros ->. Qed.

Lemma cursor_count_same_length (view view' : View) :
  List.length (_cursorList view') = List.length (_cursorList view) ->
  cursor_count view' = cursor_count view.
Proof. unfold cursor_count. now intros ->. Qed.

(** *** Rows *)

Lemma dist_row_ready_shown (view : View) (o : cursor_row_info) :
  dist_row_ready view o = true -> dist_row_shown o = true.
Proof.
  unfold dist_row_ready, dist_row_shown, row_refs_in_range, row_refs_are_orders.
  intros H. apply andb_true_iff in H. destruct H as [H Hr].
  apply andb_true_iff in Hr. destruct Hr as [H1 H2].
  rewrite H, (ref_in_range_order view _ H1), (ref_in_range_order view _ H2). reflexivity.
Qed.

Lemma edge_row_ready_shown (view : View) (o : cursor_row_info) :
  edge_row_ready view o = true -> edge_row_shown o = true.
Proof.
  unfold edge_row_ready, edge_row_shown, row_refs_in_range, row_refs_are_orders.
  intros H. apply andb_true_iff in H. destruct H as [H Hr].
  apply andb_true_iff in Hr. destruct Hr as [H1 H2].
  rewrite H, (ref_in_range_order view _ H1), (ref_in_range_order view _ H2). reflexivity.
Qed.

Lemma dist_row_shown_parts (o : cursor_row_info) :
  dist_row_shown o = true <->
  dist_displayed o = true /\ is_some (del_bt o) = true
  /\ ref_is_order (cursor1 o) = true /\ ref_is_order (cursor2 o) = true.
Proof.
  unfold dist_row_shown, row_refs_are_orders. rewrite !andb_true_iff. tauto.
Qed.

Lemma edge_row_shown_parts (o : cursor_row_info) :
  edge_row_shown o = true <->
  edge_displayed o = true /\ is_some (del_bt o) = true
  /\ ref_is_order (cursor1 o) = true /\ ref_is_order (cursor2 o) = true.
Proof.
  unfold edge_row_shown, row_refs_are_orders. rewrite !andb_true_iff. tauto.
Qed.

Lemma dist_row_ready_parts (view : View) (o : cursor_row_info) :
  dist_row_ready view o = true <->
  dist_displayed o = true /\ is_some (del_bt o) = true
  /\ ref_in_range view (cursor1 o) = true /\ ref_in_range view (cursor2 o) = true.
Proof.
  unfold dist_row_ready, row_refs_in_range. rewrite !andb_true_iff. tauto.
Qed.

Lemma edge_row_ready_parts (view : View) (o : cursor_row_info) :
  edge_row_ready view o = true <->
  edge_displayed o = true /\ is_some (del_bt o) = true
  /\ ref_in_range view (cursor1 o) = true /\ ref_in_range view (cursor2 o) = true.
Proof.
  unfold edge_row_ready, row_refs_in_range. rewrite !andb_true_iff. tauto.
Qed.

Lemma dist_row_ready_same_count (view view' : View) (o : cursor_row_info) :
  cursor_count view' = cursor_count view ->
  dist_row_ready view' o = dist_row_ready view o.
Proof.
  intros H. unfold dist_row_ready, row_refs_in_range.
  now rewrite !(ref_in_range_same_count view view') by exact H.
Qed.

Lemma edge_row_ready_same_count (view view' : View) (o : cursor_row_info) :
  cursor_count view' = cursor_count view ->
  edge_row_ready view' o = edge_row_ready view o.
Proof.
  intros H. unfold edge_row_ready, row_refs_in_range.
  now rewrite !(ref_in_range_same_count view view') by exact H.
Qed.

Lemma build_dist_row_fields (o : cursor_row_info) :
  cursor1 (build_dist_row o) = cursor1 o /\ cursor2 (build_dist_row o) = cursor2 o
  /\ channelIndex (build_dist_row o) = channelIndex o
  /\ is_some (del_bt (build_dist_row o)) = true
  /\ dist_displayed (build_dist_row o) = true.
Proof.
  unfold build_dist_row, dist_displayed.
  destruct o as [c1 c2 b db sb eb rl ch]. cbn.
  destruct (c1 =? -1); cbn; destruct (c2 =? -1); cbn; repeat split.
Qed.

Lemma build_edge_row_fields (s : SigSession) (o : cursor_row_info) :
  cursor1 (build_edge_row s o) = cursor1 o /\ cursor2 (build_edge_row s o) = cursor2 o
  /\ channelIndex (build_edge_row s o) = channelIndex o
  /\ is_some (del_bt (build_edge_row s o)) = true
  /\ edge_displayed (build_edge_row s o) = true.
Proof.
  unfold build_edge_row, edge_displayed, dist_displayed.
  destruct o as [c1 c2 b db sb eb rl ch]. cbn -[create_probe_selector].
  destruct (c1 =? -1); cbn -[create_probe_selector];
    destruct (c2 =? -1); cbn -[create_probe_selector]; repeat split.
Qed.

Lemma build_dist_row_shown (o : cursor_row_info) :
  row_refs_are_orders o = true -> dist_row_shown (build_dist_row o) = true.
Proof.
  intros H. destruct (build_dist_row_fields o) as (H1 & H2 & _ & Hd & Hs).
  unfold dist_row_shown, row_refs_are_orders in *. now rewrite Hs, Hd, H1, H2.
Qed.

Lemma build_edge_row_shown (s : SigSession) (o : cursor_row_info) :
  row_refs_are_orders o = true -> edge_row_shown (build_edge_row s o) = true.
Proof.
  intros H. destruct (build_edge_row_fields s o) as (H1 & H2 & _ & Hd & Hs).
  unfold edge_row_shown, row_refs_are_orders in *. now rewrite Hs, Hd, H1, H2.
Qed.

Lemma build_dist_row_ready (view : View) (o : cursor_row_info) :
  row_refs_in_range view o = true -> dist_row_ready view (build_dist_row o) = true.
Proof.
  intros H. destruct (build_dist_row_fields o) as (H1 & H2 & _ & Hd & Hs).
  unfold dist_row_ready, row_refs_in_range in *. now rewrite Hs, Hd, H1, H2.
Qed.

Lemma build_edge_row_ready (view : View) (s : SigSession) (o : cursor_row_info) :
  row_refs_in_range view o = true -> edge_row_ready view (build_edge_row s o) = true.
Proof.
  intros H. destruct (build_edge_row_fields s o) as (H1 & H2 & _ & Hd & Hs).
  unfold edge_row_ready, row_refs_in_range in *. now rewrite Hs, Hd, H1, H2.
Qed.

Lemma dist_row_ready_refs (view : View) (o : cursor_row_info) :
  dist_row_ready view o = true -> row_refs_in_range view o = true.
Proof. unfold dist_row_ready. intros H. now apply andb_true_iff in H. Qed.

Lemma edge_row_ready_refs (view : View) (o : cursor_row_info) :
  edge_row_ready view o = true -> row_refs_in_range view o = true.
Proof. unfold edge_row_ready. intros H. now apply andb_true_iff in H. Qed.

Lemma dist_row_shown_refs (o : cursor_row_info) :
  dist_row_shown o = true -> row_refs_are_orders o = true.
Proof. unfold dist_row_shown. intros H. now apply andb_true_iff in H. Qed.

Lemma edge_row_shown_refs (o : cursor_row_info) :
  edge_row_shown o = true -> row_refs_are_orders o = true.
Proof. unfold edge_row_shown. intros H. now apply andb_true_iff in H. Qed.

Section Passes.

Variable get_cm_delta : View -> Z -> Z -> string.
Variable get_cm_time : View -> Z -> string.
Variable edges : Signal -> Z -> Z -> option (Z * Z).

(** The pass of [update_dist] over a shown row returns and leaves it ready. *)
Lemma update_dist_row_shown (view : View) (o : cursor_row_info) :
  dist_row_shown o = true ->
  is_some (start_bt o) = true
  /\ exists o', update_dist_row get_cm_delta view o = Some o'
                /\ dist_row_ready view o' = true.
Proof.
  intros H. apply dist_row_shown_parts in H. destruct H as (Hd & Hb & H1 & H2).
  split.
  { unfold dist_displayed in Hd. destruct (start_bt o); [reflexivity | discriminate]. }
  destruct (update_dist_row_displayed get_cm_delta view o Hd)
    as (o' & Ho' & Hd' & Hc1 & Hc2 & _ & _ & _ & _ & Hdel & _).
  exists o'. split; [exact Ho'|].
  apply dist_row_ready_parts. rewrite Hdel, Hc1, Hc2.
  repeat split; try assumption; now apply ref_in_range_checked.
Qed.

Lemma update_edge_row_shown (view : View) (o : cursor_row_info) :
  edge_row_shown o = true ->
  is_some (start_bt o) = true
  /\ exists o', update_edge_row edges view o = Some o'
                /\ edge_row_ready view o' = true.
Proof.
  intros H. apply edge_row_shown_parts in H. destruct H as (Hd & Hb & H1 & H2).
  split.
  { unfold edge_displayed, dist_displayed in Hd.
    destruct (start_bt o); [reflexivity | discriminate]. }
  destruct (update_edge_row_displayed edges view o Hd)
    as (o' & Ho' & Hd' & Hc1 & Hc2 & _ & _ & _ & _ & Hdel & _).
  exists o'. split; [exact Ho'|].
  apply edge_row_ready_parts. rewrite Hdel, Hc1, Hc2.
  repeat split; try assumption; now apply ref_in_range_checked.
Qed.

(** The loop of the two passes over rows that all go through the body. *)
Lemma rows_until_unbound_post (body : cursor_row_info -> option cursor_row_info)
    (p q : cursor_row_info -> bool) (rows : list cursor_row_info) :
  (forall o, p o = true ->
     is_some (start_bt o) = true /\ exists o', body o = Some o' /\ q o' = true) ->
  all_rows p rows = true ->
  exists rows',
    rows_until_unbound body rows = Some rows'
    /\ all_rows q rows' = true
    /\ List.length rows' = List.length rows.
Proof.
  intros Hb. induction rows as [|o rest IH]; intros H.
  - exists []. repeat split.
  - cbn in H. apply andb_true_iff in H. destruct H as [Ho Hrest].
    destruct (Hb o Ho) as (Hs & o' & Ho' & Hq).
    destruct (IH Hrest) as (rest' & Hr & Hqr & Hl).
    exists (o' :: rest'). cbn. destruct (start_bt o); [|discriminate].
    rewrite Ho', Hr. cbn [bind]. split; [reflexivity|]. split.
    + cbn. unfold all_rows in Hqr. now rewrite Hq, Hqr.
    + cbn. now rewrite Hl.
Qed.

Lemma entry_update_dist_shown (view : View) (r : row_list_item) :
  all_rows dist_row_shown (_dist_row_list r) = true ->
  exists r',
    entry_update_dist get_cm_delta view r = Some r'
    /\ all_rows (dist_row_ready view) (_dist_row_list r') = true
    /\ List.length (_dist_row_list r') = List.length (_dist_row_list r)
    /\ _edge_row_list r' = _edge_row_list r
    /\ _opt_row_list r' = _opt_row_list r.
Proof.
  intros H.
  destruct (rows_until_unbound_post (update_dist_row get_cm_delta view)
              dist_row_shown (dist_row_ready view) (_dist_row_list r))
    as (rows' & Hr & Hq & Hl); [apply update_dist_row_shown | exact H |].
  exists (set_dist_row_list r rows'). unfold entry_update_dist, update_dist_rows.
  rewrite Hr. cbn. repeat split; assumption.
Qed.

Lemma entry_update_edge_shown (view : View) (r : row_list_item) :
  all_rows edge_row_shown (_edge_row_list r) = true ->
  exists r',
    entry_update_edge edges view r = Some r'
    /\ all_rows (edge_row_ready view) (_edge_row_list r') = true
    /\ List.length (_edge_row_list r') = List.length (_edge_row_list r)
    /\ _dist_row_list r' = _dist_row_list r
    /\ _opt_row_list r' = _opt_row_list r.
Proof.
  intros H.
  destruct (rows_until_unbound_post (update_edge_row edges view)
              edge_row_shown (edge_row_ready view) (_edge_row_list r))
    as (rows' & Hr & Hq & Hl); [apply update_edge_row_shown | exact H |].
  exists (set_edge_row_list r rows'). unfold entry_update_edge, update_edge_rows.
  rewrite Hr. cbn. repeat split; assumption.
Qed.

End Passes.
(** *** Entries *)

Lemma rows_ready_parts (view : View) (r : row_list_item) :
  rows_ready view r = true <->
  all_rows (dist_row_ready view) (_dist_row_list r) = true
  /\ all_rows (edge_row_ready view) (_edge_row_list r) = true
  /\ forallb opt_row_bound (_opt_row_list r) = true
  /\ ((List.length (_opt_row_list r) =? 0)%nat
      || (List.length (_opt_row_list r) =? List.length (_cursorList view))%nat) = true.
Proof. unfold rows_ready. rewrite !andb_true_iff. tauto. Qed.

Lemma rows_capped_parts (cap : nat) (r : row_list_item) :
  rows_capped cap r = true <->
  (List.length (_dist_row_list r) <= cap)%nat
  /\ (List.length (_edge_row_list r) <= cap)%nat.
Proof.
  unfold rows_capped. rewrite andb_true_iff, !Nat.leb_le. tauto.
Qed.

Lemma rows_kept_parts (cap : nat) (r : row_list_item) :
  rows_kept cap r = true <->
  all_rows row_refs_are_orders (_dist_row_list r) = true
  /\ all_rows row_refs_are_orders (_edge_row_list r) = true
  /\ rows_capped cap r = true.
Proof. unfold rows_kept. rewrite !andb_true_iff. tauto. Qed.

Lemma rows_shown_parts (r : row_list_item) :
  rows_shown r = true <->
  all_rows dist_row_shown (_dist_row_list r) = true
  /\ all_rows edge_row_shown (_edge_row_list r) = true.
Proof. unfold rows_shown. now rewrite andb_true_iff. Qed.

Lemma row_refs_in_range_orders (view : View) (o : cursor_row_info) :
  row_refs_in_range view o = true -> row_refs_are_orders o = true.
Proof.
  unfold row_refs_in_range, row_refs_are_orders. intros H.
  apply andb_true_iff in H. destruct H as [H1 H2].
  now rewrite (ref_in_range_order view _ H1), (ref_in_range_order view _ H2).
Qed.

(** Ready rows are shown rows, and kept ones when within the cap. *)
Lemma rows_ready_shown (view : View) (r : row_list_item) :
  rows_ready view r = true -> rows_shown r = true.
Proof.
  intros H. apply rows_ready_parts in H. destruct H as (Hd & He & _).
  apply rows_shown_parts. split.
  - revert Hd. apply all_rows_impl, dist_row_ready_shown.
  - revert He. apply all_rows_impl, edge_row_ready_shown.
Qed.

Lemma rows_ready_kept (cap : nat) (view : View) (r : row_list_item) :
  rows_ready view r = true -> rows_capped cap r = true -> rows_kept cap r = true.
Proof.
  intros H Hc. apply rows_ready_parts in H. destruct H as (Hd & He & _).
  apply rows_kept_parts. split; [|split; [|exact Hc]].
  - revert Hd. apply all_rows_impl. intros o Ho.
    apply (row_refs_in_range_orders view), dist_row_ready_refs, Ho.
  - revert He. apply all_rows_impl. intros o Ho.
    apply (row_refs_in_range_orders view), edge_row_ready_refs, Ho.
Qed.

Lemma all_rows_orders_detach (rows : list cursor_row_info) :
  all_rows row_refs_are_orders (map detach_row rows) = all_rows row_refs_are_orders rows.
Proof.
  unfold all_rows. induction rows as [|o rest IH]; [reflexivity|].
  cbn [map forallb]. now rewrite IH.
Qed.

Lemma rows_kept_detach_rows (cap : nat) (r : row_list_item) :
  rows_kept cap (detach_rows r) = rows_kept cap r.
Proof.
  destruct r as [m dl el ol]. unfold rows_kept, rows_capped, detach_rows. cbn.
  now rewrite !length_map, !all_rows_orders_detach.
Qed.

Lemma rows_kept_set_mode_type (cap : nat) (r : row_list_item) (m : work_mode) :
  rows_kept cap (set_mode_type r m) = rows_kept cap r.
Proof. reflexivity. Qed.

Lemma rows_ready_set_mode_type (view : View) (r : row_list_item) (m : work_mode) :
  rows_ready view (set_mode_type r m) = rows_ready view r.
Proof. reflexivity. Qed.

Lemma rows_capped_set_mode_type (cap : nat) (r : row_list_item) (m : work_mode) :
  rows_capped cap (set_mode_type r m) = rows_capped cap r.
Proof. reflexivity. Qed.

Section Steps.

Variable Max_Measure_Limits : nat.
Variable get_cm_delta : View -> Z -> Z -> string.
Variable get_cm_time : View -> Z -> string.
Variable edges : Signal -> Z -> Z -> option (Z * Z).

(** The cursor panel. *)
Lemma build_cursor_rows_bound (view : View) (k : nat) (cursors : list Cursor) :
  forallb opt_row_bound (build_cursor_rows get_cm_time view k cursors) = true.
Proof.
  revert k. induction cursors as [|c rest IH]; intros k; [reflexivity|].
  cbn. apply IH.
Qed.

Lemma update_cursor_info_rows_bound (view : View) (i : Z) (rows : list cursor_opt_info) :
  forallb opt_row_bound rows = true ->
  forallb opt_row_bound (update_cursor_info_rows get_cm_time view i rows) = true.
Proof.
  revert i. induction rows as [|row rest IH]; intros i H; [reflexivity|].
  cbn in H. apply andb_true_iff in H. destruct H as [Hrow Hrest].
  cbn. apply andb_true_iff. split; [|now apply IH].
  unfold opt_row_bound in *. destruct (info_label row) eqn:E; cbn.
  - now rewrite andb_true_r in *.
  - now rewrite E.
Qed.

Lemma entry_update_cursor_info_ready (view : View) (r : row_list_item) :
  forallb opt_row_bound (_opt_row_list r) = true ->
  ((List.length (_opt_row_list r) =? 0)%nat
   || (List.length (_opt_row_list r) =? List.length (_cursorList view))%nat) = true ->
  exists r',
    entry_update_cursor_info get_cm_time view r = Some r'
    /\ _dist_row_list r' = _dist_row_list r
    /\ _edge_row_list r' = _edge_row_list r
    /\ forallb opt_row_bound (_opt_row_list r') = true
    /\ List.length (_opt_row_list r') = List.length (_opt_row_list r).
Proof.
  intros Hb Hl. unfold entry_update_cursor_info.
  destruct (List.length (_opt_row_list r) =? 0)%nat eqn:E0.
  - exists r. repeat split. exact Hb.
  - cbn in Hl. rewrite Nat.eqb_sym in Hl. rewrite Hl.
    eexists. split; [reflexivity|]. cbn. repeat split.
    + now apply update_cursor_info_rows_bound.
    + apply length_update_cursor_info_rows.
Qed.

(** The two passes and the cursor panel texts, from shown rows. *)
Lemma entry_passes_shown (view : View) (r : row_list_item) :
  rows_shown r = true ->
  exists r2,
    (r1 <- entry_update_dist get_cm_delta view r ;; entry_update_edge edges view r1)
    = Some r2
    /\ all_rows (dist_row_ready view) (_dist_row_list r2) = true
    /\ all_rows (edge_row_ready view) (_edge_row_list r2) = true
    /\ List.length (_dist_row_list r2) = List.length (_dist_row_list r)
    /\ List.length (_edge_row_list r2) = List.length (_edge_row_list r)
    /\ _opt_row_list r2 = _opt_row_list r.
Proof.
  intros H. apply rows_shown_parts in H. destruct H as [Hd He].
  destruct (entry_update_dist_shown get_cm_delta view r Hd)
    as (r1 & H1 & Hd1 & Hl1 & He1 & Ho1).
  rewrite H1. cbn [bind].
  destruct (entry_update_edge_shown edges view r1) as (r2 & H2 & He2 & Hl2 & Hd2 & Ho2).
  { now rewrite He1. }
  exists r2. split; [exact H2|]. rewrite Hd2, Hl2, Ho2, He1, Ho1. now repeat split.
Qed.

Lemma entry_reCalc_shown (view : View) (r : row_list_item) :
  rows_shown r = true ->
  forallb opt_row_bound (_opt_row_list r) = true ->
  ((List.length (_opt_row_list r) =? 0)%nat
   || (List.length (_opt_row_list r) =? List.length (_cursorList view))%nat) = true ->
  exists r',
    entry_reCalc get_cm_delta get_cm_time edges view r = Some r'
    /\ rows_ready view r' = true
    /\ List.length (_dist_row_list r') = List.length (_dist_row_list r)
    /\ List.length (_edge_row_list r') = List.length (_edge_row_list r).
Proof.
  intros Hs Hb Hl.
  destruct (entry_passes_shown view r Hs) as (r2 & H2 & Hd & He & Ld & Le & Ho).
  destruct (entry_update_cursor_info_ready view r2) as (r3 & H3 & Hd3 & He3 & Hb3 & Hl3).
  { now rewrite Ho. }
  { now rewrite Ho. }
  exists r3. split.
  - unfold entry_reCalc.
    destruct (entry_update_dist get_cm_delta view r) as [r1|]; cbn [bind] in *;
      [|discriminate].
    rewrite H2. exact H3.
  - rewrite Hd3, He3. split; [|now split].
    apply rows_ready_parts. rewrite Hd3, He3, Hl3, Ho. now repeat split.
Qed.

Lemma entry_cursor_update_shown (view : View) (r : row_list_item) :
  rows_shown r = true ->
  exists r',
    entry_cursor_update get_cm_delta get_cm_time edges view r = Some r'
    /\ rows_ready view r' = true
    /\ List.length (_dist_row_list r') = List.length (_dist_row_list r)
    /\ List.length (_edge_row_list r') = List.length (_edge_row_list r).
Proof.
  intros Hs.
  destruct (entry_passes_shown view r Hs) as (r2 & H2 & Hd & He & Ld & Le & Ho).
  exists (entry_build_cursor get_cm_time view r2). split.
  - unfold entry_cursor_update.
    destruct (entry_update_dist get_cm_delta view r) as [r1|]; cbn [bind] in *;
      [|discriminate].
    now rewrite H2.
  - split; [|now split].
    apply rows_ready_parts. cbn. repeat split; try assumption.
    + apply build_cursor_rows_bound.
    + rewrite length_build_cursor_rows, Nat.eqb_refl. apply orb_true_r.
Qed.

Lemma entry_cursor_moving_ready (cursors_shown : bool) (view view' : View)
    (r : row_list_item) :
  List.length (_cursorList view') = List.length (_cursorList view) ->
  rows_ready view r = true ->
  exists r',
    entry_cursor_moving get_cm_delta get_cm_time cursors_shown view' r = Some r'
    /\ rows_ready view' r' = true
    /\ List.length (_dist_row_list r') = List.length (_dist_row_list r)
    /\ List.length (_edge_row_list r') = List.length (_edge_row_list r).
Proof.
  intros Hlen H. pose proof (cursor_count_same_length view view' Hlen) as Hcount.
  apply rows_ready_parts in H. destruct H as (Hd & He & Hb & Hl).
  assert (H1 : exists r1,
             (if cursors_shown then entry_update_cursor_info get_cm_time view' r
              else Some r) = Some r1
             /\ _dist_row_list r1 = _dist_row_list r
             /\ _edge_row_list r1 = _edge_row_list r
             /\ forallb opt_row_bound (_opt_row_list r1) = true
             /\ List.length (_opt_row_list r1) = List.length (_opt_row_list r)).
  { destruct cursors_shown.
    - apply entry_update_cursor_info_ready; [exact Hb | now rewrite Hlen].
    - exists r. now repeat split. }
  destruct H1 as (r1 & H1 & Hd1 & He1 & Hb1 & Hl1).
  destruct (entry_update_dist_shown get_cm_delta view' r1)
    as (r2 & H2 & Hd2 & Ld2 & He2 & Ho2).
  { rewrite Hd1. revert Hd. apply all_rows_impl, dist_row_ready_shown. }
  exists r2. split.
  - unfold entry_cursor_moving. rewrite H1. exact H2.
  - rewrite Ld2, He2, Hd1, He1. split; [|now split].
    apply rows_ready_parts. rewrite He2, Ho2, He1, Hl1, Hlen.
    repeat split; try assumption.
    revert He. apply all_rows_impl. intros o Ho.
    now rewrite (edge_row_ready_same_count view view').
Qed.

Lemma entry_rebuild_shown (view : View) (r : row_list_item) :
  all_rows row_refs_are_orders (_dist_row_list r) = true ->
  all_rows row_refs_are_orders (_edge_row_list r) = true ->
  rows_shown (entry_rebuild get_cm_time view r) = true
  /\ forallb opt_row_bound (_opt_row_list (entry_rebuild get_cm_time view r)) = true
  /\ List.length (_opt_row_list (entry_rebuild get_cm_time view r))
     = List.length (_cursorList view)
  /\ List.length (_dist_row_list (entry_rebuild get_cm_time view r))
     = List.length (_dist_row_list r)
  /\ List.length (_edge_row_list (entry_rebuild get_cm_time view r))
     = List.length (_edge_row_list r).
Proof.
  intros Hd He. destruct r as [m dl el ol]. cbn in *.
  rewrite !length_map, length_build_cursor_rows. repeat split.
  - apply rows_shown_parts. cbn. split.
    + revert Hd. apply all_rows_map_impl, build_dist_row_shown.
    + revert He. apply all_rows_map_impl, build_edge_row_shown.
  - apply build_cursor_rows_bound.
Qed.

Lemma entry_reload_kept (view : View) (r : row_list_item) :
  rows_kept Max_Measure_Limits r = true ->
  exists r',
    entry_reload get_cm_delta get_cm_time edges view r = Some r'
    /\ rows_ready view r' = true
    /\ rows_capped Max_Measure_Limits r' = true.
Proof.
  intros H. apply rows_kept_parts in H. destruct H as (Hd & He & Hc).
  destruct (entry_rebuild_shown view r Hd He) as (Hs & Hb & Hl & Ld & Le).
  destruct (entry_reCalc_shown view _ Hs Hb) as (r' & Hr & Hready & Ld' & Le').
  { rewrite Hl, Nat.eqb_refl. apply orb_true_r. }
  exists r'. split; [exact Hr|]. split; [exact Hready|].
  apply rows_capped_parts in Hc. apply rows_capped_parts. rewrite Ld', Le', Ld, Le.
  exact Hc.
Qed.

End Steps.
(** *** The texts of the marker dialog *)

Lemma QString_toInt_number (z : Z) :
  - 2 ^ 31 <= z < 2 ^ 31 -> QString_toInt (QString_number z) = z.
Proof.
  intros Hz. unfold QString_toInt, QString_number.
  rewrite NilZero.isi.
  - rewrite DecimalZ.of_to.
    destruct (- 2 ^ 31 <=? z) eqn:E1; [|apply Z.leb_gt in E1; lia].
    destruct (z <? 2 ^ 31) eqn:E2; [reflexivity | apply Z.ltb_ge in E2; lia].
  - destruct z as [|p|p]; cbn; try discriminate.
    intros H. injection H as H. now apply Unsigned.to_uint_nonnil in H.
  - destruct z as [|p|p]; cbn; try discriminate.
    intros H. injection H as H. now apply Unsigned.to_uint_nonnil in H.
Qed.

(** The text of a dialog button reads as the order of a marker. *)
Lemma popup_text_in_range (view : View) (t : string) :
  cursor_count view < 2 ^ 31 ->
  existsb (fun b => String.eqb (bt_text b) t) (popup_all_coursors view) = true ->
  1 <= QString_toInt t <= cursor_count view.
Proof.
  intros Hc H. apply existsb_exists in H. destruct H as (b & Hb & Ht).
  apply String.eqb_eq in Ht. subst t.
  unfold popup_all_coursors in Hb. apply in_map_iff in Hb.
  destruct Hb as (index & <- & Hi). apply in_seq in Hi. cbn [bt_text].
  unfold cursor_count in *. rewrite QString_toInt_number; lia.
Qed.

Lemma ref_in_range_bounds (view : View) (c : Z) :
  1 <= c <= cursor_count view -> ref_in_range view c = true.
Proof.
  intros H. unfold ref_in_range. apply orb_true_iff. right.
  apply andb_true_iff. split; [apply Z.leb_le | apply Z.leb_le]; lia.
Qed.

(** *** Rows changed by a slot *)

Lemma bind_sel_cursor_dist_ready (view : View) (_sel_btn : sel_button)
    (sel_cursor_bt : QPushButton) (inf : cursor_row_info) :
  ref_in_range view (QString_toInt (bt_text sel_cursor_bt)) = true ->
  dist_row_ready view inf = true ->
  dist_row_ready view (bind_sel_cursor _sel_btn sel_cursor_bt inf) = true.
Proof.
  intros Hv H. unfold bind_sel_cursor, sel_button_of.
  destruct inf as [c1 c2 bx db sb eb rl ch].
  unfold dist_row_ready, dist_displayed, row_refs_in_range in *. cbn in *.
  destruct (sel_is_end _sel_btn).
  - destruct eb as [b|]; [|exact H]. cbn in *. rewrite Hv.
    rewrite !andb_true_iff in *. tauto.
  - destruct sb as [b|]; [|exact H]. cbn in *. rewrite Hv.
    rewrite !andb_true_iff in *. tauto.
Qed.

Lemma bind_sel_cursor_edge_ready (view : View) (_sel_btn : sel_button)
    (sel_cursor_bt : QPushButton) (inf : cursor_row_info) :
  ref_in_range view (QString_toInt (bt_text sel_cursor_bt)) = true ->
  edge_row_ready view inf = true ->
  edge_row_ready view (bind_sel_cursor _sel_btn sel_cursor_bt inf) = true.
Proof.
  intros Hv H. unfold bind_sel_cursor, sel_button_of.
  destruct inf as [c1 c2 bx db sb eb rl ch].
  unfold edge_row_ready, edge_displayed, dist_displayed, row_refs_in_range in *. cbn in *.
  destruct (sel_is_end _sel_btn).
  - destruct eb as [b|]; [|exact H]. cbn in *. rewrite Hv.
    rewrite !andb_true_iff in *. tauto.
  - destruct sb as [b|]; [|exact H]. cbn in *. rewrite Hv.
    rewrite !andb_true_iff in *. tauto.
Qed.

Lemma pick_item_ready (view : View) (item : Z) (o : cursor_row_info) :
  edge_row_ready view o = true -> edge_row_ready view (pick_item item o) = true.
Proof.
  intros H. unfold pick_item.
  destruct o as [c1 c2 bx db sb eb rl ch]. cbn in *.
  destruct bx as [b|]; [|exact H]. exact H.
Qed.

Lemma take_channel_index_ready (view : View) (o : cursor_row_info) :
  edge_row_ready view o = true -> edge_row_ready view (take_channel_index o) = true.
Proof.
  intros H. unfold take_channel_index.
  destruct o as [c1 c2 bx db sb eb rl ch]. cbn in *.
  destruct bx as [b|]; [|exact H]. exact H.
Qed.

Section SlotSteps.

Variable Max_Measure_Limits : nat.
Variable get_cm_delta : View -> Z -> Z -> string.
Variable get_cm_time : View -> Z -> string.
Variable edges : Signal -> Z -> Z -> option (Z * Z).

(** From ready rows, the two passes and the cursor panel texts. *)
Lemma entry_update_dist_ready (view : View) (r : row_list_item) :
  rows_ready view r = true ->
  exists r',
    entry_update_dist get_cm_delta view r = Some r'
    /\ rows_ready view r' = true
    /\ List.length (_dist_row_list r') = List.length (_dist_row_list r)
    /\ List.length (_edge_row_list r') = List.length (_edge_row_list r).
Proof.
  intros H. pose proof (rows_ready_shown view r H) as Hs.
  apply rows_shown_parts in Hs. destruct Hs as [Hd _].
  apply rows_ready_parts in H. destruct H as (_ & He & Hb & Hl).
  destruct (entry_update_dist_shown get_cm_delta view r Hd)
    as (r' & Hr & Hd' & Ld & He' & Ho').
  exists r'. split; [exact Hr|]. rewrite Ld, He'. split; [|now split].
  apply rows_ready_parts. rewrite He', Ho'. now repeat split.
Qed.

Lemma entry_update_edge_ready (view : View) (r : row_list_item) :
  rows_ready view r = true ->
  exists r',
    entry_update_edge edges view r = Some r'
    /\ rows_ready view r' = true
    /\ List.length (_dist_row_list r') = List.length (_dist_row_list r)
    /\ List.length (_edge_row_list r') = List.length (_edge_row_list r).
Proof.
  intros H. pose proof (rows_ready_shown view r H) as Hs.
  apply rows_shown_parts in Hs. destruct Hs as [_ He].
  apply rows_ready_parts in H. destruct H as (Hd & _ & Hb & Hl).
  destruct (entry_update_edge_shown edges view r He)
    as (r' & Hr & He' & Le & Hd' & Ho').
  exists r'. split; [exact Hr|]. rewrite Le, Hd'. split; [|now split].
  apply rows_ready_parts. rewrite Hd', Ho'. now repeat split.
Qed.

Lemma entry_reCalc_ready (view : View) (r : row_list_item) :
  rows_ready view r = true ->
  exists r',
    entry_reCalc get_cm_delta get_cm_time edges view r = Some r'
    /\ rows_ready view r' = true
    /\ List.length (_dist_row_list r') = List.length (_dist_row_list r)
    /\ List.length (_edge_row_list r') = List.length (_edge_row_list r).
Proof.
  intros H. pose proof (rows_ready_shown view r H) as Hs.
  apply rows_ready_parts in H. destruct H as (_ & _ & Hb & Hl).
  now apply entry_reCalc_shown.
Qed.

Lemma entry_reStyle_ready (view : View) (r : row_list_item) :
  rows_ready view r = true ->
  exists r',
    entry_reStyle get_cm_delta view r = Some r'
    /\ rows_ready view r' = true
    /\ List.length (_dist_row_list r') = List.length (_dist_row_list r)
    /\ List.length (_edge_row_list r') = List.length (_edge_row_list r).
Proof.
  intros H. unfold entry_reStyle.
  assert (Hst : entry_styled r = true).
  { apply rows_ready_parts in H. destruct H as (Hd & He & Hb & _).
    unfold entry_styled. rewrite !andb_true_iff. repeat split.
    - revert Hd. apply all_rows_impl. intros o Ho.
      now apply dist_row_ready_parts in Ho.
    - revert He. apply all_rows_impl. intros o Ho.
      now apply edge_row_ready_parts in Ho.
    - apply forallb_forall. intros row Hrow.
      apply (proj1 (forallb_forall _ _) Hb) in Hrow. unfold opt_row_bound in Hrow.
      rewrite !andb_true_iff in Hrow. tauto. }
  rewrite Hst. now apply entry_update_dist_ready.
Qed.

(** Adding and deleting rows. *)
Lemma entry_build_dist_ready (view : View) (r : row_list_item)
    (rows : list cursor_row_info) :
  all_rows (row_refs_in_range view) rows = true ->
  rows_ready view r = true ->
  rows_ready view (entry_build_dist (set_dist_row_list r rows)) = true.
Proof.
  intros Hrows H. apply rows_ready_parts in H. destruct H as (_ & He & Hb & Hl).
  apply rows_ready_parts. cbn. repeat split; try assumption.
  revert Hrows. apply all_rows_map_impl. apply build_dist_row_ready.
Qed.

Lemma entry_build_edge_ready (view : View) (sess : SigSession) (r : row_list_item)
    (rows : list cursor_row_info) :
  all_rows (row_refs_in_range view) rows = true ->
  rows_ready view r = true ->
  rows_ready view (entry_build_edge sess (set_edge_row_list r rows)) = true.
Proof.
  intros Hrows H. apply rows_ready_parts in H. destruct H as (Hd & _ & Hb & Hl).
  apply rows_ready_parts. cbn. repeat split; try assumption.
  revert Hrows. apply all_rows_map_impl. apply build_edge_row_ready.
Qed.

Lemma dist_rows_in_range (view : View) (r : row_list_item) :
  rows_ready view r = true ->
  all_rows (row_refs_in_range view) (_dist_row_list r) = true.
Proof.
  intros H. apply rows_ready_parts in H. destruct H as (Hd & _).
  revert Hd. apply all_rows_impl, dist_row_ready_refs.
Qed.

Lemma edge_rows_in_range (view : View) (r : row_list_item) :
  rows_ready view r = true ->
  all_rows (row_refs_in_range view) (_edge_row_list r) = true.
Proof.
  intros H. apply rows_ready_parts in H. destruct H as (_ & He & _).
  revert He. apply all_rows_impl, edge_row_ready_refs.
Qed.

Lemma entry_add_dist_ready (view : View) (r : row_list_item) :
  rows_ready view r = true ->
  rows_capped Max_Measure_Limits r = true ->
  rows_ready view (entry_add_dist Max_Measure_Limits r) = true
  /\ rows_capped Max_Measure_Limits (entry_add_dist Max_Measure_Limits r) = true.
Proof.
  intros H Hc. unfold entry_add_dist.
  destruct (List.length (_dist_row_list r) <? Max_Measure_Limits)%nat eqn:E;
    [|now split].
  split.
  - apply entry_build_dist_ready; [|exact H].
    rewrite all_rows_app, (dist_rows_in_range view r H). reflexivity.
  - apply rows_capped_parts in Hc. apply rows_capped_parts. cbn.
    rewrite length_map, length_app. cbn. apply Nat.ltb_lt in E. lia.
Qed.

Lemma entry_add_edge_ready (view : View) (sess : SigSession) (r : row_list_item) :
  rows_ready view r = true ->
  rows_capped Max_Measure_Limits r = true ->
  rows_ready view (entry_add_edge Max_Measure_Limits sess r) = true
  /\ rows_capped Max_Measure_Limits (entry_add_edge Max_Measure_Limits sess r) = true.
Proof.
  intros H Hc. unfold entry_add_edge.
  destruct (List.length (_edge_row_list r) <? Max_Measure_Limits)%nat eqn:E;
    [|now split].
  split.
  - apply entry_build_edge_ready; [|exact H].
    rewrite all_rows_app, (edge_rows_in_range view r H). reflexivity.
  - apply rows_capped_parts in Hc. apply rows_capped_parts. cbn.
    rewrite length_map, length_app. cbn. apply Nat.ltb_lt in E. lia.
Qed.

Lemma entry_del_dist_ready (sender : nat) (view : View) (r : row_list_item) :
  rows_ready view r = true ->
  rows_capped Max_Measure_Limits r = true ->
  rows_ready view (entry_del_dist sender r) = true
  /\ rows_capped Max_Measure_Limits (entry_del_dist sender r) = true.
Proof.
  intros H Hc. unfold entry_del_dist.
  destruct (nth_error (_dist_row_list r) sender) as [o|]; [|now split].
  destruct (is_some (del_bt o)); [|now split].
  split.
  - apply entry_build_dist_ready; [|exact H].
    apply all_rows_erase_at, (dist_rows_in_range view r H).
  - apply rows_capped_parts in Hc. apply rows_capped_parts. cbn.
    rewrite length_map. pose proof (length_erase_at sender (_dist_row_list r)). lia.
Qed.

Lemma entry_del_edge_ready (sender : nat) (view : View) (sess : SigSession)
    (r : row_list_item) :
  rows_ready view r = true ->
  rows_capped Max_Measure_Limits r = true ->
  rows_ready view (entry_del_edge sender sess r) = true
  /\ rows_capped Max_Measure_Limits (entry_del_edge sender sess r) = true.
Proof.
  intros H Hc. unfold entry_del_edge.
  destruct (nth_error (_edge_row_list r) sender) as [o|]; [|now split].
  destruct (is_some (del_bt o)); [|now split].
  split.
  - apply entry_build_edge_ready; [|exact H].
    apply all_rows_erase_at, (edge_rows_in_range view r H).
  - apply rows_capped_parts in Hc. apply rows_capped_parts. cbn.
    rewrite length_map. pose proof (length_erase_at sender (_edge_row_list r)). lia.
Qed.

(** Binding a marker. *)
Lemma entry_bind_sel_ready (_sel_btn : sel_button) (sel_cursor_bt : QPushButton)
    (view : View) (r : row_list_item) (inf : cursor_row_info) :
  nth_error (if sel_in_edge_row _sel_btn then _edge_row_list r else _dist_row_list r)
            (sel_row _sel_btn) = Some inf ->
  is_some (sel_button_of _sel_btn inf) = true ->
  ref_in_range view (QString_toInt (bt_text sel_cursor_bt)) = true ->
  rows_ready view r = true ->
  exists r',
    entry_bind_sel _sel_btn sel_cursor_bt r = Some r'
    /\ rows_ready view r' = true
    /\ List.length (_dist_row_list r') = List.length (_dist_row_list r)
    /\ List.length (_edge_row_list r') = List.length (_edge_row_list r).
Proof.
  intros Hk Hb Hv H. unfold entry_bind_sel. rewrite Hk. cbn [bind].
  destruct (sel_button_of _sel_btn inf); [|discriminate]. cbn [bind].
  eexists. split; [reflexivity|].
  apply rows_ready_parts in H. destruct H as (Hd & He & Hob & Hl).
  destruct (sel_in_edge_row _sel_btn); cbn; rewrite length_map_at.
  - split; [|now split]. apply rows_ready_parts. cbn. repeat split; try assumption.
    apply all_rows_map_at; [|exact He]. intros o _.
    now apply bind_sel_cursor_edge_ready.
  - split; [|now split]. apply rows_ready_parts. cbn. repeat split; try assumption.
    apply all_rows_map_at; [|exact Hd]. intros o _.
    now apply bind_sel_cursor_dist_ready.
Qed.

Lemma entry_set_sel_cursor_ready (_sel_btn : sel_button) (sel_cursor_bt : QPushButton)
    (view : View) (r : row_list_item) (inf : cursor_row_info) :
  nth_error (if sel_in_edge_row _sel_btn then _edge_row_list r else _dist_row_list r)
            (sel_row _sel_btn) = Some inf ->
  is_some (sel_button_of _sel_btn inf) = true ->
  ref_in_range view (QString_toInt (bt_text sel_cursor_bt)) = true ->
  rows_ready view r = true ->
  exists r',
    entry_set_sel_cursor get_cm_delta edges _sel_btn sel_cursor_bt view r = Some r'
    /\ rows_ready view r' = true
    /\ List.length (_dist_row_list r') = List.length (_dist_row_list r)
    /\ List.length (_edge_row_list r') = List.length (_edge_row_list r).
Proof.
  intros Hk Hb Hv H.
  destruct (entry_bind_sel_ready _sel_btn sel_cursor_bt view r inf Hk Hb Hv H)
    as (r1 & H1 & Hr1 & Ld1 & Le1).
  unfold entry_set_sel_cursor. rewrite H1. cbn [bind]. rewrite <- Ld1, <- Le1.
  destruct (sel_in_edge_row _sel_btn).
  - now apply entry_update_edge_ready.
  - now apply entry_update_dist_ready.
Qed.

(** Picking a channel. *)
Lemma entry_pick_channel_ready (k : nat) (item : Z) (view : View) (r : row_list_item) :
  rows_ready view r = true ->
  exists r',
    entry_pick_channel edges k item view r = Some r'
    /\ rows_ready view r' = true
    /\ List.length (_dist_row_list r') = List.length (_dist_row_list r)
    /\ List.length (_edge_row_list r') = List.length (_edge_row_list r).
Proof.
  intros H. unfold entry_pick_channel, entry_channel_selected, entry_take_channel.
  cbn [negb].
  destruct (entry_update_edge_ready view
              (set_edge_row_list
                 (set_edge_row_list r (map_at k (pick_item item) (_edge_row_list r)))
                 (map_at k take_channel_index
                    (_edge_row_list
                       (set_edge_row_list r
                          (map_at k (pick_item item) (_edge_row_list r)))))))
    as (r' & Hr & Hready & Ld & Le).
  - apply rows_ready_parts in H. destruct H as (Hd & He & Hb & Hl).
    apply rows_ready_parts. cbn. repeat split; try assumption.
    apply all_rows_map_at; [intros o _; apply take_channel_index_ready|].
    apply all_rows_map_at; [intros o _; apply pick_item_ready | exact He].
  - exists r'. split; [exact Hr|]. split; [exact Hready|].
    rewrite Ld, Le. cbn. now rewrite !length_map_at.
Qed.

End SlotSteps.
(** *** The dock *)

Lemma dock_ready_parts (cap : nat) (view : View) (d : MeasureDock) :
  dock_ready cap (view, d) = true <->
  cursor_count view < 2 ^ 31
  /\ rows_ready view (mode_rows_at d (active_dex view)) = true
  /\ forall i, rows_kept cap (mode_rows_at d i) = true.
Proof.
  unfold dock_ready. rewrite !andb_true_iff, Z.ltb_lt. split.
  - intros ((((Hc & Hr) & H0) & H1) & H2). repeat split; try assumption.
    intros i. destruct i; assumption.
  - intros (Hc & Hr & Hk). repeat split; try assumption.
    + apply (Hk Dex0).
    + apply (Hk Dex1).
    + apply (Hk Dex2).
Qed.

Lemma rows_capped_lengths (cap : nat) (r r' : row_list_item) :
  rows_capped cap r = true ->
  List.length (_dist_row_list r') = List.length (_dist_row_list r) ->
  List.length (_edge_row_list r') = List.length (_edge_row_list r) ->
  rows_capped cap r' = true.
Proof.
  intros H Hd He. apply rows_capped_parts in H. apply rows_capped_parts.
  now rewrite Hd, He.
Qed.

Lemma rows_kept_capped (cap : nat) (r : row_list_item) :
  rows_kept cap r = true -> rows_capped cap r = true.
Proof. intros H. now apply rows_kept_parts in H. Qed.

(** A member that leaves the active entry ready leaves the dock ready. *)
Lemma with_active_ready (cap : nat) (view : View)
    (F : row_list_item -> option row_list_item) (d : MeasureDock) (r' : row_list_item) :
  (forall i, rows_kept cap (mode_rows_at d i) = true) ->
  cursor_count view < 2 ^ 31 ->
  F (set_mode_type (mode_rows_at d (active_dex view)) (get_work_mode (session view)))
  = Some r' ->
  rows_ready view r' = true ->
  rows_capped cap r' = true ->
  exists d', with_active view F d = Some d' /\ dock_ready cap (view, d') = true.
Proof.
  intros Hk Hc HF Hr Hcap.
  destruct (with_active_returns view F d r' HF) as [d' Hd'].
  exists d'. split; [exact Hd'|].
  destruct (with_active_at view F d d' Hd') as (r1 & HF1 & Hact & Hoth).
  rewrite HF in HF1. injection HF1 as <-.
  apply dock_ready_parts. split; [exact Hc|]. split; [now rewrite Hact|].
  intros i. destruct (mode_dex_eq_dec i (active_dex view)) as [->|Hi].
  - rewrite Hact. now apply (rows_ready_kept cap view).
  - rewrite (Hoth i Hi), rows_kept_detach_rows. apply Hk.
Qed.

(** The same for a member run under a view of the same session. *)
Lemma with_active_step (cap : nat) (view view' : View)
    (F : row_list_item -> option row_list_item) (d : MeasureDock) :
  dock_ready cap (view, d) = true ->
  session view' = session view ->
  cursor_count view' < 2 ^ 31 ->
  (forall r, rows_ready view r = true -> rows_capped cap r = true ->
     exists r', F r = Some r' /\ rows_ready view' r' = true /\ rows_capped cap r' = true) ->
  exists d', with_active view' F d = Some d' /\ dock_ready cap (view', d') = true.
Proof.
  intros H Hs Hc HF. apply dock_ready_parts in H. destruct H as (_ & Hr & Hk).
  assert (Ha : active_dex view' = active_dex view) by (unfold active_dex; now rewrite Hs).
  destruct (HF (set_mode_type (mode_rows_at d (active_dex view'))
                              (get_work_mode (session view'))))
    as (r' & Hr' & Hready & Hcap).
  - rewrite Ha. exact Hr.
  - apply rows_kept_capped. exact (Hk (active_dex view')).
  - now apply (with_active_ready cap view' F d r').
Qed.

(** Steps that keep the lengths of the lists keep the cap. *)
Lemma with_active_step_lengths (cap : nat) (view view' : View)
    (F : row_list_item -> option row_list_item) (d : MeasureDock) :
  dock_ready cap (view, d) = true ->
  session view' = session view ->
  cursor_count view' < 2 ^ 31 ->
  (forall r, rows_ready view r = true ->
     exists r', F r = Some r' /\ rows_ready view' r' = true
                /\ List.length (_dist_row_list r') = List.length (_dist_row_list r)
                /\ List.length (_edge_row_list r') = List.length (_edge_row_list r)) ->
  exists d', with_active view' F d = Some d' /\ dock_ready cap (view', d') = true.
Proof.
  intros H Hs Hc HF. apply (with_active_step cap view view' F d H Hs Hc).
  intros r Hr Hcap. destruct (HF r Hr) as (r' & Hr' & Hready & Ld & Le).
  exists r'. split; [exact Hr'|]. split; [exact Hready|].
  now apply (rows_capped_lengths cap r r').
Qed.

Lemma length_remove_at_le {A : Type} (k : nat) (l : list A) :
  (List.length (remove_at k l) <= List.length l)%nat.
Proof.
  revert k. induction l as [|a rest IH]; intros k; [destruct k; cbn; lia|].
  destruct k as [|k]; cbn; [lia|]. specialize (IH k). lia.
Qed.

Lemma cursor_count_view_after_del (sender : nat) (view : View) (d : MeasureDock) :
  cursor_count (view_after_del sender view d) <= cursor_count view.
Proof.
  unfold view_after_del. destruct (nth_error _ sender) as [row|]; [|lia].
  unfold View_del_cursor, make_cursors_order, cursor_count. cbn.
  rewrite length_make_cursors_order_from.
  pose proof (length_remove_at_le (opt_cursor row) (_cursorList view)). lia.
Qed.

Section Events.

Variable Max_Measure_Limits : nat.
Variable get_cm_delta : View -> Z -> Z -> string.
Variable get_cm_time : View -> Z -> string.
Variable edges : Signal -> Z -> Z -> option (Z * Z).

Lemma total_step (view : View) (f : MeasureDock -> MeasureDock)
    (F : row_list_item -> row_list_item) (d : MeasureDock) :
  Some (f d) = with_active view (fun r => Some (F r)) d ->
  (exists d', with_active view (fun r => Some (F r)) d = Some d'
              /\ dock_ready Max_Measure_Limits (view, d') = true) ->
  dock_ready Max_Measure_Limits (view, f d) = true.
Proof.
  intros Hf (d' & Hd' & Hr). rewrite <- Hf in Hd'. injection Hd' as <-. exact Hr.
Qed.

(** Every event that can happen in a ready state is served without a fault
    and leaves a ready state. *)
Lemma fire_ready (e : dock_event) (s : View * MeasureDock) :
  dock_ready Max_Measure_Limits s = true ->
  possible e s = true ->
  exists s',
    fire Max_Measure_Limits get_cm_delta get_cm_time edges e s = Some s'
    /\ dock_ready Max_Measure_Limits s' = true.
Proof.
  destruct s as [view d]. intros H Hp.
  pose proof (proj1 (dock_ready_parts _ _ _) H) as (Hc & Hr & Hk).
  destruct e as [ | | sender | sender | _sel_btn sel_cursor_bt | sender item
                | sender | cursors | cursors cursors_shown | view' | | ];
    cbn [fire possible] in *.
  - (* add_dist_measure *)
    eexists. split; [reflexivity|].
    apply (total_step view _ _ d (add_dist_measure_entry Max_Measure_Limits view d)).
    apply (with_active_step _ view view _ d H eq_refl Hc).
    intros r Hr0 Hc0. eexists. split; [reflexivity|].
    now apply entry_add_dist_ready.
  - (* add_edge_measure *)
    eexists. split; [reflexivity|].
    apply (total_step view _ _ d (add_edge_measure_entry Max_Measure_Limits view d)).
    apply (with_active_step _ view view _ d H eq_refl Hc).
    intros r Hr0 Hc0. eexists. split; [reflexivity|].
    now apply entry_add_edge_ready.
  - (* del_dist_measure *)
    eexists. split; [reflexivity|].
    apply (total_step view _ _ d (del_dist_measure_entry sender view d)).
    apply (with_active_step _ view view _ d H eq_refl Hc).
    intros r Hr0 Hc0. eexists. split; [reflexivity|].
    now apply entry_del_dist_ready.
  - (* del_edge_measure *)
    eexists. split; [reflexivity|].
    apply (total_step view _ _ d (del_edge_measure_entry sender view d)).
    apply (with_active_step _ view view _ d H eq_refl Hc).
    intros r Hr0 Hc0. eexists. split; [reflexivity|].
    now apply entry_del_edge_ready.
  - (* set_sel_cursor *)
    apply andb_true_iff in Hp. destruct Hp as [Hrow Htext].
    unfold edge_rows, dist_rows in Hrow.
    destruct (nth_error _ (sel_row _sel_btn)) as [inf|] eqn:Hk0; [|discriminate].
    pose proof (popup_text_in_range view _ Hc Htext) as Hv.
    apply ref_in_range_bounds in Hv.
    rewrite set_sel_cursor_entry.
    destruct (entry_set_sel_cursor_ready get_cm_delta edges _sel_btn sel_cursor_bt view
                (set_mode_type (mode_rows_at d (active_dex view))
                               (get_work_mode (session view))) inf)
      as (r' & Hr' & Hready & Ld & Le); try assumption.
    destruct (with_active_ready Max_Measure_Limits view _ d r' Hk Hc Hr' Hready)
      as (d' & Hd' & Hready').
    { apply (rows_capped_lengths _ (mode_rows_at d (active_dex view)));
        [apply rows_kept_capped, Hk | exact Ld | exact Le]. }
    rewrite Hd'. cbn [bind]. eauto.
  - (* pick_channel *)
    rewrite pick_channel_entry.
    destruct (with_active_step_lengths Max_Measure_Limits view view
                (entry_pick_channel edges sender item view) d H eq_refl Hc)
      as (d' & Hd' & Hready').
    { intros r Hr0. now apply entry_pick_channel_ready. }
    rewrite Hd'. cbn [bind]. eauto.
  - (* del_cursor *)
    rewrite del_cursor_entry.
    destruct (with_active_step_lengths Max_Measure_Limits view
                (view_after_del sender view d)
                (entry_cursor_update get_cm_delta get_cm_time edges
                   (view_after_del sender view d)) d H)
      as (d' & Hd' & Hready').
    { apply session_view_after_del. }
    { pose proof (cursor_count_view_after_del sender view d). lia. }
    { intros r Hr0. apply entry_cursor_update_shown. now apply (rows_ready_shown view). }
    rewrite Hd'. cbn [bind]. eauto.
  - (* cursor_update, the cursor list changed *)
    rewrite cursor_update_entry.
    destruct (with_active_step_lengths Max_Measure_Limits view
                (set_cursorList view cursors)
                (entry_cursor_update get_cm_delta get_cm_time edges
                   (set_cursorList view cursors)) d H eq_refl)
      as (d' & Hd' & Hready').
    { apply Z.ltb_lt in Hp. exact Hp. }
    { intros r Hr0. apply entry_cursor_update_shown. now apply (rows_ready_shown view). }
    rewrite Hd'. cbn [bind]. eauto.
  - (* cursor_moving *)
    apply Nat.eqb_eq in Hp.
    rewrite cursor_moving_entry.
    destruct (with_active_step_lengths Max_Measure_Limits view
                (set_cursorList view cursors)
                (entry_cursor_moving get_cm_delta get_cm_time cursors_shown
                   (set_cursorList view cursors)) d H eq_refl)
      as (d' & Hd' & Hready').
    { unfold cursor_count in *. cbn. rewrite Hp. exact Hc. }
    { intros r Hr0. now apply (entry_cursor_moving_ready _ _ _ view). }
    rewrite Hd'. cbn [bind]. eauto.
  - (* reload *)
    apply Z.ltb_lt in Hp. rewrite reload_entry.
    destruct (entry_reload_kept Max_Measure_Limits get_cm_delta get_cm_time edges view'
                (set_mode_type (mode_rows_at d (active_dex view'))
                               (get_work_mode (session view'))))
      as (r' & Hr' & Hready & Hcap).
    { exact (Hk (active_dex view')). }
    destruct (with_active_ready Max_Measure_Limits view' _ d r' Hk Hp Hr' Hready Hcap)
      as (d' & Hd' & Hready').
    rewrite Hd'. cbn [bind]. eauto.
  - (* reCalc *)
    rewrite reCalc_entry.
    destruct (with_active_step_lengths Max_Measure_Limits view view
                (entry_reCalc get_cm_delta get_cm_time edges view) d H eq_refl Hc)
      as (d' & Hd' & Hready').
    { intros r Hr0. now apply entry_reCalc_ready. }
    rewrite Hd'. cbn [bind]. eauto.
  - (* reStyle *)
    rewrite reStyle_entry.
    destruct (with_active_step_lengths Max_Measure_Limits view view
                (entry_reStyle get_cm_delta view) d H eq_refl Hc)
      as (d' & Hd' & Hready').
    { intros r Hr0. now apply entry_reStyle_ready. }
    rewrite Hd'. cbn [bind]. eauto.
Qed.


(** X6.  The constructor leaves a ready dock, whatever the storage of
    [_mode_rows] held: in the active mode one distance row with both
    references unset (none when the cap is 0), no edge row and no cursor
    panel row. *)
Theorem constructed_dock_ready :
  forall (uninit0 uninit1 uninit2 : work_mode) (view : View),
    cursor_count view < 2 ^ 31 ->
    dock_ready Max_Measure_Limits
      (view, MeasureDock_ctor Max_Measure_Limits uninit0 uninit1 uninit2 view) = true
    /\ dist_rows view (MeasureDock_ctor Max_Measure_Limits uninit0 uninit1 uninit2 view)
       = (if (0 <? Max_Measure_Limits)%nat then [build_dist_row new_row_info] else [])
    /\ edge_rows view (MeasureDock_ctor Max_Measure_Limits uninit0 uninit1 uninit2 view)
       = []
    /\ _opt_row_list
         (mode_rows_at (MeasureDock_ctor Max_Measure_Limits uninit0 uninit1 uninit2 view)
                       (active_dex view))
       = [].
Proof.
  intros u0 u1 u2 view Hc. unfold MeasureDock_ctor.
  set (d0 := mkDock (mkRows u0 [] [] []) (mkRows u1 [] [] []) (mkRows u2 [] [] [])).
  assert (H0 : dock_ready Max_Measure_Limits (view, d0) = true).
  { apply dock_ready_parts. split; [exact Hc|]. split.
    - destruct (active_dex view); reflexivity.
    - intros i. destruct i; reflexivity. }
  assert (Hd0 : dist_rows view d0 = [] /\ edge_rows view d0 = []
                /\ _opt_row_list (mode_rows_at d0 (active_dex view)) = []).
  { unfold dist_rows, edge_rows. destruct (active_dex view); repeat split. }
  destruct Hd0 as (Hd & He & Ho).
  split; [|split; [|split]].
  - destruct (fire_ready EvAddDist (view, d0) H0 eq_refl) as (s' & Hs' & Hr).
    cbn [fire] in Hs'. injection Hs' as <-. exact Hr.
  - destruct (add_dist_measure_rows Max_Measure_Limits view d0) as [Hrows _].
    rewrite Hrows, Hd. reflexivity.
  - destruct (add_dist_measure_rows Max_Measure_Limits view d0) as [_ Hrows].
    now rewrite Hrows.
  - pose proof (add_dist_measure_entry Max_Measure_Limits view d0) as Hn.
    symmetry in Hn. apply with_active_at in Hn.
    destruct Hn as (r' & Hr' & Hact & _). rewrite Hact. injection Hr' as <-.
    unfold entry_add_dist. cbn [set_mode_type _dist_row_list].
    destruct (_ <? _)%nat; cbn; exact Ho.
Qed.

End Events.


(** X6 for a dock constructed over the sample view, the storage of the
    entries holding the analog mode. *)
Lemma constructed_dock_ready_witness :
  dock_ready 4 (sample_view, MeasureDock_ctor 4 ANALOG ANALOG ANALOG sample_view) = true
  /\ dist_rows sample_view (MeasureDock_ctor 4 ANALOG ANALOG ANALOG sample_view)
     = [build_dist_row new_row_info].
Proof.
  destruct (constructed_dock_ready 4 sample_cm_delta sample_cm_time LogicSignal_edges
              ANALOG ANALOG ANALOG sample_view) as (H1 & H2 & _).
  - vm_compute. reflexivity.
  - split; [exact H1 | exact H2].
Defined.
(** ** What the members leave alone *)

Lemma rows_until_unbound_inv (body : cursor_row_info -> option cursor_row_info)
    (rows rows' : list cursor_row_info) :
  rows_until_unbound body rows = Some rows' ->
  Forall2 (fun o o' => o' = o \/ body o = Some o') rows rows'.
Proof.
  revert rows'. induction rows as [|o rest IH]; intros rows' H.
  - injection H as <-. constructor.
  - cbn in H. destruct (start_bt o).
    + destruct (body o) as [o'|] eqn:Eo; cbn [bind] in H; [|discriminate].
      destruct (rows_until_unbound body rest) as [rest'|]; cbn [bind] in H; [|discriminate].
      injection H as <-. constructor; [now right | now apply IH].
    + injection H as <-. clear IH.
      induction (o :: rest) as [|a l IHl]; constructor; [now left | exact IHl].
Qed.

Lemma Forall2_impl {A B : Type} (P Q : A -> B -> Prop) (l : list A) (l' : list B) :
  (forall a b, P a b -> Q a b) -> Forall2 P l l' -> Forall2 Q l l'.
Proof. intros H F. induction F; constructor; auto. Qed.

Lemma checked_ref_cases (view : View) (c : Z) :
  checked_ref view c = c \/ checked_ref view c = -1.
Proof. unfold checked_ref. destruct (is_stale view c); [now right | now left]. Qed.

Lemma only_unbound_refl (o : cursor_row_info) : only_unbound o o.
Proof. unfold only_unbound, refs_kept_or_unset. repeat split; now left. Qed.

Section Frame.

Variable Max_Measure_Limits : nat.
Variable get_cm_delta : View -> Z -> Z -> string.
Variable get_cm_time : View -> Z -> string.
Variable edges : Signal -> Z -> Z -> option (Z * Z).

Lemma update_dist_row_only_unbound (view : View) (o o' : cursor_row_info) :
  update_dist_row get_cm_delta view o = Some o' -> only_unbound o o'.
Proof.
  intros H.
  destruct (update_dist_row_inv get_cm_delta view o o' H)
    as (H1 & H2 & _ & _ & _ & _ & _ & Hb & Hd & Hc).
  unfold only_unbound, refs_kept_or_unset. rewrite H1, H2.
  repeat split; try assumption; apply checked_ref_cases.
Qed.

Lemma update_edge_row_only_unbound (view : View) (o o' : cursor_row_info) :
  update_edge_row edges view o = Some o' -> only_unbound o o'.
Proof.
  intros H.
  destruct (update_edge_row_inv edges view o o' H)
    as (H1 & H2 & _ & _ & _ & _ & _ & Hb & Hd & Hc).
  unfold only_unbound, refs_kept_or_unset. rewrite H1, H2.
  repeat split; try assumption; apply checked_ref_cases.
Qed.

(** X7.  [update_dist] never binds a marker and never touches anything but
    the distance rows of the active mode: row for row, each reference is
    the one before or unset, the channel, the selector and the delete
    button are the same; the edge rows and the cursor panel are unchanged;
    the rows of the other modes are only detached. *)
Theorem update_dist_only_unbinds :
  forall (view : View) (d d' : MeasureDock),
    update_dist get_cm_delta view d = Some d' ->
    Forall2 only_unbound (dist_rows view d) (dist_rows view d')
    /\ edge_rows view d' = edge_rows view d
    /\ _opt_row_list (mode_rows_at d' (active_dex view))
       = _opt_row_list (mode_rows_at d (active_dex view))
    /\ others_detached view d d'.
Proof.
  intros view d d' H. rewrite update_dist_entry in H.
  apply with_active_at in H. destruct H as (r' & Hr' & Hact & Hoth).
  unfold dist_rows, edge_rows. rewrite Hact.
  unfold entry_update_dist, update_dist_rows in Hr'.
  cbn [set_mode_type _dist_row_list] in Hr'.
  destruct (rows_until_unbound _ _) as [rows'|] eqn:E; cbn [bind] in Hr'; [|discriminate].
  injection Hr' as <-. cbn. repeat split; try assumption.
  apply rows_until_unbound_inv in E. revert E. apply Forall2_impl.
  intros o o' [->|Ho]; [apply only_unbound_refl | now apply (update_dist_row_only_unbound view)].
Qed.

(** X8.  The same for [update_edge] and the edge rows. *)
Theorem update_edge_only_unbinds :
  forall (view : View) (d d' : MeasureDock),
    update_edge edges view d = Some d' ->
    Forall2 only_unbound (edge_rows view d) (edge_rows view d')
    /\ dist_rows view d' = dist_rows view d
    /\ _opt_row_list (mode_rows_at d' (active_dex view))
       = _opt_row_list (mode_rows_at d (active_dex view))
    /\ others_detached view d d'.
Proof.
  intros view d d' H. rewrite update_edge_entry in H.
  apply with_active_at in H. destruct H as (r' & Hr' & Hact & Hoth).
  unfold dist_rows, edge_rows. rewrite Hact.
  unfold entry_update_edge, update_edge_rows in Hr'.
  cbn [set_mode_type _edge_row_list] in Hr'.
  destruct (rows_until_unbound _ _) as [rows'|] eqn:E; cbn [bind] in Hr'; [|discriminate].
  injection Hr' as <-. cbn. repeat split; try assumption.
  apply rows_until_unbound_inv in E. revert E. apply Forall2_impl.
  intros o o' [->|Ho]; [apply only_unbound_refl | now apply (update_edge_row_only_unbound view)].
Qed.

(** ** Building a panel twice, adding and deleting a row *)

Lemma build_dist_row_eq (o : cursor_row_info) :
  build_dist_row o
  = mkRow (cursor1 o) (cursor2 o) (box o) (Some mkQToolButton)
          (Some (mkQPushButton (if cursor1 o =? -1 then ""
                                else QString_number (cursor1 o))))
          (Some (mkQPushButton (if cursor2 o =? -1 then ""
                                else QString_number (cursor2 o))))
          (Some (mkQLabel (match r_label o with Some old => lb_text old | None => "" end)))
          (channelIndex o).
Proof.
  unfold build_dist_row. destruct o as [c1 c2 bx db sb eb rl ch]. cbn.
  destruct (c1 =? -1); cbn; destruct (c2 =? -1); cbn; destruct rl; reflexivity.
Qed.

(** The selector [build_edge_pannel] gives a row with channel [ch]. *)
Lemma build_edge_row_eq (s : SigSession) (o : cursor_row_info) :
  build_edge_row s o
  = mkRow (cursor1 o) (cursor2 o)
          (Some (if channelIndex o <? QComboBox_count (create_probe_selector s)
                 then QComboBox_setCurrentIndex (create_probe_selector s) (channelIndex o)
                 else create_probe_selector s))
          (Some mkQToolButton)
          (Some (mkQPushButton (if cursor1 o =? -1 then " "
                                else QString_number (cursor1 o))))
          (Some (mkQPushButton (if cursor2 o =? -1 then " "
                                else QString_number (cursor2 o))))
          (Some (mkQLabel (match r_label o with Some old => lb_text old | None => "" end)))
          (channelIndex o).
Proof.
  unfold build_edge_row. destruct o as [c1 c2 bx db sb eb rl ch].
  cbn -[create_probe_selector QComboBox_count QComboBox_setCurrentIndex].
  destruct (c1 =? -1); cbn -[create_probe_selector QComboBox_count QComboBox_setCurrentIndex];
    destruct (c2 =? -1);
    cbn -[create_probe_selector QComboBox_count QComboBox_setCurrentIndex];
    destruct rl; reflexivity.
Qed.

Lemma build_dist_row_idem (o : cursor_row_info) :
  build_dist_row (build_dist_row o) = build_dist_row o.
Proof. rewrite (build_dist_row_eq (build_dist_row o)), build_dist_row_eq. reflexivity. Qed.

Lemma build_edge_row_idem (s : SigSession) (o : cursor_row_info) :
  build_edge_row s (build_edge_row s o) = build_edge_row s o.
Proof.
  rewrite (build_edge_row_eq s (build_edge_row s o)), build_edge_row_eq. reflexivity.
Qed.

Lemma entry_build_dist_idem (r : row_list_item) :
  entry_build_dist (entry_build_dist r) = entry_build_dist r.
Proof.
  destruct r as [m dl el ol]. unfold entry_build_dist, set_dist_row_list. cbn.
  rewrite map_map. f_equal. apply map_ext, build_dist_row_idem.
Qed.

Lemma entry_build_edge_idem (s : SigSession) (r : row_list_item) :
  entry_build_edge s (entry_build_edge s r) = entry_build_edge s r.
Proof.
  destruct r as [m dl el ol]. unfold entry_build_edge, set_edge_row_list. cbn.
  rewrite map_map. f_equal. apply map_ext, build_edge_row_idem.
Qed.

(** A member without faults run twice. *)
Lemma total_member_twice (view : View) (f g : MeasureDock -> MeasureDock)
    (F G : row_list_item -> row_list_item) (d : MeasureDock) :
  (forall d, Some (f d) = with_active view (fun r => Some (F r)) d) ->
  (forall d, Some (g d) = with_active view (fun r => Some (G r)) d) ->
  (forall r, _mode_type (F r) = _mode_type r) ->
  Some (g (f d)) = with_active view (fun r => Some (G (F r))) d.
Proof.
  intros Hf Hg Hm. rewrite Hg.
  rewrite (with_active_then view (fun r => Some (F r)) _ d (f d)).
  - reflexivity.
  - now apply keeps_mode_total.
  - symmetry. apply Hf.
Qed.

Lemma with_active_ext_active (view : View) (F G : row_list_item -> option row_list_item)
    (d : MeasureDock) :
  F (set_mode_type (mode_rows_at d (active_dex view)) (get_work_mode (session view)))
  = G (set_mode_type (mode_rows_at d (active_dex view)) (get_work_mode (session view))) ->
  with_active view F d = with_active view G d.
Proof.
  intros H. unfold with_active.
  rewrite (surjective_pairing (get_mode_rows (session view) d)).
  rewrite get_mode_rows_snd, get_mode_rows_active. fold (active_dex view).
  now rewrite H.
Qed.

(** X9.  Building a panel a second time changes nothing: the rows keep
    their references, the texts of their buttons and their results. *)
Theorem panel_builds_idempotent :
  forall (view : View) (d : MeasureDock),
    build_dist_pannel view (build_dist_pannel view d) = build_dist_pannel view d
    /\ build_edge_pannel view (build_edge_pannel view d) = build_edge_pannel view d
    /\ build_cursor_pannel get_cm_time view (build_cursor_pannel get_cm_time view d)
       = build_cursor_pannel get_cm_time view d.
Proof.
  intros view d. split; [|split].
  - assert (H : Some (build_dist_pannel view (build_dist_pannel view d))
                = Some (build_dist_pannel view d)); [|now injection H].
    rewrite (total_member_twice view _ _ entry_build_dist entry_build_dist d
               (build_dist_pannel_entry view) (build_dist_pannel_entry view))
      by reflexivity.
    rewrite build_dist_pannel_entry. apply with_active_ext. intros r.
    now rewrite entry_build_dist_idem.
  - assert (H : Some (build_edge_pannel view (build_edge_pannel view d))
                = Some (build_edge_pannel view d)); [|now injection H].
    rewrite (total_member_twice view _ _ (entry_build_edge (session view))
               (entry_build_edge (session view)) d
               (build_edge_pannel_entry view) (build_edge_pannel_entry view))
      by reflexivity.
    rewrite build_edge_pannel_entry. apply with_active_ext. intros r.
    now rewrite entry_build_edge_idem.
  - assert (H : Some (build_cursor_pannel get_cm_time view
                        (build_cursor_pannel get_cm_time view d))
                = Some (build_cursor_pannel get_cm_time view d)); [|now injection H].
    rewrite (total_member_twice view _ _ (entry_build_cursor get_cm_time view)
               (entry_build_cursor get_cm_time view) d
               (build_cursor_pannel_entry get_cm_time view)
               (build_cursor_pannel_entry get_cm_time view))
      by reflexivity.
    rewrite build_cursor_pannel_entry. apply with_active_ext. intros r. reflexivity.
Qed.

Lemma erase_at_last {A : Type} (l : list A) (a : A) :
  erase_at (List.length l) (l ++ [a])%list = l.
Proof. induction l as [|b rest IH]; cbn; [reflexivity | now rewrite IH]. Qed.

Lemma nth_error_last {A : Type} (l : list A) (a : A) :
  nth_error (l ++ [a])%list (List.length l) = Some a.
Proof. induction l as [|b rest IH]; cbn; [reflexivity | exact IH]. Qed.

Lemma map_erase_at {A B : Type} (f : A -> B) (k : nat) (l : list A) :
  map f (erase_at k l) = erase_at k (map f l).
Proof.
  revert k. induction l as [|a rest IH]; intros k; [destruct k; reflexivity|].
  destruct k as [|k]; cbn; [reflexivity | now rewrite IH].
Qed.

Lemma entry_add_then_del_dist (r : row_list_item) :
  (List.length (_dist_row_list r) < Max_Measure_Limits)%nat ->
  entry_del_dist (List.length (_dist_row_list r)) (entry_add_dist Max_Measure_Limits r)
  = entry_build_dist r.
Proof.
  intros H. unfold entry_add_dist. apply Nat.ltb_lt in H. rewrite H.
  destruct r as [m dl el ol]. unfold entry_del_dist, entry_build_dist, set_dist_row_list.
  cbn [_dist_row_list _edge_row_list _opt_row_list _mode_type].
  rewrite map_app. cbn [map].
  replace (List.length dl) with (List.length (map build_dist_row dl))
    by apply length_map.
  rewrite nth_error_last, erase_at_last.
  destruct (build_dist_row_fields new_row_info) as (_ & _ & _ & Hd & _). rewrite Hd.
  rewrite map_map. f_equal. apply map_ext, build_dist_row_idem.
Qed.

Lemma entry_add_then_del_edge (s : SigSession) (r : row_list_item) :
  (List.length (_edge_row_list r) < Max_Measure_Limits)%nat ->
  entry_del_edge (List.length (_edge_row_list r)) s (entry_add_edge Max_Measure_Limits s r)
  = entry_build_edge s r.
Proof.
  intros H. unfold entry_add_edge. apply Nat.ltb_lt in H. rewrite H.
  destruct r as [m dl el ol]. unfold entry_del_edge, entry_build_edge, set_edge_row_list.
  cbn [_dist_row_list _edge_row_list _opt_row_list _mode_type].
  rewrite map_app. cbn [map].
  replace (List.length el) with (List.length (map (build_edge_row s) el))
    by apply length_map.
  rewrite nth_error_last, erase_at_last.
  destruct (build_edge_row_fields s new_row_info) as (_ & _ & _ & Hd & _). rewrite Hd.
  rewrite map_map. f_equal. apply map_ext, build_edge_row_idem.
Qed.

(** X10.  Adding a distance row and deleting it again (the delete button of
    the new, last row) gives the dock a rebuild of the distance panel
    gives: the other rows keep their place, their references and their
    results. *)
Theorem add_then_delete_dist_row :
  forall (view : View) (d : MeasureDock),
    (List.length (dist_rows view d) < Max_Measure_Limits)%nat ->
    del_dist_measure (List.length (dist_rows view d)) view
      (add_dist_measure Max_Measure_Limits view d)
    = build_dist_pannel view d.
Proof.
  intros view d H.
  assert (E : Some (del_dist_measure (List.length (dist_rows view d)) view
                      (add_dist_measure Max_Measure_Limits view d))
              = Some (build_dist_pannel view d)); [|now injection E].
  rewrite (total_member_twice view _ _ (entry_add_dist Max_Measure_Limits)
             (entry_del_dist (List.length (dist_rows view d))) d
             (add_dist_measure_entry Max_Measure_Limits view)
             (del_dist_measure_entry _ view)).
  - rewrite build_dist_pannel_entry. apply with_active_ext_active. f_equal.
    apply (entry_add_then_del_dist
             (set_mode_type (mode_rows_at d (active_dex view))
                            (get_work_mode (session view)))).
    exact H.
  - intros r. unfold entry_add_dist. now destruct (_ <? _)%nat.
Qed.

(** X11.  The same for an edge row. *)
Theorem add_then_delete_edge_row :
  forall (view : View) (d : MeasureDock),
    (List.length (edge_rows view d) < Max_Measure_Limits)%nat ->
    del_edge_measure (List.length (edge_rows view d)) view
      (add_edge_measure Max_Measure_Limits view d)
    = build_edge_pannel view d.
Proof.
  intros view d H.
  assert (E : Some (del_edge_measure (List.length (edge_rows view d)) view
                      (add_edge_measure Max_Measure_Limits view d))
              = Some (build_edge_pannel view d)); [|now injection E].
  rewrite (total_member_twice view _ _
             (entry_add_edge Max_Measure_Limits (session view))
             (fun r => entry_del_edge (List.length (edge_rows view d)) (session view) r) d
             (add_edge_measure_entry Max_Measure_Limits view)
             (del_edge_measure_entry _ view)).
  - rewrite build_edge_pannel_entry. apply with_active_ext_active. f_equal.
    apply (entry_add_then_del_edge (session view)
             (set_mode_type (mode_rows_at d (active_dex view))
                            (get_work_mode (session view)))).
    exact H.
  - intros r. unfold entry_add_edge. now destruct (_ <? _)%nat.
Qed.

(** X12.  Clicking the delete button of the distance row at position [k]
    removes that row and no other: the rows left keep their order, their
    references and channel, and the text of their result; the edge rows
    are not touched. *)
Theorem del_dist_measure_removes_row :
  forall (view : View) (d : MeasureDock) (k : nat) (o : cursor_row_info),
    nth_error (dist_rows view d) k = Some o ->
    is_some (del_bt o) = true ->
    map row_data (dist_rows view (del_dist_measure k view d))
    = erase_at k (map row_data (dist_rows view d))
    /\ map result_text (dist_rows view (del_dist_measure k view d))
       = erase_at k (map (fun o => Some (label_text o)) (dist_rows view d))
    /\ edge_rows view (del_dist_measure k view d) = edge_rows view d.
Proof.
  intros view d k o Hk Hb.
  pose proof (del_dist_measure_entry k view d) as Hn. symmetry in Hn.
  apply with_active_at in Hn. destruct Hn as (r' & Hr' & Hact & _).
  unfold dist_rows, edge_rows in *. rewrite Hact. injection Hr' as <-.
  unfold entry_del_dist. cbn [set_mode_type _dist_row_list].
  rewrite Hk, Hb. cbn [entry_build_dist set_dist_row_list _dist_row_list _edge_row_list].
  split; [|split; [|reflexivity]].
  - rewrite map_row_data_map by apply row_data_build_dist_row. apply map_erase_at.
  - rewrite map_map, <- map_erase_at. apply map_ext. intros a.
    now destruct (build_dist_row_widgets a) as (_ & _ & _ & Ht).
Qed.

(** X13.  The same for the delete button of an edge row. *)
Theorem del_edge_measure_removes_row :
  forall (view : View) (d : MeasureDock) (k : nat) (o : cursor_row_info),
    nth_error (edge_rows view d) k = Some o ->
    is_some (del_bt o) = true ->
    map row_data (edge_rows view (del_edge_measure k view d))
    = erase_at k (map row_data (edge_rows view d))
    /\ map result_text (edge_rows view (del_edge_measure k view d))
       = erase_at k (map (fun o => Some (label_text o)) (edge_rows view d))
    /\ dist_rows view (del_edge_measure k view d) = dist_rows view d.
Proof.
  intros view d k o Hk Hb.
  pose proof (del_edge_measure_entry k view d) as Hn. symmetry in Hn.
  apply with_active_at in Hn. destruct Hn as (r' & Hr' & Hact & _).
  unfold dist_rows, edge_rows in *. rewrite Hact. injection Hr' as <-.
  unfold entry_del_edge. cbn [set_mode_type _edge_row_list].
  rewrite Hk, Hb. cbn [entry_build_edge set_edge_row_list _dist_row_list _edge_row_list].
  split; [|split; [|reflexivity]].
  - rewrite map_row_data_map by apply row_data_build_edge_row. apply map_erase_at.
  - rewrite map_map, <- map_erase_at. apply map_ext. intros a.
    now destruct (build_edge_row_widgets (session view) a) as (_ & _ & _ & Ht).
Qed.

Lemma update_cursor_info_rows_built (view : View) (k : nat) (cursors : list Cursor) :
  update_cursor_info_rows get_cm_time view (Z.of_nat k)
    (build_cursor_rows get_cm_time view k cursors)
  = build_cursor_rows get_cm_time view k cursors.
Proof.
  revert k. induction cursors as [|c rest IH]; intros k; [reflexivity|].
  cbn [build_cursor_rows update_cursor_info_rows info_label opt_del_bt goto_bt opt_cursor].
  f_equal. replace (Z.of_nat k + 1) with (Z.of_nat (S k)) by lia. apply IH.
Qed.

(** X14.  The cursor panel [build_cursor_pannel] builds already shows what
    [update_cursor_info] computes: run right after it, [update_cursor_info]
    returns and changes nothing. *)
Theorem update_cursor_info_after_build :
  forall (view : View) (d : MeasureDock),
    update_cursor_info get_cm_time view (build_cursor_pannel get_cm_time view d)
    = Some (build_cursor_pannel get_cm_time view d).
Proof.
  intros view d. rewrite update_cursor_info_entry.
  rewrite (with_active_then view
             (fun r => Some (entry_build_cursor get_cm_time view r)) _ d
             (build_cursor_pannel get_cm_time view d)).
  - rewrite build_cursor_pannel_entry. apply with_active_ext. intros r. cbn [bind].
    unfold entry_update_cursor_info, entry_build_cursor.
    cbn [set_opt_row_list _opt_row_list].
    rewrite length_build_cursor_rows, Nat.eqb_refl.
    destruct (List.length (_cursorList view) =? 0)%nat; [reflexivity|].
    rewrite (update_cursor_info_rows_built view 0). reflexivity.
  - now apply keeps_mode_total.
  - symmetry. apply build_cursor_pannel_entry.
Qed.

End Frame.

(** X7 on the sample dock after the removal of the first marker: the
    reference to the third marker is unset. *)
Lemma update_dist_only_unbinds_witness :
  exists d',
    update_dist sample_cm_delta two_marker_view dock_before = Some d'
    /\ Forall2 only_unbound (dist_rows two_marker_view dock_before)
                            (dist_rows two_marker_view d').
Proof.
  eexists. split.
  - vm_compute. reflexivity.
  - refine (proj1 (update_dist_only_unbinds sample_cm_delta two_marker_view
                     dock_before _ _)).
    vm_compute. reflexivity.
Defined.

(** X8 on the same dock. *)
Lemma update_edge_only_unbinds_witness :
  exists d',
    update_edge LogicSignal_edges two_marker_view dock_before = Some d'
    /\ Forall2 only_unbound (edge_rows two_marker_view dock_before)
                            (edge_rows two_marker_view d').
Proof.
  eexists. split.
  - vm_compute. reflexivity.
  - refine (proj1 (update_edge_only_unbinds LogicSignal_edges two_marker_view
                     dock_before _ _)).
    vm_compute. reflexivity.
Defined.

(** X10 on the sample dock, three distance rows under a cap of four. *)
Lemma add_then_delete_dist_row_witness :
  del_dist_measure 3 sample_view (add_dist_measure 4 sample_view dock_before)
  = build_dist_pannel sample_view dock_before.
Proof.
  apply (add_then_delete_dist_row 4 sample_view dock_before).
  vm_compute. lia.
Defined.

(** X11 on the sample dock. *)
Lemma add_then_delete_edge_row_witness :
  del_edge_measure 3 sample_view (add_edge_measure 4 sample_view dock_before)
  = build_edge_pannel sample_view dock_before.
Proof.
  apply (add_then_delete_edge_row 4 sample_view dock_before).
  vm_compute. lia.
Defined.

(** X12 on the sample dock: the second distance row deleted. *)
Lemma del_dist_measure_removes_row_witness :
  shown (dist_rows sample_view dock_before)
  = [(1, 2, Some "-3T/-3"); (-1, 2, Some " "); (2, 3, Some "-2T/-2")]
  /\ map row_data (dist_rows sample_view (del_dist_measure 1 sample_view dock_before))
     = [(1, 2, 0); (2, 3, 0)]
  /\ map result_text (dist_rows sample_view (del_dist_measure 1 sample_view dock_before))
     = [Some "-3T/-3"; Some "-2T/-2"].
Proof.
  split; [vm_compute; reflexivity|].
  destruct (del_dist_measure_removes_row sample_view dock_before 1
              (mkRow (-1) 2 None (Some mkQToolButton) (Some (mkQPushButton ""))
                     (Some (mkQPushButton "2")) (Some (mkQLabel " ")) 0))
    as (Hd & Ht & _).
  - vm_compute. reflexivity.
  - reflexivity.
  - split; [rewrite Hd | rewrite Ht]; vm_compute; reflexivity.
Defined.

(** X13 on the sample dock: the first edge row deleted. *)
Lemma del_edge_measure_removes_row_witness :
  map row_data (edge_rows sample_view (del_edge_measure 0 sample_view dock_before))
  = [(-1, -1, 0); (1, 2, 1)]
  /\ map result_text (edge_rows sample_view (del_edge_measure 0 sample_view dock_before))
     = [Some "-/-/-"; Some "1/1/2"].
Proof.
  destruct (del_edge_measure_removes_row sample_view dock_before 0
              (mkRow 1 3 (Some (mkQComboBox [0] 0)) (Some mkQToolButton)
                     (Some (mkQPushButton "1")) (Some (mkQPushButton "3"))
                     (Some (mkQLabel "2/1/3")) 0))
    as (Hd & Ht & _).
  - vm_compute. reflexivity.
  - reflexivity.
  - split; [rewrite Hd | rewrite Ht]; vm_compute; reflexivity.
Defined.
(** ** Binding a marker to a row *)

Lemma nth_error_map_seq {A : Type} (f : nat -> A) (a n i : nat) (x : A) :
  nth_error (map f (seq a n)) i = Some x -> (i < n)%nat /\ x = f (a + i)%nat.
Proof.
  revert a i. induction n as [|n IH]; intros a i H; [destruct i; discriminate|].
  destruct i as [|i]; cbn in H.
  - injection H as <-. split; [lia | f_equal; lia].
  - apply IH in H. destruct H as [Hi ->]. split; [lia | f_equal; lia].
Qed.

(** The dialog button at position [index] shows [index + 1]. *)
Lemma popup_nth (view : View) (index : nat) (bt : QPushButton) :
  nth_error (popup_all_coursors view) index = Some bt ->
  (index < List.length (_cursorList view))%nat
  /\ bt_text bt = QString_number (Z.of_nat index + 1).
Proof.
  unfold popup_all_coursors. intros H. apply nth_error_map_seq in H.
  destruct H as [Hi ->]. split; [exact Hi | reflexivity].
Qed.

Lemma is_stale_bounds (view : View) (c : Z) :
  c <= cursor_count view -> is_stale view c = false.
Proof.
  intros H. unfold is_stale. apply andb_false_iff. right. now apply Z.ltb_ge.
Qed.

Lemma bind_sel_cursor_fields (_sel_btn : sel_button) (sel_cursor_bt : QPushButton)
    (inf : cursor_row_info) :
  is_some (sel_button_of _sel_btn inf) = true ->
  slot_ref _sel_btn (bind_sel_cursor _sel_btn sel_cursor_bt inf)
  = QString_toInt (bt_text sel_cursor_bt)
  /\ button_text (sel_button_of _sel_btn (bind_sel_cursor _sel_btn sel_cursor_bt inf))
     = Some (bt_text sel_cursor_bt)
  /\ other_ref _sel_btn (bind_sel_cursor _sel_btn sel_cursor_bt inf)
     = other_ref _sel_btn inf.
Proof.
  unfold bind_sel_cursor, sel_button_of, slot_ref, other_ref.
  destruct inf as [c1 c2 bx db sb eb rl ch]. cbn.
  destruct (sel_is_end _sel_btn) eqn:E.
  - destruct eb; [|discriminate]. cbn. rewrite ?E. now repeat split.
  - destruct sb; [|discriminate]. cbn. rewrite ?E. now repeat split.
Qed.

Lemma bind_sel_cursor_displayed (_sel_btn : sel_button) (sel_cursor_bt : QPushButton)
    (inf : cursor_row_info) :
  dist_displayed (bind_sel_cursor _sel_btn sel_cursor_bt inf) = dist_displayed inf
  /\ edge_displayed (bind_sel_cursor _sel_btn sel_cursor_bt inf) = edge_displayed inf.
Proof.
  unfold bind_sel_cursor, sel_button_of, edge_displayed, dist_displayed.
  destruct inf as [c1 c2 bx db sb eb rl ch]. cbn.
  destruct (sel_is_end _sel_btn).
  - destruct eb; now split.
  - destruct sb; now split.
Qed.

Lemma displayed_sel_button (_sel_btn : sel_button) (inf : cursor_row_info) :
  dist_displayed inf = true -> is_some (sel_button_of _sel_btn inf) = true.
Proof.
  unfold dist_displayed, sel_button_of. rewrite !andb_true_iff.
  intros [[Hs He] _]. now destruct (sel_is_end _sel_btn).
Qed.

Lemma all_rows_nth (p : cursor_row_info -> bool) (rows : list cursor_row_info)
    (k : nat) (o : cursor_row_info) :
  all_rows p rows = true -> nth_error rows k = Some o -> p o = true.
Proof.
  intros H Hk. apply (proj1 (all_rows_forall p rows) H). now apply nth_error_In in Hk.
Qed.

Section Binding.

Variable get_cm_delta : View -> Z -> Z -> string.
Variable edges : Signal -> Z -> Z -> option (Z * Z).

(** What a pass leaves in the slot [_sel_btn] points to and in the other
    slot of the row. *)
Lemma update_dist_row_slots (_sel_btn : sel_button) (view : View)
    (o o' : cursor_row_info) :
  update_dist_row get_cm_delta view o = Some o' ->
  slot_ref _sel_btn o' = checked_ref view (slot_ref _sel_btn o)
  /\ button_text (sel_button_of _sel_btn o')
     = checked_text view (slot_ref _sel_btn o) (sel_button_of _sel_btn o)
  /\ other_ref _sel_btn o' = checked_ref view (other_ref _sel_btn o).
Proof.
  intros H. destruct (update_dist_row_inv get_cm_delta view o o' H)
    as (H1 & H2 & H3 & H4 & _).
  unfold slot_ref, other_ref, sel_button_of. now destruct (sel_is_end _sel_btn).
Qed.

Lemma update_edge_row_slots (_sel_btn : sel_button) (view : View)
    (o o' : cursor_row_info) :
  update_edge_row edges view o = Some o' ->
  slot_ref _sel_btn o' = checked_ref view (slot_ref _sel_btn o)
  /\ button_text (sel_button_of _sel_btn o')
     = checked_text view (slot_ref _sel_btn o) (sel_button_of _sel_btn o)
  /\ other_ref _sel_btn o' = checked_ref view (other_ref _sel_btn o).
Proof.
  intros H. destruct (update_edge_row_inv edges view o o' H)
    as (H1 & H2 & H3 & H4 & _).
  unfold slot_ref, other_ref, sel_button_of. now destruct (sel_is_end _sel_btn).
Qed.

(** X15.  Choosing the dialog button at position [index] for the start or
    end button [_sel_btn] of a displayed row binds that slot to the display
    order [index + 1]: the member returns, the reference of the slot is
    [index + 1], the button shows it, and the other reference of the row is
    what the stale check leaves of it. *)
Theorem set_sel_cursor_binds_marker :
  forall (view : View) (d : MeasureDock) (_sel_btn : sel_button)
         (sel_cursor_bt : QPushButton) (index : nat) (inf : cursor_row_info),
    cursor_count view < 2 ^ 31 ->
    all_rows dist_displayed (dist_rows view d) = true ->
    all_rows edge_displayed (edge_rows view d) = true ->
    nth_error (sel_rows view d _sel_btn) (sel_row _sel_btn) = Some inf ->
    nth_error (popup_all_coursors view) index = Some sel_cursor_bt ->
    exists d' inf',
      set_sel_cursor get_cm_delta edges _sel_btn sel_cursor_bt view d = Some d'
      /\ nth_error (sel_rows view d' _sel_btn) (sel_row _sel_btn) = Some inf'
      /\ slot_ref _sel_btn inf' = Z.of_nat index + 1
      /\ button_text (sel_button_of _sel_btn inf')
         = Some (QString_number (Z.of_nat index + 1))
      /\ other_ref _sel_btn inf' = checked_ref view (other_ref _sel_btn inf).
Proof.
  intros view d _sel_btn sel_cursor_bt index inf Hc Hdd Hed Hk Hbt.
  apply popup_nth in Hbt. destruct Hbt as [Hi Htext].
  assert (Hv : QString_toInt (bt_text sel_cursor_bt) = Z.of_nat index + 1).
  { rewrite Htext. apply QString_toInt_number. unfold cursor_count in Hc. lia. }
  assert (Hfresh : is_stale view (Z.of_nat index + 1) = false).
  { apply is_stale_bounds. unfold cursor_count. lia. }
  assert (Hdisp : dist_displayed inf = true).
  { unfold sel_rows in Hk. destruct (sel_in_edge_row _sel_btn).
    - pose proof (all_rows_nth _ _ _ _ Hed Hk) as H. unfold edge_displayed in H.
      now apply andb_true_iff in H.
    - exact (all_rows_nth _ _ _ _ Hdd Hk). }
  pose proof (displayed_sel_button _sel_btn inf Hdisp) as Hbtn.
  destruct (bind_sel_cursor_fields _sel_btn sel_cursor_bt inf Hbtn) as (Fs & Ft & Fo).
  rewrite set_sel_cursor_steps.
  (* the binding *)
  assert (Hbind : entry_bind_sel _sel_btn sel_cursor_bt
                    (set_mode_type (mode_rows_at d (active_dex view))
                                   (get_work_mode (session view)))
                  = Some (if sel_in_edge_row _sel_btn
                          then set_edge_row_list
                                 (set_mode_type (mode_rows_at d (active_dex view))
                                                (get_work_mode (session view)))
                                 (map_at (sel_row _sel_btn)
                                    (bind_sel_cursor _sel_btn sel_cursor_bt)
                                    (edge_rows view d))
                          else set_dist_row_list
                                 (set_mode_type (mode_rows_at d (active_dex view))
                                                (get_work_mode (session view)))
                                 (map_at (sel_row _sel_btn)
                                    (bind_sel_cursor _sel_btn sel_cursor_bt)
                                    (dist_rows view d)))).
  { unfold entry_bind_sel, sel_rows, edge_rows, dist_rows in *.
    cbn [set_mode_type _edge_row_list _dist_row_list].
    destruct (sel_in_edge_row _sel_btn); rewrite Hk; cbn [bind];
      (destruct (sel_button_of _sel_btn inf); [reflexivity | discriminate]). }
  destruct (with_active_returns view _ d _ Hbind) as [d1 Hd1].
  destruct (with_active_at view _ d d1 Hd1) as (r1 & Hr1 & Hact & _).
  rewrite Hbind in Hr1. injection Hr1 as Hr1. rewrite Hd1. cbn [bind].
  unfold sel_rows in *. destruct (sel_in_edge_row _sel_btn).
  - (* an edge row *)
    assert (Hrows : edge_rows view d1
                    = map_at (sel_row _sel_btn) (bind_sel_cursor _sel_btn sel_cursor_bt)
                             (edge_rows view d)).
    { unfold edge_rows at 1. rewrite Hact, <- Hr1. reflexivity. }
    destruct (update_edge_displayed edges view d1) as (d' & Hd' & _ & _ & Hnth).
    { rewrite Hrows. apply all_rows_map_at; [|exact Hed]. intros o _ Ho.
      now rewrite (proj2 (bind_sel_cursor_displayed _sel_btn sel_cursor_bt o)). }
    destruct (Hnth (sel_row _sel_btn) (bind_sel_cursor _sel_btn sel_cursor_bt inf))
      as (inf' & Hk' & Hpass).
    { rewrite Hrows, nth_error_map_at, Nat.eqb_refl, Hk. reflexivity. }
    exists d', inf'. split; [exact Hd'|]. split; [exact Hk'|].
    destruct (update_edge_row_slots _sel_btn view _ _ Hpass) as (S1 & S2 & S3).
    rewrite S1, S2, S3, Fs, Fo, Hv. unfold checked_ref, checked_text.
    rewrite Hfresh, Ft, Htext. now repeat split.
  - (* a distance row *)
    assert (Hrows : dist_rows view d1
                    = map_at (sel_row _sel_btn) (bind_sel_cursor _sel_btn sel_cursor_bt)
                             (dist_rows view d)).
    { unfold dist_rows at 1. rewrite Hact, <- Hr1. reflexivity. }
    destruct (update_dist_displayed get_cm_delta view d1) as (d' & Hd' & _ & _ & Hnth).
    { rewrite Hrows. apply all_rows_map_at; [|exact Hdd]. intros o _ Ho.
      now rewrite (proj1 (bind_sel_cursor_displayed _sel_btn sel_cursor_bt o)). }
    destruct (Hnth (sel_row _sel_btn) (bind_sel_cursor _sel_btn sel_cursor_bt inf))
      as (inf' & Hk' & Hpass).
    { rewrite Hrows, nth_error_map_at, Nat.eqb_refl, Hk. reflexivity. }
    exists d', inf'. split; [exact Hd'|]. split; [exact Hk'|].
    destruct (update_dist_row_slots _sel_btn view _ _ Hpass) as (S1 & S2 & S3).
    rewrite S1, S2, S3, Fs, Fo, Hv. unfold checked_ref, checked_text.
    rewrite Hfresh, Ft, Htext. now repeat split.
Qed.

End Binding.

(** X15 on the sample dock: the start button of the second distance row,
    unset so far, bound to the third marker. *)
Lemma set_sel_cursor_binds_marker_witness :
  exists d' inf',
    set_sel_cursor sample_cm_delta LogicSignal_edges (mkSel false 1 false)
      (mkQPushButton "3") sample_view dock_before = Some d'
    /\ nth_error (dist_rows sample_view d') 1 = Some inf'
    /\ cursor1 inf' = 3
    /\ button_text (start_bt inf') = Some "3".
Proof.
  destruct (set_sel_cursor_binds_marker sample_cm_delta LogicSignal_edges
              sample_view dock_before (mkSel false 1 false) (mkQPushButton "3") 2
              (mkRow (-1) 2 None (Some mkQToolButton) (Some (mkQPushButton ""))
                     (Some (mkQPushButton "2")) (Some (mkQLabel " ")) 0))
    as (d' & inf' & Hd' & Hk & Hs & Ht & _).
  - vm_compute. reflexivity.
  - vm_compute. reflexivity.
  - vm_compute. reflexivity.
  - vm_compute. reflexivity.
  - vm_compute. reflexivity.
  - exists d', inf'. split; [exact Hd'|]. split; [exact Hk|]. split; [exact Hs | exact Ht].
Defined.

(** ** The channel selector *)

Lemma probe_items_eq (sigs : list Signal) (b : QComboBox) :
  probe_items sigs b
  = mkQComboBox
      (cb_items b
       ++ map get_index
            (filter (fun s => channel_type_eqb (signal_type s) SR_CHANNEL_LOGIC
                              && enabled s) sigs))%list
      (match map get_index
               (filter (fun s => channel_type_eqb (signal_type s) SR_CHANNEL_LOGIC
                                 && enabled s) sigs) with
       | [] => cb_current b
       | _ :: _ => if cb_current b =? -1 then 0 else cb_current b
       end).
Proof.
  revert b. induction sigs as [|s rest IH]; intros b.
  - cbn. rewrite app_nil_r. now destruct b.
  - cbn [probe_items filter].
    destruct (channel_type_eqb (signal_type s) SR_CHANNEL_LOGIC && enabled s).
    + rewrite IH. unfold QComboBox_addItem. cbn [cb_items cb_current map].
      rewrite <- app_assoc. cbn [app]. f_equal.
      destruct (map get_index (filter _ rest)); [reflexivity|].
      destruct (cb_current b =? -1) eqn:E; [reflexivity|]. now rewrite E.
    + apply IH.
Qed.

(** X16.  A new channel selector lists the indices of the enabled logic
    channels of the session, in the order of the session and nothing else,
    with the first of them selected (nothing when there is none). *)
Theorem create_probe_selector_lists_enabled_logic :
  forall (sess : SigSession),
    cb_items (create_probe_selector sess) = enabled_logic_channels sess
    /\ cb_current (create_probe_selector sess)
       = match enabled_logic_channels sess with
         | [] => -1
         | _ :: _ => 0
         end.
Proof.
  intros sess. unfold create_probe_selector, update_probe_selector.
  rewrite probe_items_eq. unfold enabled_logic_channels. cbn.
  split; reflexivity.
Qed.

Lemma create_probe_selector_eq (sess : SigSession) :
  create_probe_selector sess
  = mkQComboBox (enabled_logic_channels sess)
                (match enabled_logic_channels sess with [] => -1 | _ :: _ => 0 end).
Proof.
  unfold create_probe_selector, update_probe_selector.
  rewrite probe_items_eq. unfold enabled_logic_channels. cbn. reflexivity.
Qed.

(** X17.  A rebuild of the edge panel keeps the channel a row has selected:
    for a row whose selector lists the enabled logic channels of the
    session and whose [channelIndex] is the valid current index of that
    selector, the rebuilt selector is the selector the row had. *)
Theorem rebuilt_selector_keeps_selection :
  forall (sess : SigSession) (o : cursor_row_info) (b : QComboBox),
    box o = Some b ->
    cb_items b = enabled_logic_channels sess ->
    channelIndex o = cb_current b ->
    0 <= cb_current b < QComboBox_count b ->
    box (build_edge_row sess o) = Some b
    /\ channelIndex (build_edge_row sess o) = cb_current b.
Proof.
  intros sess o b Hb Hitems Hch Hrange.
  rewrite build_edge_row_eq. cbn [box channelIndex]. split; [|exact Hch].
  rewrite create_probe_selector_eq. rewrite Hch. rewrite <- Hitems.
  destruct b as [items cur]. unfold QComboBox_count, QComboBox_setCurrentIndex in *.
  cbn [cb_items cb_current] in *.
  assert (E1 : (cur <? Z.of_nat (List.length items)) = true) by (apply Z.ltb_lt; lia).
  assert (E2 : (0 <=? cur) = true) by (apply Z.leb_le; lia).
  rewrite E1, E2. unfold QComboBox_count. cbn [cb_items andb]. rewrite E1. reflexivity.
Qed.

(** X17 on the first edge row of the sample dock. *)
Lemma rebuilt_selector_keeps_selection_witness :
  box (build_edge_row sample_session
         (mkRow 1 3 (Some (mkQComboBox [0] 0)) (Some mkQToolButton)
                (Some (mkQPushButton "1")) (Some (mkQPushButton "3"))
                (Some (mkQLabel "2/1/3")) 0))
  = Some (mkQComboBox [0] 0).
Proof.
  refine (proj1 (rebuilt_selector_keeps_selection sample_session
                   (mkRow 1 3 (Some (mkQComboBox [0] 0)) (Some mkQToolButton)
                          (Some (mkQPushButton "1")) (Some (mkQPushButton "3"))
                          (Some (mkQLabel "2/1/3")) 0)
                   (mkQComboBox [0] 0) _ _ _ _)).
  - reflexivity.
  - vm_compute. reflexivity.
  - reflexivity.
  - vm_compute. split; [discriminate | reflexivity].
Defined.
(** ** Markers that move, markers that go *)

Lemma Forall2_map_eq {A B : Type} (f : A -> B) (l l' : list A) :
  Forall2 (fun a a' => f a' = f a) l l' -> map f l' = map f l.
Proof. intros H. induction H; cbn; [reflexivity | now f_equal]. Qed.

Lemma Forall2_all_rows (p : cursor_row_info -> bool)
    (R : cursor_row_info -> cursor_row_info -> Prop)
    (Q : cursor_row_info -> cursor_row_info -> Prop)
    (rows rows' : list cursor_row_info) :
  (forall o o', p o = true -> R o o' -> Q o o') ->
  all_rows p rows = true -> Forall2 R rows rows' -> Forall2 Q rows rows'.
Proof.
  intros H Hp F. induction F as [|o o' l l' Ho F IH]; constructor.
  - cbn in Hp. apply andb_true_iff in Hp. now apply H.
  - cbn in Hp. apply andb_true_iff in Hp. now apply IH.
Qed.

Section Markers.

Variable Max_Measure_Limits : nat.
Variable get_cm_delta : View -> Z -> Z -> string.
Variable get_cm_time : View -> Z -> string.
Variable edges : Signal -> Z -> Z -> option (Z * Z).

Lemma update_dist_row_ready_data (view view' : View) (o o' : cursor_row_info) :
  cursor_count view' = cursor_count view ->
  dist_row_ready view o = true ->
  o' = o \/ update_dist_row get_cm_delta view' o = Some o' ->
  row_data o' = row_data o.
Proof.
  intros Hc Hr [->|H]; [reflexivity|].
  apply dist_row_ready_parts in Hr. destruct Hr as (_ & _ & H1 & H2).
  rewrite <- (ref_in_range_same_count view view') in H1, H2 by exact Hc.
  destruct (update_dist_row_inv get_cm_delta view' o o' H)
    as (E1 & E2 & _ & _ & _ & _ & _ & _ & _ & E3).
  unfold row_data. rewrite E1, E2, E3. unfold checked_ref.
  now rewrite (ref_in_range_fresh view' _ H1), (ref_in_range_fresh view' _ H2).
Qed.

(** X18.  Moving a marker never unbinds a row: when the list keeps its
    length, [cursor_moving] returns, every distance row keeps its two
    references and its channel, and the edge rows are not recomputed. *)
Theorem cursor_moving_keeps_bindings :
  forall (view : View) (d : MeasureDock) (cursors : list Cursor) (cursors_shown : bool),
    dock_ready Max_Measure_Limits (view, d) = true ->
    List.length cursors = List.length (_cursorList view) ->
    exists d',
      cursor_moving get_cm_delta get_cm_time cursors_shown (set_cursorList view cursors) d
      = Some d'
      /\ map row_data (dist_rows view d') = map row_data (dist_rows view d)
      /\ edge_rows view d' = edge_rows view d.
Proof.
  intros view d cursors cursors_shown H Hlen.
  set (view' := set_cursorList view cursors).
  assert (Hcount : cursor_count view' = cursor_count view).
  { apply cursor_count_same_length. exact Hlen. }
  apply dock_ready_parts in H. destruct H as (_ & Hr & _).
  pose proof (proj1 (rows_ready_parts _ _) Hr) as (Hd & He & Hb & Hl).
  rewrite cursor_moving_entry.
  set (r0 := set_mode_type (mode_rows_at d (active_dex view'))
                           (get_work_mode (session view'))).
  assert (H1 : exists r1,
             (if cursors_shown then entry_update_cursor_info get_cm_time view' r0
              else Some r0) = Some r1
             /\ _dist_row_list r1 = _dist_row_list r0
             /\ _edge_row_list r1 = _edge_row_list r0).
  { destruct cursors_shown.
    - destruct (entry_update_cursor_info_ready get_cm_time view' r0)
        as (r1 & Hr1 & Hd1 & He1 & _); [exact Hb | | eauto].
      unfold view'. cbn [_cursorList set_cursorList]. rewrite Hlen. exact Hl.
    - exists r0. now repeat split. }
  destruct H1 as (r1 & Hr1 & Hd1 & He1).
  destruct (entry_update_dist_shown get_cm_delta view' r1)
    as (r2 & Hr2 & _ & _ & He2 & _).
  { rewrite Hd1. revert Hd. apply all_rows_impl, dist_row_ready_shown. }
  assert (HF : entry_cursor_moving get_cm_delta get_cm_time cursors_shown view' r0
               = Some r2).
  { unfold entry_cursor_moving. rewrite Hr1. exact Hr2. }
  destruct (with_active_returns view' _ d r2 HF) as [d' Hd'].
  exists d'. split; [exact Hd'|].
  destruct (with_active_at view' _ d d' Hd') as (r' & Hr' & Hact & _).
  fold r0 in Hr'. rewrite HF in Hr'. injection Hr' as <-.
  unfold dist_rows, edge_rows. change (active_dex view) with (active_dex view').
  rewrite Hact, He2, He1. split; [|reflexivity].
  unfold entry_update_dist, update_dist_rows in Hr2.
  destruct (rows_until_unbound _ _) as [rows'|] eqn:E; cbn [bind] in Hr2; [|discriminate].
  injection Hr2 as <-. cbn [set_dist_row_list _dist_row_list].
  apply rows_until_unbound_inv in E. rewrite Hd1 in E.
  apply Forall2_map_eq.
  apply (Forall2_all_rows (dist_row_ready view) _ _ _ _
           (fun o o' Ho HR => update_dist_row_ready_data view view' o o' Hcount Ho HR)
           Hd E).
Qed.

(** X19.  When the last marker is gone no row refers to a marker any more:
    [cursor_update] under an empty cursor list returns, leaves both
    references of every distance and edge row of the active mode unset, and
    the cursor panel empty. *)
Theorem no_marker_no_reference :
  forall (view : View) (d : MeasureDock),
    dock_ready Max_Measure_Limits (view, d) = true ->
    exists d',
      cursor_update get_cm_delta get_cm_time edges (set_cursorList view []) d = Some d'
      /\ (forall o, In o (dist_rows view d') \/ In o (edge_rows view d') ->
            cursor1 o = -1 /\ cursor2 o = -1)
      /\ _opt_row_list (mode_rows_at d' (active_dex view)) = [].
Proof.
  intros view d H.
  destruct (fire_ready Max_Measure_Limits get_cm_delta get_cm_time edges
              (EvCursorsChanged []) (view, d) H eq_refl) as (s' & Hs' & Hr').
  cbn [fire] in Hs'.
  destruct (cursor_update _ _ _ _ d) as [d'|]; cbn [bind] in Hs'; [|discriminate].
  injection Hs' as <-. exists d'. split; [reflexivity|].
  apply dock_ready_parts in Hr'. destruct Hr' as (_ & Hr' & _).
  change (active_dex (set_cursorList view [])) with (active_dex view) in Hr'.
  apply rows_ready_parts in Hr'. destruct Hr' as (Hd & He & _ & Hl).
  assert (Hnone : forall c, ref_in_range (set_cursorList view []) c = true -> c = -1).
  { intros c Hc. unfold ref_in_range, cursor_count in Hc. cbn in Hc.
    apply orb_true_iff in Hc. destruct Hc as [Hc|Hc]; [now apply Z.eqb_eq in Hc|].
    apply andb_true_iff in Hc. destruct Hc as [H1 H2].
    apply Z.leb_le in H1. apply Z.leb_le in H2. lia. }
  split.
  - intros o [Ho|Ho].
    + apply (proj1 (all_rows_forall _ _) Hd) in Ho.
      apply dist_row_ready_parts in Ho. destruct Ho as (_ & _ & H1 & H2).
      split; now apply Hnone.
    + apply (proj1 (all_rows_forall _ _) He) in Ho.
      apply edge_row_ready_parts in Ho. destruct Ho as (_ & _ & H1 & H2).
      split; now apply Hnone.
  - cbn [_cursorList set_cursorList List.length] in Hl.
    rewrite orb_diag in Hl. apply Nat.eqb_eq in Hl.
    now destruct (_opt_row_list _).
Qed.

(** ** The signal an edge row counts on *)

(** X20.  The counts an edge row shows are those of the first signal, in
    the order of the session, that is an enabled logic channel with the
    index the selector shows and whose scan succeeds; signals after it are
    not looked at, and without such a signal the row gets no counts. *)
Theorem edge_scan_first_match :
  forall (view : View) (o : cursor_row_info) (b : QComboBox) (sigs : list Signal),
    box o = Some b ->
    scan_signals edges view o sigs
    = Some
        (match find (gives_counts edges b (get_cursor_samples view (cursor2 o - 1))
                                          (get_cursor_samples view (cursor1 o - 1))) sigs with
         | Some s =>
             match edges s (get_cursor_samples view (cursor2 o - 1))
                           (get_cursor_samples view (cursor1 o - 1)) with
             | Some (rising_edges, falling_edges) =>
                 Some (edge_text rising_edges falling_edges)
             | None => None
             end
         | None => None
         end).
Proof.
  intros view o b sigs Hb. induction sigs as [|s rest IH]; [reflexivity|].
  cbn [scan_signals find]. unfold gives_counts at 1. rewrite Hb. cbn [bind].
  destruct (channel_type_eqb (signal_type s) SR_CHANNEL_LOGIC && enabled s);
    cbn [andb]; [|exact IH].
  destruct (get_index s =? QComboBox_currentText_toInt b); cbn [andb]; [|exact IH].
  destruct (edges s (get_cursor_samples view (cursor2 o - 1))
                     (get_cursor_samples view (cursor1 o - 1))) as [[r f]|] eqn:E;
    cbn [is_some]; [now rewrite E | exact IH].
Qed.

End Markers.

(** X18 on the sample dock: the three markers moved to samples 2, 3 and 5. *)
Lemma cursor_moving_keeps_bindings_witness :
  exists d',
    cursor_moving sample_cm_delta sample_cm_time true
      (set_cursorList sample_view [cursor_at 1 2; cursor_at 2 3; cursor_at 3 5]) dock_before
    = Some d'
    /\ map row_data (dist_rows sample_view d') = [(1, 2, 0); (-1, 2, 0); (2, 3, 0)].
Proof.
  destruct (cursor_moving_keeps_bindings 4 sample_cm_delta sample_cm_time
              sample_view dock_before [cursor_at 1 2; cursor_at 2 3; cursor_at 3 5] true)
    as (d' & Hd' & Hdata & _).
  - vm_compute. reflexivity.
  - reflexivity.
  - exists d'. split; [exact Hd'|]. rewrite Hdata. vm_compute. reflexivity.
Defined.

(** X19 on the sample dock. *)
Lemma no_marker_no_reference_witness :
  exists d',
    cursor_update sample_cm_delta sample_cm_time LogicSignal_edges
      (set_cursorList sample_view []) dock_before = Some d'
    /\ _opt_row_list (mode_rows_at d' (active_dex sample_view)) = [].
Proof.
  destruct (no_marker_no_reference 4 sample_cm_delta sample_cm_time LogicSignal_edges
              sample_view dock_before) as (d' & Hd' & _ & Ho).
  - vm_compute. reflexivity.
  - exists d'. split; [exact Hd' | exact Ho].
Defined.

(** X20 on the first edge row of the sample dock: the counts are those of
    channel 0, the first signal of the session. *)
Lemma edge_scan_first_match_witness :
  scan_signals LogicSignal_edges sample_view
    (mkRow 1 3 (Some (mkQComboBox [0] 0)) (Some mkQToolButton)
           (Some (mkQPushButton "1")) (Some (mkQPushButton "3"))
           (Some (mkQLabel "2/1/3")) 0) sample_signals
  = Some (Some "2/1/3").
Proof.
  rewrite (edge_scan_first_match LogicSignal_edges sample_view
             (mkRow 1 3 (Some (mkQComboBox [0] 0)) (Some mkQToolButton)
                    (Some (mkQPushButton "1")) (Some (mkQPushButton "3"))
                    (Some (mkQLabel "2/1/3")) 0)
             (mkQComboBox [0] 0) sample_signals eq_refl).
  vm_compute. reflexivity.
Defined.
(** ** [reload] *)




(** *** Whole cursor panel rows *)

Lemma opt_row_bound_whole (row : cursor_opt_info) :
  opt_row_bound row = true -> opt_row_whole row = true.
Proof.
  unfold opt_row_bound, opt_row_whole, delete_opt_row.
  destruct (opt_del_bt row), (goto_bt row), (info_label row); cbn; congruence.
Qed.

Lemma opt_rows_bound_whole (rows : list cursor_opt_info) :
  forallb opt_row_bound rows = true -> forallb opt_row_whole rows = true.
Proof.
  induction rows as [|row rest IH]; [reflexivity|]. cbn. intros H.
  apply andb_true_iff in H. destruct H as [Hrow Hrest].
  now rewrite (opt_row_bound_whole row Hrow), IH.
Qed.

Lemma cursor_panel_whole_parts (d : MeasureDock) :
  cursor_panel_whole d = true <->
  forall i, forallb opt_row_whole (_opt_row_list (mode_rows_at d i)) = true.
Proof.
  unfold cursor_panel_whole. rewrite !andb_true_iff. split.
  - intros [[H0 H1] H2] i. destruct i; assumption.
  - intros H. repeat split; [apply (H Dex0) | apply (H Dex1) | apply (H Dex2)].
Qed.

(** After a member has run, the cursor panel is whole when the rows of the
    active mode are. *)
Lemma cursor_panel_whole_after (view : View) (d d' : MeasureDock) :
  others_detached view d d' ->
  forallb opt_row_bound (_opt_row_list (mode_rows_at d' (active_dex view))) = true ->
  cursor_panel_whole d' = true.
Proof.
  intros Ho Ha. apply cursor_panel_whole_parts. intros i.
  destruct (mode_dex_eq_dec i (active_dex view)) as [->|Hne].
  - now apply opt_rows_bound_whole.
  - rewrite (Ho i Hne). reflexivity.
Qed.

(** *** The rows [reload] leaves *)




Section ReloadFacts.

Variable get_cm_delta : View -> Z -> Z -> string.
Variable get_cm_time : View -> Z -> string.
Variable edges : Signal -> Z -> Z -> option (Z * Z).









End ReloadFacts.


(** ** A marker without a position *)

Section CursorLabelEdge.

Variable index2pixel : View -> Z -> bool -> Z.
Variable LabelPadding : QSize.

Lemma double_of_Z_0 : double_of_Z 0 = S754_zero false.
Proof. reflexivity. Qed.

(** X22.  With a sample rate of 0 the marker on sample 0 has no pixel
    offset ([0 / (0 * scale)] is not a number): both comparisons of
    [get_label_rect] fail and the label is reported visible, wherever the
    viewport is and whatever the scale. *)
Theorem get_label_rect_visible_without_sample_rate :
  forall (view : View) (c : Cursor) (rect : QRect) (has_hoff : bool),
    cur_snap_samplerate (session view) = 0 ->
    _index c = 0 ->
    is_nan (cur_offset_of view c) = true
    /\ snd (get_label_rect index2pixel LabelPadding view c rect has_hoff) = true.
Proof.
  intros view c rect has_hoff Hrate Hindex.
  assert (Hnan : cur_offset_of view c = S754_nan).
  { unfold cur_offset_of. rewrite Hrate, Hindex, double_of_Z_0.
    unfold ddiv, dmul. destruct (_scale view) as [s| s| |s m e]; reflexivity. }
  split; [now rewrite Hnan|].
  unfold get_label_rect. rewrite Hnan. unfold dlt, SFltb. cbn [SFcompare].
  destruct (double_of_Z (_x_offset view));
    destruct (double_of_Z (_x_offset view + view_width view)); reflexivity.
Qed.

End CursorLabelEdge.

(** X22 on a view without a sample rate, the viewport far from column 0. *)
Lemma get_label_rect_visible_without_sample_rate_witness :
  snd (get_label_rect sample_index2pixel sample_LabelPadding
         (mkView (session idle_view) scale_1us 100000 800 (_cursorList idle_view))
         (cursor_at 1 0) (mkQRect 0 0 800 30) true) = true.
Proof.
  refine (proj2 (get_label_rect_visible_without_sample_rate
                   sample_index2pixel sample_LabelPadding
                   (mkView (session idle_view) scale_1us 100000 800 (_cursorList idle_view))
                   (cursor_at 1 0) (mkQRect 0 0 800 30) true _ _)).
  - reflexivity.
  - reflexivity.
Defined.

(** ** Picking a channel *)

Lemma pick_item_displayed (item : Z) (o : cursor_row_info) :
  edge_displayed (pick_item item o) = edge_displayed o.
Proof.
  unfold pick_item, edge_displayed, dist_displayed.
  destruct o as [c1 c2 bx db sb eb rl ch]. cbn. now destruct bx.
Qed.

Lemma take_channel_index_displayed (o : cursor_row_info) :
  edge_displayed (take_channel_index o) = edge_displayed o.
Proof.
  unfold take_channel_index, edge_displayed, dist_displayed.
  destruct o as [c1 c2 bx db sb eb rl ch]. cbn. now destruct bx.
Qed.

Section Picking.

Variable edges : Signal -> Z -> Z -> option (Z * Z).

Lemma edge_result_ext (view : View) (o o' : cursor_row_info) :
  box o' = box o -> cursor1 o' = cursor1 o -> cursor2 o' = cursor2 o ->
  edge_result edges view o' = edge_result edges view o.
Proof.
  intros Hb H1 H2. unfold edge_result.
  now rewrite (scan_signals_ext edges view o o'), H1, H2.
Qed.

(** X23.  Picking the item at position [item] in the channel selector of
    the displayed edge row at position [k] makes the row follow its
    selector: the slot returns, the row keeps the selector with that item
    current, its [channelIndex] is the current index of the selector, and
    its result is recomputed for the channel now shown; the distance rows
    are not touched. *)
Theorem pick_channel_sets_channel :
  forall (view : View) (d : MeasureDock) (k : nat) (item : Z)
         (o : cursor_row_info) (b : QComboBox),
    all_rows edge_displayed (edge_rows view d) = true ->
    nth_error (edge_rows view d) k = Some o ->
    box o = Some b ->
    exists d' o',
      pick_channel edges k item view d = Some d'
      /\ nth_error (edge_rows view d') k = Some o'
      /\ box o' = Some (QComboBox_setCurrentIndex b item)
      /\ channelIndex o' = cb_current (QComboBox_setCurrentIndex b item)
      /\ result_text o' = Some (edge_result edges view (pick_item item o))
      /\ dist_rows view d' = dist_rows view d.
Proof.
  intros view d k item o b Hall Hk Hb.
  rewrite pick_channel_entry.
  set (r0 := set_mode_type (mode_rows_at d (active_dex view))
                           (get_work_mode (session view))).
  set (rows2 := map_at k take_channel_index
                  (map_at k (pick_item item) (_edge_row_list r0))).
  destruct (rows_until_unbound_all (update_edge_row edges view) edge_displayed rows2)
    as (rows' & Hloop & _ & Hnth).
  { intros a Ha. split.
    - unfold edge_displayed, dist_displayed in Ha.
      destruct (start_bt a); [reflexivity | discriminate].
    - destruct (update_edge_row_displayed edges view a Ha) as (a' & H & _). eauto. }
  { unfold rows2. apply all_rows_map_at.
    { intros a _ Ha. now rewrite take_channel_index_displayed. }
    apply all_rows_map_at; [|exact Hall].
    intros a _ Ha. now rewrite pick_item_displayed. }
  assert (HF : entry_pick_channel edges k item view r0
               = Some (set_edge_row_list r0 rows')).
  { unfold entry_pick_channel, entry_channel_selected, entry_take_channel,
      entry_update_edge, update_edge_rows. cbn [negb].
    destruct r0 as [m dl el ol]. cbn in *. fold rows2. now rewrite Hloop. }
  destruct (with_active_returns view _ d _ HF) as [d' Hd'].
  destruct (with_active_at view _ d d' Hd') as (r' & Hr' & Hact & _).
  fold r0 in Hr'. rewrite HF in Hr'. injection Hr' as <-.
  set (o1 := take_channel_index (pick_item item o)).
  destruct (Hnth k o1) as (o' & Hk' & Hpass).
  { unfold rows2, o1. rewrite !nth_error_map_at, Nat.eqb_refl.
    unfold edge_rows in Hk. change (_edge_row_list r0)
      with (_edge_row_list (mode_rows_at d (active_dex view))).
    now rewrite Hk. }
  exists d', o'. split; [exact Hd'|].
  unfold edge_rows, dist_rows. rewrite Hact.
  split; [exact Hk'|].
  assert (Ho1 : edge_displayed o1 = true).
  { unfold o1. rewrite take_channel_index_displayed, pick_item_displayed.
    exact (all_rows_nth _ _ _ _ Hall Hk). }
  destruct (update_edge_row_displayed edges view o1 Ho1)
    as (o2 & Ho2 & _ & _ & _ & _ & _ & Hres & Hbox & _ & Hch).
  rewrite Hpass in Ho2. injection Ho2 as <-.
  assert (Hfields : box o1 = Some (QComboBox_setCurrentIndex b item)
                    /\ channelIndex o1 = cb_current (QComboBox_setCurrentIndex b item)
                    /\ cursor1 o1 = cursor1 (pick_item item o)
                    /\ cursor2 o1 = cursor2 (pick_item item o)
                    /\ box o1 = box (pick_item item o)).
  { unfold o1, take_channel_index, pick_item. rewrite Hb.
    destruct o as [c1 c2 bx db sb eb rl ch]. cbn. repeat split. }
  destruct Hfields as (F1 & F2 & F3 & F4 & F5).
  rewrite Hbox, Hch, Hres, F1, F2.
  rewrite (edge_result_ext view (pick_item item o) o1 F5 F3 F4).
  repeat split.
Qed.

End Picking.

(** X23 on the third edge row of the sample dock, whose channel 1 is no
    longer enabled: picking item 0 of its selector sets [channelIndex] to
    0. *)
Lemma pick_channel_sets_channel_witness :
  exists d' o',
    pick_channel LogicSignal_edges 2 0 sample_view dock_before = Some d'
    /\ nth_error (edge_rows sample_view d') 2 = Some o'
    /\ channelIndex o' = 0.
Proof.
  destruct (pick_channel_sets_channel LogicSignal_edges sample_view dock_before 2 0
              (mkRow 1 2 (Some (mkQComboBox [0] 0)) (Some mkQToolButton)
                     (Some (mkQPushButton "1")) (Some (mkQPushButton "2"))
                     (Some (mkQLabel "1/1/2")) 1)
              (mkQComboBox [0] 0))
    as (d' & o' & Hd' & Hk & _ & Hch & _).
  - vm_compute. reflexivity.
  - vm_compute. reflexivity.
  - reflexivity.
  - exists d', o'. split; [exact Hd'|]. split; [exact Hk|]. rewrite Hch. reflexivity.
Defined.

(** ** The cursor panel rows stay whole *)

Section WholePanel.

Variable Max_Measure_Limits : nat.
Variable get_cm_delta : View -> Z -> Z -> string.
Variable get_cm_time : View -> Z -> string.
Variable edges : Signal -> Z -> Z -> option (Z * Z).

Lemma with_active_others (view : View) (F : row_list_item -> option row_list_item)
    (d d' : MeasureDock) :
  with_active view F d = Some d' -> others_detached view d d'.
Proof.
  intros H. destruct (with_active_at view F d d' H) as (r' & _ & _ & Ho). exact Ho.
Qed.

Ltac total_member entry :=
  let H := fresh "H" in
  intros H; injection H as <- <-;
  apply (with_active_others _ _ _ _ (eq_sym entry)).

Ltac faulting_member entry :=
  let E := fresh "E" in
  let H := fresh "H" in
  rewrite entry;
  match goal with
  | |- bind ?m _ = _ -> _ =>
      destruct m eqn:E; cbn [bind]; [|discriminate];
      intros H; injection H as <- <-;
      exact (with_active_others _ _ _ _ E)
  end.

(** Every event leaves the modes that are not active without a cursor
    panel row. *)
Lemma fire_others (e : dock_event) (view view' : View) (d d' : MeasureDock) :
  fire Max_Measure_Limits get_cm_delta get_cm_time edges e (view, d) = Some (view', d') ->
  others_detached view' d d'.
Proof.
  destruct e as [ | | sender | sender | _sel_btn sel_cursor_bt | sender item
                | sender | cursors | cursors cursors_shown | view1 | | ];
    cbn [fire].
  - total_member (add_dist_measure_entry Max_Measure_Limits view d).
  - total_member (add_edge_measure_entry Max_Measure_Limits view d).
  - total_member (del_dist_measure_entry sender view d).
  - total_member (del_edge_measure_entry sender view d).
  - faulting_member set_sel_cursor_entry.
  - faulting_member pick_channel_entry.
  - faulting_member del_cursor_entry.
  - faulting_member cursor_update_entry.
  - faulting_member cursor_moving_entry.
  - faulting_member reload_entry.
  - faulting_member reCalc_entry.
  - faulting_member reStyle_entry.
Qed.

Lemma dock_ready_opt_rows_bound (view : View) (d : MeasureDock) :
  dock_ready Max_Measure_Limits (view, d) = true ->
  forallb opt_row_bound (_opt_row_list (mode_rows_at d (active_dex view))) = true.
Proof.
  intros H. apply dock_ready_parts in H. destruct H as (_ & Hr & _).
  apply rows_ready_parts in Hr. now destruct Hr as (_ & _ & Hb & _).
Qed.

(** An event served in a ready state leaves every cursor panel row whole. *)
Lemma fire_whole (e : dock_event) (s : View * MeasureDock) :
  dock_ready Max_Measure_Limits s = true ->
  possible e s = true ->
  exists s',
    fire Max_Measure_Limits get_cm_delta get_cm_time edges e s = Some s'
    /\ dock_ready Max_Measure_Limits s' = true
    /\ cursor_panel_whole (snd s') = true.
Proof.
  intros H Hp.
  destruct (fire_ready Max_Measure_Limits get_cm_delta get_cm_time edges e s H Hp)
    as ([view' d'] & Hs' & Hr').
  exists (view', d'). split; [exact Hs'|]. split; [exact Hr'|].
  destruct s as [view d]. cbn [snd].
  apply (cursor_panel_whole_after view' d d').
  - exact (fire_others e view view' d d' Hs').
  - exact (dock_ready_opt_rows_bound view' d' Hr').
Qed.

Lemma run_ready_whole (events : list dock_event) (s : View * MeasureDock) :
  dock_ready Max_Measure_Limits s = true ->
  cursor_panel_whole (snd s) = true ->
  exists s',
    run Max_Measure_Limits get_cm_delta get_cm_time edges events s = Some s'
    /\ dock_ready Max_Measure_Limits s' = true
    /\ cursor_panel_whole (snd s') = true.
Proof.
  revert s. induction events as [|e rest IH]; intros s H Hw.
  - exists s. split; [reflexivity|]. split; assumption.
  - cbn [run]. destruct (possible e s) eqn:Hp; [|now apply IH].
    destruct (fire_whole e s H Hp) as (s1 & Hs1 & H1 & Hw1).
    rewrite Hs1. cbn [bind]. now apply IH.
Qed.

(** X24.  The calls [goto_bt->deleteLater()] and
    [info_label->deleteLater()] that [get_mode_rows] and
    [build_cursor_pannel] make on a cursor panel row with a delete button
    meet no [NULL] in any run of events: from a ready state whose cursor
    panel rows are whole every run ends in a state whose cursor panel rows
    are whole (each event served leaves no cursor panel row in the modes
    that are not active and the three widgets in every row of the active
    one). *)
Theorem run_keeps_cursor_panel_whole :
  forall (events : list dock_event) (s : View * MeasureDock),
    dock_ready Max_Measure_Limits s = true ->
    cursor_panel_whole (snd s) = true ->
    exists s',
      run Max_Measure_Limits get_cm_delta get_cm_time edges events s = Some s'
      /\ cursor_panel_whole (snd s') = true.
Proof.
  intros events s H Hw.
  destruct (run_ready_whole events s H Hw) as (s' & Hs' & _ & Hw').
  exists s'. split; assumption.
Qed.

(** X25.  The constructor leaves a dock without any cursor panel row, so
    one whose cursor panel rows are whole, whatever the storage of
    [_mode_rows] held and whatever the view. *)
Theorem constructed_dock_whole :
  forall (uninit0 uninit1 uninit2 : work_mode) (view : View) (i : mode_dex),
    _opt_row_list
      (mode_rows_at (MeasureDock_ctor Max_Measure_Limits uninit0 uninit1 uninit2 view) i)
    = []
    /\ cursor_panel_whole
         (MeasureDock_ctor Max_Measure_Limits uninit0 uninit1 uninit2 view) = true.
Proof.
  intros u0 u1 u2 view.
  unfold MeasureDock_ctor.
  set (d0 := mkDock (mkRows u0 [] [] []) (mkRows u1 [] [] []) (mkRows u2 [] [] [])).
  pose proof (add_dist_measure_entry Max_Measure_Limits view d0) as Hn.
  symmetry in Hn. apply with_active_at in Hn.
  destruct Hn as (r' & Hr' & Hact & Hoth). injection Hr' as Hr'.
  assert (Hall : forall i,
            _opt_row_list
              (mode_rows_at (add_dist_measure Max_Measure_Limits view d0) i) = []).
  { intros i. destruct (mode_dex_eq_dec i (active_dex view)) as [->|Hne].
    - rewrite Hact, <- Hr'. unfold entry_add_dist.
      cbn [set_mode_type _dist_row_list].
      destruct (_ <? _)%nat; cbn; destruct (active_dex view); reflexivity.
    - rewrite (Hoth i Hne). reflexivity. }
  intros i. split; [apply Hall|].
  apply cursor_panel_whole_parts. intros j. now rewrite Hall.
Qed.

End WholePanel.

(** X24 on the sample dock and the run of events of X5. *)
Lemma run_keeps_cursor_panel_whole_witness :
  exists s',
    run 4 sample_cm_delta sample_cm_time LogicSignal_edges sample_events
        (sample_view, dock_before) = Some s'
    /\ cursor_panel_whole (snd s') = true.
Proof.
  apply (run_keeps_cursor_panel_whole 4 sample_cm_delta sample_cm_time LogicSignal_edges
           sample_events (sample_view, dock_before)).
  - vm_compute. reflexivity.
  - vm_compute. reflexivity.
Defined.

(** ** The acquisition mode switched away and back *)


Section ModeSwitch.

Variable get_cm_delta : View -> Z -> Z -> string.
Variable get_cm_time : View -> Z -> string.
Variable edges : Signal -> Z -> Z -> option (Z * Z).






End ModeSwitch.


